(** * Verification of [scripts/process_downloads.py]

    A shallow embedding of the download processor: the two release-name
    parsers (with the regular expressions they are built on), media
    discovery over a directory listing, the dry-run aware file operations,
    the recycle-destination computation, the two per-folder processors,
    the enumeration of the items of a source root and the run as a whole.

    Python values are modelled as follows.
    - [str] is a sequence of Unicode code points: [list N].
    - [pathlib.Path] is the list of its components below the root.
    - a [dict] with string keys is a [gmap string _].
    - the file system is a listing of paths in traversal order.
    - code with effects runs in a state-and-exception monad over [world]. *)

From Stdlib Require Import NArith ZArith List String Ascii Bool Lia.
From stdpp Require Import base option list gmap strings fin_maps orders lexico sorting.

Local Open Scope N_scope.

(** ** Python strings *)

Module PyStr.

  (** A string literal of the source, as code points. *)
Definition py (s : string) : list N :=
    map N_of_ascii (list_ascii_of_string s).

Definition in_ranges (tbl : list (N * N)) (c : N) : bool :=
    existsb (fun r => (fst r <=? c) && (c <=? snd r)) tbl.

  (** [str.isspace], which is also the class [\s] of [re] on [str]
      patterns and the set removed by [str.strip()]. *)
Definition space_ranges : list (N * N) :=
    [ (9, 13); (28, 32); (133, 133); (160, 160); (5760, 5760); (8192, 8202); (8232, 8233);
    (8239, 8239); (8287, 8287); (12288, 12288) ].

Definition is_space (c : N) : bool := in_ranges space_ranges c.

  (** [str.isdecimal], the class [\d] of [re] on [str] patterns (general
      category Nd, Unicode 14.0.0 as shipped with CPython 3.11).  Every
      range starts at a digit zero and its length is a multiple of ten. *)
Definition decimal_ranges : list (N * N) :=
    [ (48, 57); (1632, 1641); (1776, 1785); (1984, 1993); (2406, 2415); (2534, 2543);
    (2662, 2671); (2790, 2799); (2918, 2927); (3046, 3055); (3174, 3183); (3302, 3311);
    (3430, 3439); (3558, 3567); (3664, 3673); (3792, 3801); (3872, 3881); (4160, 4169);
    (4240, 4249); (6112, 6121); (6160, 6169); (6470, 6479); (6608, 6617); (6784, 6793);
    (6800, 6809); (6992, 7001); (7088, 7097); (7232, 7241); (7248, 7257); (42528, 42537);
    (43216, 43225); (43264, 43273); (43472, 43481); (43504, 43513); (43600, 43609);
    (44016, 44025); (65296, 65305); (66720, 66729); (68912, 68921); (69734, 69743);
    (69872, 69881); (69942, 69951); (70096, 70105); (70384, 70393); (70736, 70745);
    (70864, 70873); (71248, 71257); (71360, 71369); (71472, 71481); (71904, 71913);
    (72016, 72025); (72784, 72793); (73040, 73049); (73120, 73129); (92768, 92777);
    (92864, 92873); (93008, 93017); (120782, 120831); (123200, 123209); (123632, 123641);
    (125264, 125273); (130032, 130041) ].

Definition is_decimal (c : N) : bool := in_ranges decimal_ranges c.

  (** [unicodedata.decimal]: the value of a decimal digit. *)
Definition decimal_value (c : N) : option N :=
    match find (fun r => (fst r <=? c) && (c <=? snd r)) decimal_ranges with
    | Some r => Some ((c - fst r) mod 10)
    | None => None
    end.

  (** [str.isalnum] (Unicode 14.0.0). *)
Definition alnum_ranges : list (N * N) :=
    [ (48, 57); (65, 90); (97, 122); (170, 170); (178, 179); (181, 181); (185, 186);
    (188, 190); (192, 214); (216, 246); (248, 705); (710, 721); (736, 740); (748, 748);
    (750, 750); (880, 884); (886, 887); (890, 893); (895, 895); (902, 902); (904, 906);
    (908, 908); (910, 929); (931, 1013); (1015, 1153); (1162, 1327); (1329, 1366);
    (1369, 1369); (1376, 1416); (1488, 1514); (1519, 1522); (1568, 1610); (1632, 1641);
    (1646, 1647); (1649, 1747); (1749, 1749); (1765, 1766); (1774, 1788); (1791, 1791);
    (1808, 1808); (1810, 1839); (1869, 1957); (1969, 1969); (1984, 2026); (2036, 2037);
    (2042, 2042); (2048, 2069); (2074, 2074); (2084, 2084); (2088, 2088); (2112, 2136);
    (2144, 2154); (2160, 2183); (2185, 2190); (2208, 2249); (2308, 2361); (2365, 2365);
    (2384, 2384); (2392, 2401); (2406, 2415); (2417, 2432); (2437, 2444); (2447, 2448);
    (2451, 2472); (2474, 2480); (2482, 2482); (2486, 2489); (2493, 2493); (2510, 2510);
    (2524, 2525); (2527, 2529); (2534, 2545); (2548, 2553); (2556, 2556); (2565, 2570);
    (2575, 2576); (2579, 2600); (2602, 2608); (2610, 2611); (2613, 2614); (2616, 2617);
    (2649, 2652); (2654, 2654); (2662, 2671); (2674, 2676); (2693, 2701); (2703, 2705);
    (2707, 2728); (2730, 2736); (2738, 2739); (2741, 2745); (2749, 2749); (2768, 2768);
    (2784, 2785); (2790, 2799); (2809, 2809); (2821, 2828); (2831, 2832); (2835, 2856);
    (2858, 2864); (2866, 2867); (2869, 2873); (2877, 2877); (2908, 2909); (2911, 2913);
    (2918, 2927); (2929, 2935); (2947, 2947); (2949, 2954); (2958, 2960); (2962, 2965);
    (2969, 2970); (2972, 2972); (2974, 2975); (2979, 2980); (2984, 2986); (2990, 3001);
    (3024, 3024); (3046, 3058); (3077, 3084); (3086, 3088); (3090, 3112); (3114, 3129);
    (3133, 3133); (3160, 3162); (3165, 3165); (3168, 3169); (3174, 3183); (3192, 3198);
    (3200, 3200); (3205, 3212); (3214, 3216); (3218, 3240); (3242, 3251); (3253, 3257);
    (3261, 3261); (3293, 3294); (3296, 3297); (3302, 3311); (3313, 3314); (3332, 3340);
    (3342, 3344); (3346, 3386); (3389, 3389); (3406, 3406); (3412, 3414); (3416, 3425);
    (3430, 3448); (3450, 3455); (3461, 3478); (3482, 3505); (3507, 3515); (3517, 3517);
    (3520, 3526); (3558, 3567); (3585, 3632); (3634, 3635); (3648, 3654); (3664, 3673);
    (3713, 3714); (3716, 3716); (3718, 3722); (3724, 3747); (3749, 3749); (3751, 3760);
    (3762, 3763); (3773, 3773); (3776, 3780); (3782, 3782); (3792, 3801); (3804, 3807);
    (3840, 3840); (3872, 3891); (3904, 3911); (3913, 3948); (3976, 3980); (4096, 4138);
    (4159, 4169); (4176, 4181); (4186, 4189); (4193, 4193); (4197, 4198); (4206, 4208);
    (4213, 4225); (4238, 4238); (4240, 4249); (4256, 4293); (4295, 4295); (4301, 4301);
    (4304, 4346); (4348, 4680); (4682, 4685); (4688, 4694); (4696, 4696); (4698, 4701);
    (4704, 4744); (4746, 4749); (4752, 4784); (4786, 4789); (4792, 4798); (4800, 4800);
    (4802, 4805); (4808, 4822); (4824, 4880); (4882, 4885); (4888, 4954); (4969, 4988);
    (4992, 5007); (5024, 5109); (5112, 5117); (5121, 5740); (5743, 5759); (5761, 5786);
    (5792, 5866); (5870, 5880); (5888, 5905); (5919, 5937); (5952, 5969); (5984, 5996);
    (5998, 6000); (6016, 6067); (6103, 6103); (6108, 6108); (6112, 6121); (6128, 6137);
    (6160, 6169); (6176, 6264); (6272, 6276); (6279, 6312); (6314, 6314); (6320, 6389);
    (6400, 6430); (6470, 6509); (6512, 6516); (6528, 6571); (6576, 6601); (6608, 6618);
    (6656, 6678); (6688, 6740); (6784, 6793); (6800, 6809); (6823, 6823); (6917, 6963);
    (6981, 6988); (6992, 7001); (7043, 7072); (7086, 7141); (7168, 7203); (7232, 7241);
    (7245, 7293); (7296, 7304); (7312, 7354); (7357, 7359); (7401, 7404); (7406, 7411);
    (7413, 7414); (7418, 7418); (7424, 7615); (7680, 7957); (7960, 7965); (7968, 8005);
    (8008, 8013); (8016, 8023); (8025, 8025); (8027, 8027); (8029, 8029); (8031, 8061);
    (8064, 8116); (8118, 8124); (8126, 8126); (8130, 8132); (8134, 8140); (8144, 8147);
    (8150, 8155); (8160, 8172); (8178, 8180); (8182, 8188); (8304, 8305); (8308, 8313);
    (8319, 8329); (8336, 8348); (8450, 8450); (8455, 8455); (8458, 8467); (8469, 8469);
    (8473, 8477); (8484, 8484); (8486, 8486); (8488, 8488); (8490, 8493); (8495, 8505);
    (8508, 8511); (8517, 8521); (8526, 8526); (8528, 8585); (9312, 9371); (9450, 9471);
    (10102, 10131); (11264, 11492); (11499, 11502); (11506, 11507); (11517, 11517);
    (11520, 11557); (11559, 11559); (11565, 11565); (11568, 11623); (11631, 11631);
    (11648, 11670); (11680, 11686); (11688, 11694); (11696, 11702); (11704, 11710);
    (11712, 11718); (11720, 11726); (11728, 11734); (11736, 11742); (11823, 11823);
    (12293, 12295); (12321, 12329); (12337, 12341); (12344, 12348); (12353, 12438);
    (12445, 12447); (12449, 12538); (12540, 12543); (12549, 12591); (12593, 12686);
    (12690, 12693); (12704, 12735); (12784, 12799); (12832, 12841); (12872, 12879);
    (12881, 12895); (12928, 12937); (12977, 12991); (13312, 19903); (19968, 42124);
    (42192, 42237); (42240, 42508); (42512, 42539); (42560, 42606); (42623, 42653);
    (42656, 42735); (42775, 42783); (42786, 42888); (42891, 42954); (42960, 42961);
    (42963, 42963); (42965, 42969); (42994, 43009); (43011, 43013); (43015, 43018);
    (43020, 43042); (43056, 43061); (43072, 43123); (43138, 43187); (43216, 43225);
    (43250, 43255); (43259, 43259); (43261, 43262); (43264, 43301); (43312, 43334);
    (43360, 43388); (43396, 43442); (43471, 43481); (43488, 43492); (43494, 43518);
    (43520, 43560); (43584, 43586); (43588, 43595); (43600, 43609); (43616, 43638);
    (43642, 43642); (43646, 43695); (43697, 43697); (43701, 43702); (43705, 43709);
    (43712, 43712); (43714, 43714); (43739, 43741); (43744, 43754); (43762, 43764);
    (43777, 43782); (43785, 43790); (43793, 43798); (43808, 43814); (43816, 43822);
    (43824, 43866); (43868, 43881); (43888, 44002); (44016, 44025); (44032, 55203);
    (55216, 55238); (55243, 55291); (63744, 64109); (64112, 64217); (64256, 64262);
    (64275, 64279); (64285, 64285); (64287, 64296); (64298, 64310); (64312, 64316);
    (64318, 64318); (64320, 64321); (64323, 64324); (64326, 64433); (64467, 64829);
    (64848, 64911); (64914, 64967); (65008, 65019); (65136, 65140); (65142, 65276);
    (65296, 65305); (65313, 65338); (65345, 65370); (65382, 65470); (65474, 65479);
    (65482, 65487); (65490, 65495); (65498, 65500); (65536, 65547); (65549, 65574);
    (65576, 65594); (65596, 65597); (65599, 65613); (65616, 65629); (65664, 65786);
    (65799, 65843); (65856, 65912); (65930, 65931); (66176, 66204); (66208, 66256);
    (66273, 66299); (66304, 66339); (66349, 66378); (66384, 66421); (66432, 66461);
    (66464, 66499); (66504, 66511); (66513, 66517); (66560, 66717); (66720, 66729);
    (66736, 66771); (66776, 66811); (66816, 66855); (66864, 66915); (66928, 66938);
    (66940, 66954); (66956, 66962); (66964, 66965); (66967, 66977); (66979, 66993);
    (66995, 67001); (67003, 67004); (67072, 67382); (67392, 67413); (67424, 67431);
    (67456, 67461); (67463, 67504); (67506, 67514); (67584, 67589); (67592, 67592);
    (67594, 67637); (67639, 67640); (67644, 67644); (67647, 67669); (67672, 67702);
    (67705, 67742); (67751, 67759); (67808, 67826); (67828, 67829); (67835, 67867);
    (67872, 67897); (67968, 68023); (68028, 68047); (68050, 68096); (68112, 68115);
    (68117, 68119); (68121, 68149); (68160, 68168); (68192, 68222); (68224, 68255);
    (68288, 68295); (68297, 68324); (68331, 68335); (68352, 68405); (68416, 68437);
    (68440, 68466); (68472, 68497); (68521, 68527); (68608, 68680); (68736, 68786);
    (68800, 68850); (68858, 68899); (68912, 68921); (69216, 69246); (69248, 69289);
    (69296, 69297); (69376, 69415); (69424, 69445); (69457, 69460); (69488, 69505);
    (69552, 69579); (69600, 69622); (69635, 69687); (69714, 69743); (69745, 69746);
    (69749, 69749); (69763, 69807); (69840, 69864); (69872, 69881); (69891, 69926);
    (69942, 69951); (69956, 69956); (69959, 69959); (69968, 70002); (70006, 70006);
    (70019, 70066); (70081, 70084); (70096, 70106); (70108, 70108); (70113, 70132);
    (70144, 70161); (70163, 70187); (70272, 70278); (70280, 70280); (70282, 70285);
    (70287, 70301); (70303, 70312); (70320, 70366); (70384, 70393); (70405, 70412);
    (70415, 70416); (70419, 70440); (70442, 70448); (70450, 70451); (70453, 70457);
    (70461, 70461); (70480, 70480); (70493, 70497); (70656, 70708); (70727, 70730);
    (70736, 70745); (70751, 70753); (70784, 70831); (70852, 70853); (70855, 70855);
    (70864, 70873); (71040, 71086); (71128, 71131); (71168, 71215); (71236, 71236);
    (71248, 71257); (71296, 71338); (71352, 71352); (71360, 71369); (71424, 71450);
    (71472, 71483); (71488, 71494); (71680, 71723); (71840, 71922); (71935, 71942);
    (71945, 71945); (71948, 71955); (71957, 71958); (71960, 71983); (71999, 71999);
    (72001, 72001); (72016, 72025); (72096, 72103); (72106, 72144); (72161, 72161);
    (72163, 72163); (72192, 72192); (72203, 72242); (72250, 72250); (72272, 72272);
    (72284, 72329); (72349, 72349); (72368, 72440); (72704, 72712); (72714, 72750);
    (72768, 72768); (72784, 72812); (72818, 72847); (72960, 72966); (72968, 72969);
    (72971, 73008); (73030, 73030); (73040, 73049); (73056, 73061); (73063, 73064);
    (73066, 73097); (73112, 73112); (73120, 73129); (73440, 73458); (73648, 73648);
    (73664, 73684); (73728, 74649); (74752, 74862); (74880, 75075); (77712, 77808);
    (77824, 78894); (82944, 83526); (92160, 92728); (92736, 92766); (92768, 92777);
    (92784, 92862); (92864, 92873); (92880, 92909); (92928, 92975); (92992, 92995);
    (93008, 93017); (93019, 93025); (93027, 93047); (93053, 93071); (93760, 93846);
    (93952, 94026); (94032, 94032); (94099, 94111); (94176, 94177); (94179, 94179);
    (94208, 100343); (100352, 101589); (101632, 101640); (110576, 110579);
    (110581, 110587); (110589, 110590); (110592, 110882); (110928, 110930);
    (110948, 110951); (110960, 111355); (113664, 113770); (113776, 113788);
    (113792, 113800); (113808, 113817); (119520, 119539); (119648, 119672);
    (119808, 119892); (119894, 119964); (119966, 119967); (119970, 119970);
    (119973, 119974); (119977, 119980); (119982, 119993); (119995, 119995);
    (119997, 120003); (120005, 120069); (120071, 120074); (120077, 120084);
    (120086, 120092); (120094, 120121); (120123, 120126); (120128, 120132);
    (120134, 120134); (120138, 120144); (120146, 120485); (120488, 120512);
    (120514, 120538); (120540, 120570); (120572, 120596); (120598, 120628);
    (120630, 120654); (120656, 120686); (120688, 120712); (120714, 120744);
    (120746, 120770); (120772, 120779); (120782, 120831); (122624, 122654);
    (123136, 123180); (123191, 123197); (123200, 123209); (123214, 123214);
    (123536, 123565); (123584, 123627); (123632, 123641); (124896, 124902);
    (124904, 124907); (124909, 124910); (124912, 124926); (124928, 125124);
    (125127, 125135); (125184, 125251); (125259, 125259); (125264, 125273);
    (126065, 126123); (126125, 126127); (126129, 126132); (126209, 126253);
    (126255, 126269); (126464, 126467); (126469, 126495); (126497, 126498);
    (126500, 126500); (126503, 126503); (126505, 126514); (126516, 126519);
    (126521, 126521); (126523, 126523); (126530, 126530); (126535, 126535);
    (126537, 126537); (126539, 126539); (126541, 126543); (126545, 126546);
    (126548, 126548); (126551, 126551); (126553, 126553); (126555, 126555);
    (126557, 126557); (126559, 126559); (126561, 126562); (126564, 126564);
    (126567, 126570); (126572, 126578); (126580, 126583); (126585, 126588);
    (126590, 126590); (126592, 126601); (126603, 126619); (126625, 126627);
    (126629, 126633); (126635, 126651); (127232, 127244); (130032, 130041);
    (131072, 173791); (173824, 177976); (177984, 178205); (178208, 183969);
    (183984, 191456); (194560, 195101); (196608, 201546) ].

  (** The class [\w] of [re]: alphanumeric or underscore. *)
Definition is_word (c : N) : bool := in_ranges alnum_ranges c || (c =? 95).

Definition is_ascii (c : N) : bool := c <? 128.
Definition is_ascii_digit (c : N) : bool := (48 <=? c) && (c <=? 57).

  (** [int(s)] on a run of decimal digits; [None] stands for the
      [ValueError] raised on the empty string or on any other character
      (signs, blanks and underscores never reach [int] from the capture
      groups of the two patterns). *)
Fixpoint int_digits (acc : Z) (s : list N) : option Z :=
    match s with
    | [] => Some acc
    | c :: s' =>
        match decimal_value c with
        | Some d => int_digits (10 * acc + Z.of_N d)%Z s'
        | None => None
        end
    end.

Definition int (s : list N) : option Z :=
    match s with
    | [] => None
    | _ :: _ => int_digits 0%Z s
    end.

  (** [str(n)] for a natural number: its decimal digits. *)
Fixpoint digits_fuel (fuel : nat) (n : N) (acc : list N) : list N :=
    match fuel with
    | O => acc
    | S fuel' =>
        let acc' := (48 + n mod 10) :: acc in
        if n <? 10 then acc' else digits_fuel fuel' (n / 10) acc'
    end.

Definition str_of_N (n : N) : list N :=
    digits_fuel (S (N.to_nat (N.log2 n))) n [].

  (** [s.replace(a, b)] for one-character [a] and [b]. *)
Definition replace_char (a b : N) (s : list N) : list N :=
    map (fun c => if c =? a then b else c) s.

  (** [re.sub(r"\s+", " ", s)]: every maximal run of white space becomes
      one space; [in_run] tells that the previous character was white. *)
Fixpoint sub_spaces (in_run : bool) (s : list N) : list N :=
    match s with
    | [] => []
    | c :: s' =>
        if is_space c
        then (if in_run then sub_spaces true s' else 32 :: sub_spaces true s')
        else c :: sub_spaces false s'
    end.

Fixpoint lstrip (s : list N) : list N :=
    match s with
    | [] => []
    | c :: s' => if is_space c then lstrip s' else s
    end.

Definition rstrip (s : list N) : list N := rev (lstrip (rev s)).

  (** [s.strip()]. *)
Definition strip (s : list N) : list N := rstrip (lstrip s).

  (** [str.lower] on the code points whose lower case is ASCII: the
      letters A-Z and KELVIN SIGN; U+0130 lowers to two code points.  On
      every other code point the result is not ASCII, and the model keeps
      the code point: [lower] is only compared with the ASCII suffixes of
      [VIDEO_EXTS]. *)
Definition lower_char (c : N) : list N :=
    if (65 <=? c) && (c <=? 90) then [c + 32]
    else if c =? 8490 then [107]
    else if c =? 304 then [105; 775]
    else [c].

Definition lower (s : list N) : list N := flat_map lower_char s.

  (** [f"{n:02d}"] for a non-negative integer. *)
Definition format_02d (n : Z) : list N :=
    let d := str_of_N (Z.to_N n) in
    if (length d <? 2)%nat then 48 :: d else d.

End PyStr.

(** ** Regular expressions

    The fragment of Python's [re] that the two patterns use, with the
    backtracking order of the [re] engine: alternatives left to right, a
    greedy [?] first with its body and then without, a lazy [+?] first
    with the fewest characters.  The matcher is written in
    continuation-passing style; a continuation that fails makes the
    matcher backtrack, and capture groups set on an abandoned branch are
    forgotten with it. *)

Module Re.
Import PyStr.

Inductive cclass :=
  | CAny              (* .   any code point but the line feed *)
  | CDigit            (* \d *)
  | CLit (c : N).     (* an ASCII literal, under re.IGNORECASE *)

Inductive regex :=
  | Bol                              (* ^ *)
  | Cls (cc : cclass)
  | WordBoundary                     (* \b *)
  | Seq (r1 r2 : regex)
  | Alt (r1 r2 : regex)              (* r1|r2 *)
  | Opt (r : regex)                  (* (?:r)? *)
  | LazyPlus (cc : cclass)           (* cc+? *)
  | Rep (n : nat) (r : regex)        (* r{n} *)
  | Group (name : string) (r : regex).   (* (?P<name>r) *)

Definition ascii_lower (c : N) : N :=
    if (65 <=? c) && (c <=? 90) then c + 32 else c.

  (** The simple lower-case mapping the engine applies to the subject
      under IGNORECASE, on the code points it sends to ASCII. *)
Definition sre_lower (x : N) : N :=
    if x =? 8490 then 107 else if x =? 304 then 105 else ascii_lower x.

  (** A literal [p] under IGNORECASE matches [x] when the lower case of [x]
      is the lower case of [p] or one of its case equivalents (LATIN SMALL
      LETTER LONG S for s, DOTLESS I for i). *)
Definition lit_match (p x : N) : bool :=
    let lo := ascii_lower p in
    (sre_lower x =? lo)
    || ((lo =? 115) && (x =? 383))
    || ((lo =? 105) && (x =? 305)).

Definition cclass_match (cc : cclass) (x : N) : bool :=
    match cc with
    | CAny => negb (x =? 10)
    | CDigit => is_decimal x
    | CLit p => lit_match p x
    end.

Definition word_at (o : option N) : bool :=
    match o with
    | Some c => is_word c
    | None => false
    end.

Section Matcher.
Context {R : Type}.

    (** What remains to be matched: the previous code point, the rest of
        the subject and the groups captured so far. *)
Definition cont := option N -> list N -> gmap string (list N) -> option R.

Fixpoint lazy_loop (cc : cclass) (prev : N) (s : list N)
        (g : gmap string (list N)) (k : cont) : option R :=
      match k (Some prev) s g with
      | Some r => Some r
      | None =>
          match s with
          | c :: s' => if cclass_match cc c then lazy_loop cc c s' g k else None
          | [] => None
          end
      end.

Fixpoint rmatch (r : regex) (prev : option N) (s : list N)
        (g : gmap string (list N)) (k : cont) : option R :=
      match r with
      | Bol => match prev with None => k prev s g | Some _ => None end
      | Cls cc =>
          match s with
          | c :: s' => if cclass_match cc c then k (Some c) s' g else None
          | [] => None
          end
      | WordBoundary =>
          if xorb (word_at prev) (word_at (head s)) then k prev s g else None
      | Seq r1 r2 =>
          rmatch r1 prev s g (fun prev' s' g' => rmatch r2 prev' s' g' k)
      | Alt r1 r2 =>
          match rmatch r1 prev s g k with
          | Some x => Some x
          | None => rmatch r2 prev s g k
          end
      | Opt r1 =>
          match rmatch r1 prev s g k with
          | Some x => Some x
          | None => k prev s g
          end
      | LazyPlus cc =>
          match s with
          | c :: s' => if cclass_match cc c then lazy_loop cc c s' g k else None
          | [] => None
          end
      | Rep n r1 =>
          (fix rep (n : nat) (prev : option N) (s : list N)
               (g : gmap string (list N)) : option R :=
             match n with
             | O => k prev s g
             | S n' => rmatch r1 prev s g (fun prev' s' g' => rep n' prev' s' g')
             end) n prev s g
      | Group name r1 =>
          rmatch r1 prev s g
            (fun prev' s' g' =>
               k prev' s' (<[name := take (length s - length s') s]> g'))
      end.
End Matcher.

  (** [pattern.match(s)]: the groups of the first match at the start of
      [s], or [None]. *)
Definition re_match (r : regex) (s : list N) : option (gmap string (list N)) :=
    rmatch r None s ∅ (fun _ _ g => Some g).

Definition lit (a : ascii) : regex := Cls (CLit (N_of_ascii a)).
Definition digit : regex := Cls CDigit.

Fixpoint concat (rs : list regex) : regex :=
    match rs with
    | [] => Rep 0 Bol
    | [r] => r
    | r :: rs' => Seq r (concat rs')
    end.

End Re.

(** ** The name parser *)

Import PyStr Re.

(** [19\d{2}|20\d{2}] *)
Definition YEAR : regex :=
  Alt (concat [lit "1"; lit "9"; Rep 2 digit])
      (concat [lit "2"; lit "0"; Rep 2 digit]).

(** [^(?P<show>.+?)(?:\.(?P<year>19\d{2}|20\d{2}))?\.S(?P<season>\d{2})E(?P<ep>\d{2})\b],
    compiled with [re.IGNORECASE]. *)
Definition TV_RE : regex :=
  concat [ Bol;
        Group "show" (LazyPlus CAny);
        Opt (concat [lit "."; Group "year" YEAR]);
        lit "."; lit "S"; Group "season" (Rep 2 digit);
        lit "E"; Group "ep" (Rep 2 digit);
        WordBoundary ].

(** [^(?P<title>.+?)\.(?P<year>19\d{2}|20\d{2})\b], compiled with
    [re.IGNORECASE]. *)
Definition MOVIE_RE : regex :=
  concat [ Bol;
        Group "title" (LazyPlus CAny);
        lit "."; Group "year" YEAR;
        WordBoundary ].

Record ParsedTV := mkParsedTV
  { show : list N; tv_year : option Z; season : Z; episode : Z }.

Record ParsedMovie := mkParsedMovie
  { title : list N; movie_year : Z }.

(** A Python computation without state: a value, or an exception. *)
Inductive exc (A : Type) :=
| Return (a : A)
| Raise (e : string).
Arguments Return {A} a.
Arguments Raise {A} e.

#[global] Instance exc_ret : MRet exc := fun A a => Return a.
#[global] Instance exc_bind : MBind exc := fun A B f m =>
  match m with
  | Return a => f a
  | Raise e => Raise e
  end.

#[global] Instance exc_fmap : FMap exc := fun A B f m =>
  match m with
  | Return a => Return (f a)
  | Raise e => Raise e
  end.

(** [m.group(name)] is [None] for a group that took no part in the match;
    a string method or [int] applied to it raises. *)
Definition group_str (m : gmap string (list N)) (name : string) : exc (list N) :=
  match m !! name with
  | Some s => Return s
  | None => Raise "TypeError"
  end.

Definition int_exc (s : list N) : exc Z :=
  match int s with
  | Some z => Return z
  | None => Raise "ValueError"
  end.

Definition slug_to_name (s : list N) : list N :=
  let s := replace_char 46 32 s in
  strip (sub_spaces false s).

Definition parse_tv (release : list N) : exc (option ParsedTV) :=
  match re_match TV_RE release with
  | None => Return None
  | Some m =>
      show ← slug_to_name <$> group_str m "show";
      year ← match m !! "year" with
             | Some (c :: y) => Some <$> int_exc (c :: y)
             | _ => Return None
             end;
      season ← group_str m "season" ≫= int_exc;
      episode ← group_str m "ep" ≫= int_exc;
      Return (Some (mkParsedTV show year season episode))
  end.

Definition parse_movie (release : list N) : exc (option ParsedMovie) :=
  match re_match MOVIE_RE release with
  | None => Return None
  | Some m =>
      title ← slug_to_name <$> group_str m "title";
      year ← group_str m "year" ≫= int_exc;
      Return (Some (mkParsedMovie title year))
  end.

(** ** Paths

    A [pathlib.Path] below the root directory is the list of its
    components; the root itself is the empty list. *)

Module Path.

Definition name (p : list (list N)) : list N := List.last p [].

Definition parent (p : list (list N)) : list (list N) := List.removelast p.

  (** [p / n] for a name [n] without a slash; joining the empty string
      gives [p] back. *)
Definition join (p : list (list N)) (n : list N) : list (list N) :=
    match n with
    | [] => p
    | _ :: _ => p ++ [n]
    end.

  (** [str(p)] *)
Definition to_str (p : list (list N)) : list N :=
    match p with
    | [] => [47]
    | _ :: _ => flat_map (fun c => 47 :: c) p
    end.

  (** [s.rfind(a)] *)
Fixpoint rfind (a : N) (s : list N) : option nat :=
    match s with
    | [] => None
    | c :: s' =>
        match rfind a s' with
        | Some i => Some (S i)
        | None => if c =? a then Some O else None
        end
    end.

  (** [p.suffix]: the last dot of the name and what follows it, unless the
      dot is the first or the last character of the name. *)
Definition suffix (p : list (list N)) : list N :=
    let n := name p in
    match rfind 46 n with
    | Some i => if ((0 <? i) && (i <? length n - 1))%nat then drop i n else []
    | None => []
    end.

Definition ends_with (suf s : list N) : bool :=
    (length suf <=? length s)%nat
    && bool_decide (drop (length s - length suf) s = suf).

  (** [p] lies strictly below [root]. *)
Definition is_under (root p : list (list N)) : bool :=
    (length root <? length p)%nat && bool_decide (take (length root) p = root).

End Path.

Notation "p // n" := (Path.join p n) (at level 40, left associativity).

Definition COMPLETE : list (list N) := [py "mnt"; py "jace_complete"].
Definition MEDIA : list (list N) := [py "mnt"; py "jace_media"].
Definition CODA_HOME : list (list N) := [py "mnt"; py "jace_coda"].

Definition SRC_SERIES := COMPLETE // py "Series".
Definition SRC_MOVIES := COMPLETE // py "Movies".
Definition DST_TV := MEDIA // py "Video" // py "TV".
Definition DST_MOVIES := MEDIA // py "Video" // py "Movies".
Definition RECYCLE := COMPLETE // py "#recycle" // py "process-downloads".

Definition VIDEO_EXTS : list (list N) :=
  [py ".mkv"; py ".mp4"; py ".avi"; py ".mov"; py ".m4v"; py ".wmv"].

(** ** The file system

    The media volumes are a listing of the existing paths, each a
    directory or a regular file with its size, in the order in which a
    recursive traversal meets them.  The root directory always exists.
    The log and audit files are kept apart, as the two sinks of [world]. *)

Inductive node :=
| Dir
| File (size : N).

#[global] Instance node_eq_dec : EqDecision node.
Proof. solve_decision. Defined.

Module Fs.

Definition lookup (fs : list (list (list N) * node)) (p : list (list N))
    : option node :=
    match p with
    | [] => Some Dir
    | _ :: _ => snd <$> find (fun e => bool_decide (fst e = p)) fs
    end.

  (** [p.exists()] *)
Definition path_exists (fs : list (list (list N) * node)) (p : list (list N))
    : bool :=
    match lookup fs p with Some _ => true | None => false end.

  (** [p.is_file()] *)
Definition is_file (fs : list (list (list N) * node)) (p : list (list N))
    : bool :=
    match lookup fs p with Some (File _) => true | _ => false end.

Definition is_dir (fs : list (list (list N) * node)) (p : list (list N))
    : bool :=
    match lookup fs p with Some Dir => true | _ => false end.

  (** [root.rglob("*")]: everything below [root]. *)
Definition rglob_all (fs : list (list (list N) * node)) (root : list (list N))
    : list (list (list N)) :=
    fst <$> filter (fun e => Is_true (Path.is_under root (fst e))) fs.

  (** [root.rglob("*.rar")]: the entries below [root] whose name ends in
      [.rar]; the comparison is case sensitive on a POSIX system. *)
Definition rglob_rar (fs : list (list (list N) * node)) (root : list (list N))
    : list (list (list N)) :=
    filter (fun p => Is_true (Path.ends_with (py ".rar") (Path.name p)))
           (rglob_all fs root).

  (** [p.mkdir(parents=True, exist_ok=True)]: the missing ancestors and [p]
      become directories; [NotADirectoryError] or [FileExistsError] when a
      regular file is in the way. *)
Fixpoint mkdir_from (fs : list (list (list N) * node))
      (done todo : list (list N)) : exc (list (list (list N) * node)) :=
    match todo with
    | [] => Return fs
    | c :: todo' =>
        let p := done ++ [c] in
        match lookup fs p with
        | Some Dir => mkdir_from fs p todo'
        | Some (File _) => Raise "FileExistsError"
        | None => mkdir_from (fs ++ [(p, Dir)]) p todo'
        end
    end.

Definition mkdir_parents (fs : list (list (list N) * node)) (p : list (list N))
    : exc (list (list (list N) * node)) :=
    mkdir_from fs [] p.

  (** [os.rename(src, dst)] of a file or a whole directory tree, for a
      [dst] that is not an existing directory. *)
Definition rename (fs : list (list (list N) * node)) (src dst : list (list N))
    : exc (list (list (list N) * node)) :=
    if bool_decide (src = dst) then
      if path_exists fs src then Return fs else Raise "FileNotFoundError"
    else
      match lookup fs src with
      | None => Raise "FileNotFoundError"
      | Some kind =>
          if negb (is_dir fs (Path.parent dst)) then Raise "FileNotFoundError"
          else if Path.is_under src dst then Raise "shutil.Error"
          else if is_file fs dst && bool_decide (kind = Dir)
          then Raise "FileExistsError"
          else
            Return
              (omap (fun e =>
                  let p := fst e in
                  if bool_decide (p = src) || Path.is_under src p
                  then Some (dst ++ drop (length src) p, snd e)
                  else if bool_decide (p = dst) then None
                  else Some e) fs)
      end.

  (** [shutil.move(src, dst)]: into [dst] when it is a directory, onto
      [dst] otherwise. *)
Definition move (fs : list (list (list N) * node)) (src dst : list (list N))
    : exc (list (list (list N) * node)) :=
    if is_dir fs dst then
      if bool_decide (src = dst) then Return fs
      else
        let real_dst := dst // Path.name src in
        if path_exists fs real_dst then Raise "shutil.Error"
        else rename fs src real_dst
    else rename fs src dst.

End Fs.

(** ** The world and its monad *)

(** The mutating calls the script can issue. *)
Inductive syscall :=
| SysMkdir (p : list (list N))               (* Path.mkdir *)
| SysMove (src dst : list (list N))          (* shutil.move *)
| SysRun (cmd : list (list N)).              (* subprocess.run *)

#[global] Instance syscall_eq_dec : EqDecision syscall.
Proof. solve_decision. Defined.

(** [calls] records the mutating calls issued so far, oldest first; [log]
    holds the messages given to [log_line] and [audit_log] the events given
    to [audit] (both without their time stamp). *)
Record world := mkWorld
  { files : list (list (list N) * node);
    calls : list syscall;
    log : list (list N);
    audit_log : list (gmap string (list N)) }.

Definition M (A : Type) : Type := world -> exc (A * world).

#[global] Instance M_ret : MRet M := fun A a w => Return (a, w).
#[global] Instance M_bind : MBind M := fun A B f m w =>
  match m w with
  | Return (a, w') => f a w'
  | Raise e => Raise e
  end.

Definition gets {A} (f : world -> A) : M A := fun w => Return (f w, w).

Definition lift {A} (m : exc A) : M A := fun w =>
  match m with
  | Return a => Return (a, w)
  | Raise e => Raise e
  end.

(** The body [body x acc] of a [for x in l] loop, run over [l] in order. *)
Fixpoint for_each {A S} (l : list A) (body : A -> S -> M S) (acc : S) : M S :=
  match l with
  | [] => mret acc
  | x :: l' => acc' ← body x acc; for_each l' body acc'
  end.

Definition log_line (msg : list N) : M unit := fun w =>
  Return (tt, mkWorld (files w) (calls w) (log w ++ [msg]) (audit_log w)).

Definition audit (event : gmap string (list N)) : M unit := fun w =>
  Return (tt, mkWorld (files w) (calls w) (log w) (audit_log w ++ [event])).

Definition sys_mkdir (p : list (list N)) : M unit := fun w =>
  fs' ← Fs.mkdir_parents (files w) p;
  Return (tt, mkWorld fs' (calls w ++ [SysMkdir p]) (log w) (audit_log w)).

Definition sys_move (src dst : list (list N)) : M unit := fun w =>
  fs' ← Fs.move (files w) src dst;
  Return (tt, mkWorld fs' (calls w ++ [SysMove src dst]) (log w) (audit_log w)).

(** ** Media discovery *)

Definition find_first_rar (fs : list (list (list N) * node))
    (root : list (list N)) : option (list (list N)) :=
  List.find (Fs.is_file fs) (Fs.rglob_rar fs root).

Definition find_video_files (fs : list (list (list N) * node))
    (root : list (list N)) : list (list (list N)) :=
  List.filter
    (fun p => Fs.is_file fs p
              && bool_decide (lower (Path.suffix p) ∈ VIDEO_EXTS))
    (Fs.rglob_all fs root).

Definition stat_size (fs : list (list (list N) * node)) (p : list (list N)) : N :=
  match Fs.lookup fs p with
  | Some (File size) => size
  | _ => 0
  end.

Definition find_large_extensionless (fs : list (list (list N) * node))
    (root : list (list N)) (min_bytes : N) : list (list (list N)) :=
  List.filter
    (fun p => Fs.is_file fs p
              && bool_decide (Path.suffix p = [])
              && (min_bytes <=? stat_size fs p))
    (Fs.rglob_all fs root).

Definition default_min_bytes : N := 100 * 1024 * 1024.

(** ** File operations and the two processors *)

Definition join_words (ws : list (list N)) : list N :=
  match ws with
  | [] => []
  | w :: ws' => w ++ flat_map (fun x => 32 :: x) ws'
  end.

Section Processor.

  (** The extraction tool is a black box: what running a command line does
      to the file system, its exit status and its combined output; an
      exception when the program cannot be started. *)
Variable tool :
    list (list N) -> list (list (list N) * node) ->
    exc (Z * list N * list (list (list N) * node)).

  (** [dt.datetime.now().strftime("%Y-%m-%d")] and [os.getpid()]. *)
Variable today : list N.
Variable pid : N.

Definition run_cmd (cmd : list (list N)) : M (Z * list N) := fun w =>
    '(code, out, fs') ← tool cmd (files w);
    Return ((code, out),
            mkWorld fs' (calls w ++ [SysRun cmd]) (log w) (audit_log w)).

Definition ensure_dir (path : list (list N)) (run : bool) : M unit :=
    present ← gets (fun w => Fs.path_exists (files w) path);
    if present : bool then mret tt
    else
      (if run then sys_mkdir path else mret tt);;
      log_line (py "mkdir -p " ++ Path.to_str path).

Definition move_path (src dst : list (list N)) (run : bool) : M unit :=
    ensure_dir (Path.parent dst) run;;
    (if run then sys_move src dst else mret tt);;
    log_line (py "move " ++ Path.to_str src ++ py " -> " ++ Path.to_str dst).

Definition extract_rar (rar dest_dir : list (list N)) (run : bool)
    : M (bool * list N) :=
    ensure_dir dest_dir run;;
    let cmd := [py "unrar"; py "e"; py "-o+"; Path.to_str rar; Path.to_str dest_dir] in
    log_line (py "unrar " ++ join_words (tail cmd));;
    if negb run then mret (true, py "DRY_RUN")
    else
      '(code, out) ← run_cmd cmd;
      mret (bool_decide (code = 0%Z), out).

Definition recycle_cand (src_folder : list (list N)) (i : N) : list (list N) :=
    RECYCLE // today // (Path.name src_folder ++ py "." ++ str_of_N i).

Definition unique_recycle_dest (fs : list (list (list N) * node))
      (src_folder : list (list N)) : list (list N) :=
    let base := RECYCLE // today // Path.name src_folder in
    if negb (Fs.path_exists fs base) then base
    else
      match List.find
              (fun i => negb (Fs.path_exists fs (recycle_cand src_folder (N.of_nat i))))
              (List.seq 1 999) with
      | Some i => recycle_cand src_folder (N.of_nat i)
      | None => recycle_cand src_folder pid
      end.

  (** [out[-2000:]] *)
Definition last_2000 (out : list N) : list N := drop (length out - 2000) out.

  (** Lines 220-258 of [process_series_folder] and 273-308 of
      [process_movie_folder]: the same code, on the [details] of each.  The
      [if]/[elif] chain gives either the result of an early [return] or
      [moved_any]. *)
Definition transfer_and_recycle (release : list N) (folder dest_dir : list (list N))
      (details : gmap string (list N)) (run : bool) : M (gmap string (list N)) :=
    rar ← gets (fun w => find_first_rar (files w) folder);
    vids ← gets (fun w => find_video_files (files w) folder);
    extless ← gets (fun w => find_large_extensionless (files w) folder default_min_bytes);
    let moved_any := false in
    step ←
      match rar with
      | Some rar =>
          '(ok, out) ← extract_rar rar dest_dir run;
          if negb ok then
            log_line (py "ERROR unrar failed for " ++ Path.to_str rar
                        ++ py " (leaving source)");;
            audit (<["event" := py "unrar_failed"]>
                   (<["release" := release]>
                   (<["rar" := Path.to_str rar]>
                   (<["output" := last_2000 out]> ∅))));;
            mret (inl (<["reason" := py "unrar_failed"]>
                       (<["status" := py "error"]> details)))
          else mret (inr true)
      | None =>
          match vids with
          | _ :: _ =>
              moved_any ← for_each vids
                (fun v _ => move_path v (dest_dir // Path.name v) run;; mret true)
                moved_any;
              mret (inr moved_any)
          | [] =>
              match extless with
              | _ :: _ =>
                  moved_any ← for_each extless
                    (fun f _ =>
                       let new_name := release ++ py ".mkv" in
                       move_path f (dest_dir // new_name) run;; mret true)
                    moved_any;
                  mret (inr moved_any)
              | [] =>
                  log_line (py "IRREGULAR: no rar/video files found in "
                              ++ Path.to_str folder);;
                  mret (inl (<["reason" := py "no_media_found"]>
                             (<["status" := py "error"]> details)))
              end
          end
      end;
    match step with
    | inl result => mret result
    | inr moved_any =>
        if moved_any : bool then
          recycle_dest ← gets (fun w => unique_recycle_dest (files w) folder);
          ensure_dir (Path.parent recycle_dest) run;;
          (if run then sys_move folder recycle_dest else mret tt);;
          log_line (py "recycle " ++ Path.to_str folder ++ py " -> "
                      ++ Path.to_str recycle_dest);;
          mret (<["recycled_to" := Path.to_str recycle_dest]> details)
        else mret details
    end.

Definition process_series_folder (folder : list (list N)) (run : bool)
    : M (gmap string (list N)) :=
    let release := Path.name folder in
    parsed ← lift (parse_tv release);
    match parsed with
    | None =>
        let msg := py "IRREGULAR TV name (can't parse): " ++ release in
        log_line msg;;
        mret (<["kind" := py "tv"]> (<["release" := release]>
             (<["status" := py "error"]> (<["reason" := py "unparseable"]>
             (<["path" := Path.to_str folder]> ∅)))))
    | Some parsed =>
        let show_folder :=
          match tv_year parsed with
          | None => show parsed
          | Some y => show parsed ++ py " (" ++ str_of_N (Z.to_N y) ++ py ")"
          end in
        let season_folder := py "Season " ++ format_02d (season parsed) in
        let dest_dir := DST_TV // show_folder // season_folder in
        ensure_dir dest_dir run;;
        let details : gmap string (list N) :=
          <["kind" := py "tv"]> (<["release" := release]>
          (<["status" := py "ok"]> (<["dest" := Path.to_str dest_dir]>
          (<["path" := Path.to_str folder]> ∅)))) in
        transfer_and_recycle release folder dest_dir details run
    end.

Definition process_movie_folder (folder : list (list N)) (run : bool)
    : M (gmap string (list N)) :=
    let release := Path.name folder in
    parsed ← lift (parse_movie release);
    match parsed with
    | None =>
        let msg := py "IRREGULAR Movie name (can't parse year): " ++ release in
        log_line msg;;
        mret (<["kind" := py "movie"]> (<["release" := release]>
             (<["status" := py "error"]> (<["reason" := py "unparseable"]>
             (<["path" := Path.to_str folder]> ∅)))))
    | Some parsed =>
        let movie_folder :=
          title parsed ++ py " (" ++ str_of_N (Z.to_N (movie_year parsed)) ++ py ")" in
        let dest_dir := DST_MOVIES // movie_folder in
        ensure_dir dest_dir run;;
        let details : gmap string (list N) :=
          <["kind" := py "movie"]> (<["release" := release]>
          (<["status" := py "ok"]> (<["dest" := Path.to_str dest_dir]>
          (<["path" := Path.to_str folder]> ∅)))) in
        transfer_and_recycle release folder dest_dir details run
    end.

End Processor.

Definition TV_TAIL : regex :=
  concat [ lit "."; lit "S"; Group "season" (Rep 2 digit);
           lit "E"; Group "ep" (Rep 2 digit); WordBoundary ].

Definition YEAR_PART : regex := Seq (lit ".") (Group "year" YEAR).

(** What [\.S(?P<season>\d{2})E(?P<ep>\d{2})\b] accepts at the start of [t]:
    the two groups, the last digit and the rest. *)
Definition tail_test (t : list N) : option (list N * list N * N * list N) :=
  match t with
  | c0 :: cS :: s1 :: s2 :: cE :: e1 :: e2 :: rest =>
      if lit_match 46 c0 && lit_match 83 cS && (is_decimal s1 && is_decimal s2)
         && lit_match 69 cE && (is_decimal e1 && is_decimal e2)
         && xorb (is_word e2) (word_at (head rest))
      then Some ([s1; s2], [e1; e2], e2, rest)
      else None
  | _ => None
  end.

(** What [\.(?P<year>19\d{2}|20\d{2})] accepts at the start of [t]. *)
Definition year_test (t : list N) : option (list N * N * list N) :=
  match t with
  | c0 :: c1 :: c2 :: d1 :: d2 :: u =>
      if lit_match 46 c0
         && ((lit_match 49 c1 && lit_match 57 c2) || (lit_match 50 c1 && lit_match 48 c2))
         && (is_decimal d1 && is_decimal d2)
      then Some ([c1; c2; d1; d2], d2, u)
      else None
  | _ => None
  end.

(** What follows the show segment: the year, when there is one and the
    season marker follows it, and the season marker. *)
Definition tv_suffix (t : list N)
  : option (option (list N) * list N * list N * list N) :=
  let without_year :=
    match tail_test t with
    | Some (ss, ee, _, rest) => Some (None, ss, ee, rest)
    | None => None
    end in
  match year_test t with
  | Some (yy, _, u) =>
      match tail_test u with
      | Some (ss, ee, _, rest) => Some (Some yy, ss, ee, rest)
      | None => without_year
      end
  | None => without_year
  end.

Definition tv_fill (x : option (list N) * list N * list N * list N)
    (g : gmap string (list N)) : gmap string (list N) :=
  let '(yy, ss, ee, _) := x in
  <["ep" := ee]> (<["season" := ss]>
    (match yy with Some y => <["year" := y]> g | None => g end)).

(** What follows the title segment of a movie name. *)
Definition movie_suffix (t : list N) : option (list N * list N) :=
  match year_test t with
  | Some (yy, d2, rest) =>
      if xorb (is_word d2) (word_at (head rest)) then Some (yy, rest) else None
  | None => None
  end.

(** The lazy segment [.+?]: the shortest non-empty prefix without a line
    feed after which [test] accepts. *)
Fixpoint scan {X} (test : list N -> option X) (pre s : list N)
  : option (list N * X) :=
  match test s with
  | Some x => Some (pre, x)
  | None =>
      match s with
      | c :: s' => if negb (c =? 10) then scan test (pre ++ [c]) s' else None
      | [] => None
      end
  end.

Definition split_lazy {X} (test : list N -> option X) (release : list N)
  : option (list N * X) :=
  match release with
  | c :: s => if negb (c =? 10) then scan test [c] s else None
  | [] => None
  end.

Definition tv_groups (px : list N * (option (list N) * list N * list N * list N))
  : gmap string (list N) :=
  tv_fill (snd px) (<["show" := fst px]> ∅).

Definition movie_groups (px : list N * (list N * list N)) : gmap string (list N) :=
  <["year" := fst (snd px)]> (<["title" := fst px]> ∅).

Definition digit_of (c : N) : Z :=
  match decimal_value c with
  | Some v => Z.of_N v
  | None => 0
  end.

(** [int] on a group that the pattern made a run of decimal digits. *)
Definition int_value (s : list N) : Z :=
  match int s with
  | Some z => z
  | None => 0%Z
  end.

Definition tv_record
    (px : list N * (option (list N) * list N * list N * list N)) : ParsedTV :=
  let '(sh, (yy, ss, ee, _)) := px in
  mkParsedTV (slug_to_name sh) (int_value <$> yy) (int_value ss) (int_value ee).

Definition movie_record (px : list N * (list N * list N)) : ParsedMovie :=
  let '(sh, (yy, _)) := px in
  mkParsedMovie (slug_to_name sh) (int_value yy).

(** *** Notions used in the statements about the processors *)

(** The world after [lines] were given to [log_line], nothing else changed. *)
Definition add_log (lines : list (list N)) (w : world) : world :=
  mkWorld (files w) (calls w) (log w ++ lines) (audit_log w).

Definition mkdir_line (p : list (list N)) : list N :=
  py "mkdir -p " ++ Path.to_str p.

Definition move_line (src dst : list (list N)) : list N :=
  py "move " ++ Path.to_str src ++ py " -> " ++ Path.to_str dst.

Definition unrar_cmd (rar dest_dir : list (list N)) : list (list N) :=
  [py "unrar"; py "e"; py "-o+"; Path.to_str rar; Path.to_str dest_dir].

Definition unrar_line (rar dest_dir : list (list N)) : list N :=
  py "unrar " ++ join_words (tail (unrar_cmd rar dest_dir)).

Definition recycle_line (folder recycle_dest : list (list N)) : list N :=
  py "recycle " ++ Path.to_str folder ++ py " -> " ++ Path.to_str recycle_dest.

(** What [ensure_dir p] logs: one line when [p] is missing, nothing
    otherwise. *)
Definition mkdir_note (fs : list (list (list N) * node)) (p : list (list N))
  : list (list N) :=
  if Fs.path_exists fs p then [] else [mkdir_line p].

Definition is_move (c : syscall) : bool :=
  match c with
  | SysMove _ _ => true
  | _ => false
  end.


(** [fs'] is [fs] with new directories appended: what [mkdir] does. *)
Definition dir_ext (fs fs' : list (list (list N) * node)) : Prop :=
  exists extra,
    fs' = fs ++ extra
    /\ Forall (fun e => Fs.lookup fs' (fst e) = Some Dir) extra.

(** What [ensure_dir p run] does to the world: it logs when [p] is missing
    and, when performing, issues one [mkdir]; only directories are new. *)
Definition ensure_dir_post (p : list (list N)) (run : bool) (w w' : world) : Prop :=
  dir_ext (files w) (files w')
  /\ (run = false \/ Fs.path_exists (files w) p = true -> files w' = files w)
  /\ calls w' = calls w
                ++ (if run && negb (Fs.path_exists (files w) p)
                    then [SysMkdir p] else [])
  /\ log w' = log w ++ mkdir_note (files w) p
  /\ audit_log w' = audit_log w.

(** What [move_path src dst run] does: [ensure_dir] on the parent, then
    the move, when performing, and its log line. *)
Definition move_path_post (src dst : list (list N)) (run : bool) (w w' : world)
  : Prop :=
  exists w1,
    ensure_dir_post (Path.parent dst) run w w1
    /\ (if run then Fs.move (files w1) src dst = Return (files w')
        else files w' = files w1)
    /\ calls w' = calls w1 ++ (if run then [SysMove src dst] else [])
    /\ log w' = log w1 ++ [move_line src dst]
    /\ audit_log w' = audit_log w1.

(** A loop of [move_path] calls over [l], the file [v] going to [target v]. *)
Fixpoint moves_post (l : list (list (list N))) (target : list (list N) -> list (list N))
    (run : bool) (w w' : world) : Prop :=
  match l with
  | [] => w' = w
  | v :: l' =>
      exists w1, move_path_post v (target v) run w w1
                 /\ moves_post l' target run w1 w'
  end.

(** The retirement of [folder], lines 249-256: the recycle destination is
    computed, its parent ensured, the folder moved when performing, and the
    destination recorded in the result. *)
Definition recycle_post (today : list N) (pid : N) (folder : list (list N))
    (details : gmap string (list N)) (run : bool)
    (w : world) (d : gmap string (list N)) (w' : world) : Prop :=
  let recycle_dest := unique_recycle_dest today pid (files w) folder in
  exists w1,
    ensure_dir_post (Path.parent recycle_dest) run w w1
    /\ (if run then Fs.move (files w1) folder recycle_dest = Return (files w')
        else files w' = files w1)
    /\ calls w' = calls w1 ++ (if run then [SysMove folder recycle_dest] else [])
    /\ log w' = log w1 ++ [recycle_line folder recycle_dest]
    /\ audit_log w' = audit_log w1
    /\ d = <["recycled_to" := Path.to_str recycle_dest]> details.

Definition error_result (reason : list N) (details : gmap string (list N))
  : gmap string (list N) :=
  <["reason" := reason]> (<["status" := py "error"]> details).

Definition unrar_failed_event (release : list N) (rar : list (list N))
    (output : list N) : gmap string (list N) :=
  <["event" := py "unrar_failed"]>
    (<["release" := release]>
    (<["rar" := Path.to_str rar]>
    (<["output" := output]> ∅))).

(** The branch that the [if rar: ... elif vids: ... elif extless: ... else:]
    chain of lines 228-247 takes, as a value.  A [Path] is always true, a
    list is true when it is not empty. *)
Inductive ContentStrategy :=
| Archive (rar : list (list N))
| VideoFiles (vids : list (list (list N)))
| LargeUnlabeledFiles (extless : list (list (list N)))
| NoMedia.

Definition select_strategy (rar : option (list (list N)))
    (vids extless : list (list (list N))) : ContentStrategy :=
  match rar with
  | Some rar => Archive rar
  | None =>
      match vids with
      | _ :: _ => VideoFiles vids
      | [] =>
          match extless with
          | _ :: _ => LargeUnlabeledFiles extless
          | [] => NoMedia
          end
      end
  end.

Definition content_strategy (fs : list (list (list N) * node))
    (folder : list (list N)) : ContentStrategy :=
  select_strategy (find_first_rar fs folder) (find_video_files fs folder)
    (find_large_extensionless fs folder default_min_bytes).

(** What lines 220-258 do to the world and what they return, by the
    strategy selected in the file system of the world [w]. *)
Definition transfer_cases (tool : list (list N) -> list (list (list N) * node) ->
                                  exc (Z * list N * list (list (list N) * node)))
    (today : list N) (pid : N) (release : list N) (folder dest_dir : list (list N))
    (details : gmap string (list N)) (run : bool)
    (w : world) (d : gmap string (list N)) (w' : world) : Prop :=
  match content_strategy (files w) folder with
  | Archive rar =>
      exists ok out w1,
        extract_rar tool rar dest_dir run w = Return ((ok, out), w1)
        /\ if ok : bool
           then recycle_post today pid folder details run w1 d w'
           else d = error_result (py "unrar_failed") details
                /\ files w' = files w1 /\ calls w' = calls w1
                /\ log w' = log w1 ++ [py "ERROR unrar failed for " ++ Path.to_str rar
                                         ++ py " (leaving source)"]
                /\ audit_log w'
                   = audit_log w1 ++ [unrar_failed_event release rar (last_2000 out)]
  | VideoFiles vids =>
      exists w1,
        moves_post vids (fun v => dest_dir // Path.name v) run w w1
        /\ recycle_post today pid folder details run w1 d w'
  | LargeUnlabeledFiles extless =>
      exists w1,
        moves_post extless (fun _ => dest_dir // (release ++ py ".mkv")) run w w1
        /\ recycle_post today pid folder details run w1 d w'
  | NoMedia =>
      d = error_result (py "no_media_found") details
      /\ w' = add_log [py "IRREGULAR: no rar/video files found in "
                         ++ Path.to_str folder] w
  end.

(** The destination directory and the [details] of each processor. *)
Definition tv_dest_dir (parsed : ParsedTV) : list (list N) :=
  let show_folder :=
    match tv_year parsed with
    | None => show parsed
    | Some y => show parsed ++ py " (" ++ str_of_N (Z.to_N y) ++ py ")"
    end in
  DST_TV // show_folder // (py "Season " ++ format_02d (season parsed)).

Definition movie_dest_dir (parsed : ParsedMovie) : list (list N) :=
  DST_MOVIES // (title parsed ++ py " (" ++ str_of_N (Z.to_N (movie_year parsed))
                   ++ py ")").

Definition ok_details (kind : list N) (folder dest_dir : list (list N))
  : gmap string (list N) :=
  <["kind" := kind]> (<["release" := Path.name folder]>
  (<["status" := py "ok"]> (<["dest" := Path.to_str dest_dir]>
  (<["path" := Path.to_str folder]> ∅)))).

Definition unparseable_result (kind : list N) (folder : list (list N))
  : gmap string (list N) :=
  <["kind" := kind]> (<["release" := Path.name folder]>
  (<["status" := py "error"]> (<["reason" := py "unparseable"]>
  (<["path" := Path.to_str folder]> ∅)))).

(** *** Sample worlds

    A file system with the roots that [main] checks for, two behaviours of
    the extraction tool, and a few download folders. *)

Definition tool_ok (cmd : list (list N)) (fs : list (list (list N) * node))
  : exc (Z * list N * list (list (list N) * node)) :=
  Return (0%Z, py "All OK", fs).

Definition tool_crc_error (cmd : list (list N)) (fs : list (list (list N) * node))
  : exc (Z * list N * list (list (list N) * node)) :=
  Return (3%Z, py "CRC failed in the encrypted file. Corrupt file or wrong password.", fs).

Definition sample_roots : list (list (list N) * node) :=
  [ ([py "mnt"], Dir); (COMPLETE, Dir); (MEDIA, Dir); (CODA_HOME, Dir);
    (SRC_SERIES, Dir); (SRC_MOVIES, Dir);
    (MEDIA // py "Video", Dir); (DST_TV, Dir); (DST_MOVIES, Dir) ].

Definition sample_world (entries : list (list (list N) * node)) : world :=
  mkWorld (sample_roots ++ entries) [] [] [].

Definition sample_today : list N := py "2026-11-04".

Definition random_folder : list (list N) := SRC_SERIES // py "randomfolder".

Definition show_folder : list (list N) :=
  SRC_SERIES // py "Show.Name.2020.S01E02.1080p.WEB.x264-GRP".

Definition show_dest_dir : list (list N) :=
  DST_TV // py "Show Name (2020)" // py "Season 01".

Definition movie_folder : list (list N) :=
  SRC_MOVIES // py "Movie.Title.1999.BluRay.x264-GRP".

Definition movie_dest : list (list N) := DST_MOVIES // py "Movie Title (1999)".

(** The release of [show_folder] as a multi-part archive. *)
Definition show_with_rar : world :=
  sample_world
    [ (show_folder, Dir);
      (show_folder // py "show.name.s01e02.rar", File 50000000);
      (show_folder // py "show.name.s01e02.r00", File 50000000);
      (show_folder // py "Sample", Dir);
      (show_folder // py "Sample" // py "sample.mkv", File 2000000) ].

(** The folder of [show_folder] with nothing in it. *)
Definition show_empty : world := sample_world [(show_folder, Dir)].

(** An archive file, as [find_first_rar] looks for one: a regular file
    below [folder] whose name ends in [.rar]. *)
Definition is_archive_file (fs : list (list (list N) * node))
    (folder p : list (list N)) : Prop :=
  In p (Fs.rglob_all fs folder)
  /\ Path.ends_with (py ".rar") (Path.name p) = true
  /\ Fs.is_file fs p = true.

(** A video file, as [find_video_files] collects them. *)
Definition is_video_file (fs : list (list (list N) * node))
    (folder p : list (list N)) : Prop :=
  In p (Fs.rglob_all fs folder)
  /\ Fs.is_file fs p = true
  /\ lower (Path.suffix p) ∈ VIDEO_EXTS.

(** Scenario 1: the folder of [show_folder] with one video file. *)
Definition show_with_mkv : world :=
  sample_world
    [ (show_folder, Dir);
      (show_folder // py "show.name.s01e02.mkv", File 734003200) ].

(** A release that arrived as two large files without extension. *)
Definition blob_folder : list (list N) := SRC_MOVIES // py "Movie.Title.1999.BluRay.x264-GRP".

Definition two_blobs : world :=
  sample_world
    [ (blob_folder, Dir);
      (blob_folder // py "part1", File 734003200);
      (blob_folder // py "part2", File 629145600) ].

(** A recycle folder of the day in which the name of [show_folder] and its
    999 numbered variants are all taken. *)
Definition crowded_recycle : list (list (list N) * node) :=
  sample_roots
  ++ [ (COMPLETE // py "#recycle", Dir); (RECYCLE, Dir); (RECYCLE // sample_today, Dir);
       (RECYCLE // sample_today // Path.name show_folder, Dir) ]
  ++ map (fun i => (recycle_cand sample_today show_folder (N.of_nat i), Dir))
         (List.seq 1 999).

(** *** Notions used in the statements about the parsers *)

(** The text that the optional year group stands for in the name. *)
Definition year_text (yy : option (list N)) : list N :=
  match yy with
  | Some y => 46 :: y
  | None => []
  end.

(** A release whose season and episode are written in Arabic-Indic digits:
    [S.S٠١E٠٢]. *)
Definition arabic_indic_release : list N :=
  [83; 46; 83; 1632; 1633; 69; 1632; 1634].

(** A separator of the words of a release name: a period or white space. *)
Definition is_sep (c : N) : bool := (c =? 46) || is_space c.

(** The words of [t]: the maximal runs of characters that are no
    separators; [cur] is the word being read. *)
Fixpoint split_acc (sep : N -> bool) (cur t : list N) : list (list N) :=
  match t with
  | [] => match cur with [] => [] | _ :: _ => [cur] end
  | c :: t' =>
      if sep c
      then match cur with
           | [] => split_acc sep [] t'
           | _ :: _ => cur :: split_acc sep [] t'
           end
      else split_acc sep (cur ++ [c]) t'
  end.

Definition words_of (s : list N) : list (list N) := split_acc is_sep [] s.

(** The words of [t] joined by single spaces, in one pass: a space is due
    before a word when a separator was seen ([prev_sep]) after an earlier
    word ([started]). *)
Fixpoint join_pass (sep : N -> bool) (prev_sep started : bool) (t : list N)
  : list N :=
  match t with
  | [] => []
  | c :: t' =>
      if sep c then join_pass sep true started t'
      else (if prev_sep && started then [32] else [])
           ++ c :: join_pass sep false true t'
  end.

(** Whether [t] ends in white space ([b] when [t] is empty), and whether it
    holds a character that is not white space (or [st]). *)
Fixpoint last_ws (b : bool) (t : list N) : bool :=
  match t with
  | [] => b
  | c :: t' => last_ws (is_space c) t'
  end.

Fixpoint started_after (st : bool) (t : list N) : bool :=
  match t with
  | [] => st
  | c :: t' => started_after (st || negb (is_space c)) t'
  end.

(** Whether the pattern accepts after the show segment. *)
Definition tv_accepts (u : list N) : bool :=
  match tv_suffix u with
  | Some _ => true
  | None => false
  end.

(** A large file without extension, as [find_large_extensionless] collects
    them: a regular file below [folder] whose name has no suffix and whose
    size is at least [min_bytes]. *)
Definition is_large_file (fs : list (list (list N) * node))
    (folder : list (list N)) (min_bytes : N) (p : list (list N)) : Prop :=
  In p (Fs.rglob_all fs folder)
  /\ Fs.is_file fs p = true
  /\ Path.suffix p = []
  /\ min_bytes <= stat_size fs p.

(** *** What a dry run logs

    In a dry run the file system stays as it is, so every [ensure_dir]
    meets the same directories: a missing directory is announced by each
    of them. *)

(** The lines of a loop of [move_path] calls over [l]: for each file, the
    [mkdir] of the parent of its target when that is missing, and the
    move. *)
Definition preview_moves (fs : list (list (list N) * node))
    (l : list (list (list N))) (target : list (list N) -> list (list N))
  : list (list N) :=
  flat_map
    (fun v => mkdir_note fs (Path.parent (target v)) ++ [move_line v (target v)])
    l.

(** The lines of the retirement of [folder]. *)
Definition preview_recycle (today : list N) (pid : N)
    (fs : list (list (list N) * node)) (folder : list (list N)) : list (list N) :=
  let recycle_dest := unique_recycle_dest today pid fs folder in
  mkdir_note fs (Path.parent recycle_dest) ++ [recycle_line folder recycle_dest].

(** The lines of lines 220-258 and 273-308, by the strategy selected: the
    extraction that would run, or the moves that would be made, and the
    retirement; or the report that no media was found. *)
Definition preview_transfer (today : list N) (pid : N)
    (fs : list (list (list N) * node)) (release : list N)
    (folder dest_dir : list (list N)) : list (list N) :=
  match content_strategy fs folder with
  | Archive rar =>
      mkdir_note fs dest_dir ++ [unrar_line rar dest_dir]
        ++ preview_recycle today pid fs folder
  | VideoFiles vids =>
      preview_moves fs vids (fun v => dest_dir // Path.name v)
        ++ preview_recycle today pid fs folder
  | LargeUnlabeledFiles extless =>
      preview_moves fs extless (fun _ => dest_dir // (release ++ py ".mkv"))
        ++ preview_recycle today pid fs folder
  | NoMedia =>
      [py "IRREGULAR: no rar/video files found in " ++ Path.to_str folder]
  end.

(** The result of a dry run of a parsed folder: the retirement that would
    be made, unless no media was found. *)
Definition preview_result (today : list N) (pid : N)
    (fs : list (list (list N) * node)) (folder : list (list N))
    (details : gmap string (list N)) : gmap string (list N) :=
  match content_strategy fs folder with
  | NoMedia => error_result (py "no_media_found") details
  | _ =>
      <["recycled_to" := Path.to_str (unique_recycle_dest today pid fs folder)]>
        details
  end.

(** ** The items of a source root and the whole run *)

Definition LOG_DIR : list (list N) := CODA_HOME // py "logs".

Definition SKIP_NAMES : list (list N) := [py ".DS_Store"; py "#recycle"].

(** [root.iterdir()]: the entries directly in [root], in the order of the
    listing. *)
Definition iterdir (fs : list (list (list N) * node)) (root : list (list N))
  : exc (list (list (list N))) :=
  match Fs.lookup fs root with
  | None => Raise "FileNotFoundError"
  | Some (File _) => Raise "NotADirectoryError"
  | Some Dir =>
      Return (List.filter
                (fun p => bool_decide (p <> [] /\ Path.parent p = root))
                (fst <$> fs))
  end.

(** Paths compare by their components and strings by their code points, a
    proper prefix first: the lexicographic order.  [path_le p q] is
    [not (q < p)]. *)
Definition path_le (p q : list (list N)) : Prop := ~ lexico q p.

#[global] Instance path_le_dec : RelDecision path_le.
Proof. intros p q. unfold path_le. apply _. Defined.

(** [sorted(l)] *)
Definition sorted (l : list (list (list N))) : list (list (list N)) :=
  merge_sort path_le l.

(** [s.startswith(".")] *)
Definition starts_with_dot (s : list N) : bool :=
  match s with
  | c :: _ => c =? 46
  | [] => false
  end.

(** Whether [iter_items] yields the entry [p]. *)
Definition is_item (p : list (list N)) : bool :=
  negb (bool_decide (Path.name p ∈ SKIP_NAMES))
  && negb (starts_with_dot (Path.name p)).

(** The generator runs up to its first [yield] when the [for] loop asks
    for the first item: the directory is read and sorted then, before any
    item is processed. *)
Definition iter_items (fs : list (list (list N) * node)) (src_root : list (list N))
  : exc (list (list (list N))) :=
  if negb (Fs.path_exists fs src_root) then Return []
  else
    entries ← iterdir fs src_root;
    Return (List.filter is_item (sorted entries)).

(** The roots that [main] checks for, in the order of the check. *)
Definition required_roots : list (list (list N)) :=
  [SRC_SERIES; SRC_MOVIES; DST_TV; DST_MOVIES; CODA_HOME].

Definition missing_root (fs : list (list (list N) * node))
  : option (list (list N)) :=
  List.find (fun p => negb (Fs.path_exists fs p)) required_roots.

(** [r.get("status") == "ok"] *)
Definition status_ok (r : gmap string (list N)) : bool :=
  bool_decide (r !! "status" = Some (py "ok")).

(** The events that [main] gives to [audit].  A number is held by its
    decimal rendering, as [json.dumps] writes it.  In [{"event": "item",
    **r}] the entries of [r] come last and win. *)
Definition start_event (run : bool) : gmap string (list N) :=
  <["event" := py "start"]> (<["mode" := if run then py "run" else py "dry"]> ∅).

Definition item_event (r : gmap string (list N)) : gmap string (list N) :=
  r ∪ {["event" := py "item"]}.

Definition done_event (ok err : nat) : gmap string (list N) :=
  <["event" := py "done"]>
    (<["ok" := str_of_N (N.of_nat ok)]>
    (<["error" := str_of_N (N.of_nat err)]> ∅)).

Definition start_line (run : bool) : list N :=
  py "process-downloads start mode=" ++ (if run then py "RUN" else py "DRY_RUN").

Definition done_line (ok err : nat) : list N :=
  py "process-downloads done ok=" ++ str_of_N (N.of_nat ok)
    ++ py " error=" ++ str_of_N (N.of_nat err).

(** A read of the file system that may raise. *)
Definition reads {A} (f : list (list (list N) * node) -> exc A) : M A :=
  fun w => lift (f (files w)) w.

Section Main.

Variable tool :
    list (list N) -> list (list (list N) * node) ->
    exc (Z * list N * list (list (list N) * node)).
Variable today : list N.
Variable pid : N.

(** The body of the two loops of [main], lines 330-335 and 337-342, for
    the processor of each. *)
Definition process_items
    (process : list (list N) -> bool -> M (gmap string (list N)))
    (items : list (list (list N))) (run : bool)
    (results : list (gmap string (list N)))
  : M (list (gmap string (list N))) :=
  for_each items
    (fun item results =>
       is_d ← gets (fun w => Fs.is_dir (files w) item);
       if negb is_d then mret results
       else
         r ← process item run;
         audit (item_event r);;
         mret (results ++ [r]))
    results.

(** [main], for the value of the [--run] flag.  The log directory
    [LOG_DIR] belongs to the log sink: [log_line] and [audit] create it
    when it is missing, in either mode, and this is not recorded in [files]
    or [calls]; nothing reads below [CODA_HOME] after the sanity checks.
    What is stated about the files of a whole run is stated for a log
    directory that exists. *)
Definition main (run : bool) : M Z :=
  missing ← gets (fun w => missing_root (files w));
  match missing with
  | Some p =>
      log_line (py "ERROR missing path: " ++ Path.to_str p);;
      mret 2%Z
  | None =>
      log_line (start_line run);;
      audit (start_event run);;
      let results : list (gmap string (list N)) := [] in
      series ← reads (fun fs => iter_items fs SRC_SERIES);
      results ← process_items (process_series_folder tool today pid) series run results;
      movies ← reads (fun fs => iter_items fs SRC_MOVIES);
      results ← process_items (process_movie_folder tool today pid) movies run results;
      let ok := length (List.filter status_ok results) in
      let err := length (List.filter (fun r => negb (status_ok r)) results) in
      log_line (done_line ok err);;
      audit (done_event ok err);;
      mret (if (err =? 0)%nat then 0%Z else 1%Z)
  end.

End Main.

(** *** Notions used in the statements about the whole run *)

(** The mutating calls that processing [folder] into the library below
    [lib] may issue: directories are made in the library or in the recycle
    area; what is moved lies below the folder and goes into the library, or
    is the folder itself and goes into the recycle area; the only program
    run is the extraction of an archive below the folder into the
    library. *)
Definition call_in_bounds (lib folder : list (list N)) (c : syscall) : Prop :=
  match c with
  | SysMkdir p => lib `prefix_of` p \/ RECYCLE `prefix_of` p
  | SysMove src dst =>
      (Path.is_under folder src = true /\ lib `prefix_of` dst)
      \/ (src = folder /\ RECYCLE `prefix_of` dst)
  | SysRun cmd =>
      exists rar dest_dir,
        cmd = unrar_cmd rar dest_dir
        /\ Path.is_under folder rar = true /\ lib `prefix_of` dest_dir
  end.

(** The results that [main] audited, among the events of an audit log. *)
Definition is_item_event (e : gmap string (list N)) : bool :=
  bool_decide (e !! "event" = Some (py "item")).

Definition audited_items (events : list (gmap string (list N)))
  : list (gmap string (list N)) :=
  List.filter is_item_event events.

(** The log directory and a source root with a hidden entry, a recycle
    folder, a stray file and two releases, out of order. *)
Definition busy_series : world :=
  sample_world
    [ (LOG_DIR, Dir);
      (SRC_SERIES // py "randomfolder", Dir);
      (SRC_SERIES // py ".DS_Store", File 6148);
      (SRC_SERIES // py "#recycle", Dir);
      (SRC_SERIES // py ".hidden", Dir);
      (SRC_SERIES // py "notes.txt", File 12);
      (show_folder, Dir);
      (show_folder // py "show.name.s01e02.mkv", File 734003200) ].

(** A result of the processor of [kind] for an item of the source root
    [root]: a folder directly in the root that [iter_items] yields. *)
Definition result_of_item (kind : list N) (root : list (list N))
    (r : gmap string (list N)) : Prop :=
  exists p,
    r !! "kind" = Some kind /\ r !! "path" = Some (Path.to_str p)
    /\ p <> [] /\ Path.parent p = root /\ is_item p = true
    /\ r !! "event" = None
    /\ (r !! "status" = Some (py "ok") \/ r !! "status" = Some (py "error")).

(** A call that is within the bounds of some item of the source root
    [root], for the library [lib] of its kind. *)
Definition call_of_item (lib root : list (list N)) (c : syscall) : Prop :=
  exists folder,
    folder <> [] /\ Path.parent folder = root /\ is_item folder = true
    /\ call_in_bounds lib folder c.

(** What a whole run may do: make directories in the two libraries and in
    the recycle area, move what lies below a source root into them, and
    extract an archive below a source root into a library. *)
Definition in_sources (p : list (list N)) : Prop :=
  Path.is_under SRC_SERIES p = true \/ Path.is_under SRC_MOVIES p = true.

Definition in_targets (p : list (list N)) : Prop :=
  DST_TV `prefix_of` p \/ DST_MOVIES `prefix_of` p \/ RECYCLE `prefix_of` p.

Definition call_of_run (c : syscall) : Prop :=
  match c with
  | SysMkdir p => in_targets p
  | SysMove src dst => in_sources src /\ in_targets dst
  | SysRun cmd =>
      exists rar dest_dir,
        cmd = unrar_cmd rar dest_dir /\ in_sources rar
        /\ (DST_TV `prefix_of` dest_dir \/ DST_MOVIES `prefix_of` dest_dir)
  end.

(** A name that makes one directory entry below the directory it is joined
    to: not empty, not [.] or [..], and without a slash. *)
Definition safe_component (c : list N) : Prop :=
  c <> [] /\ c <> py "." /\ c <> py ".." /\ ~ In 47 c.

Lemma TV_RE_eq :
  TV_RE = Seq Bol (Seq (Group "show" (LazyPlus CAny)) (Seq (Opt YEAR_PART) TV_TAIL)).
Proof. reflexivity. Qed.

Lemma MOVIE_RE_eq :
  MOVIE_RE = Seq Bol (Seq (Group "title" (LazyPlus CAny))
                      (Seq (lit ".") (Seq (Group "year" YEAR) WordBoundary))).
Proof. reflexivity. Qed.

Lemma lit_match_low p c : p < 65 -> lit_match p c = (c =? p).
Proof.
  intros Hp. unfold lit_match, sre_lower, ascii_lower.
  destruct (N.eqb_spec c p) as [->|Hne].
  - replace ((65 <=? p) && (p <=? 90)) with false
      by (symmetry; apply andb_false_iff; left; apply N.leb_gt; lia).
    replace (p =? 8490) with false by (symmetry; apply N.eqb_neq; lia).
    replace (p =? 304) with false by (symmetry; apply N.eqb_neq; lia).
    rewrite N.eqb_refl. reflexivity.
  - replace ((65 <=? p) && (p <=? 90)) with false
      by (symmetry; apply andb_false_iff; left; apply N.leb_gt; lia).
    replace (p =? 115) with false by (symmetry; apply N.eqb_neq; lia).
    replace (p =? 105) with false by (symmetry; apply N.eqb_neq; lia).
    rewrite !andb_false_l, !orb_false_r.
    destruct (N.eqb_spec c 8490); [apply N.eqb_neq; lia|].
    destruct (N.eqb_spec c 304); [apply N.eqb_neq; lia|].
    destruct ((65 <=? c) && (c <=? 90)) eqn:E.
    + apply andb_prop in E as [E1 E2]. apply N.leb_le in E1. apply N.eqb_neq. lia.
    + apply N.eqb_neq. exact Hne.
Qed.

Section RegexFacts.
Context {R : Type}.
  Implicit Types (k : @cont R) (g : gmap string (list N)).

Lemma rmatch_Seq r1 r2 prev s g k :
    rmatch (Seq r1 r2) prev s g k
    = rmatch r1 prev s g (fun prev' s' g' => rmatch r2 prev' s' g' k).
  Proof. reflexivity. Qed.

Lemma rmatch_Cls cc prev s g k :
    rmatch (Cls cc) prev s g k
    = match s with
      | c :: s' => if cclass_match cc c then k (Some c) s' g else None
      | [] => None
      end.
  Proof. reflexivity. Qed.

Lemma take_two (a b : N) (l : list N) :
    take (length (a :: b :: l) - length l) (a :: b :: l) = [a; b].
  Proof.
    replace (length (a :: b :: l) - length l)%nat with 2%nat by (simpl; lia).
    reflexivity.
  Qed.

Lemma take_four (a b c d : N) (l : list N) :
    take (length (a :: b :: c :: d :: l) - length l) (a :: b :: c :: d :: l)
    = [a; b; c; d].
  Proof.
    replace (length (a :: b :: c :: d :: l) - length l)%nat with 4%nat
      by (simpl; lia).
    reflexivity.
  Qed.

  (** [(?P<name>\d{2})] *)
Lemma rmatch_two_digits name prev s g k :
    rmatch (Group name (Rep 2 digit)) prev s g k
    = match s with
      | d1 :: d2 :: s' =>
          if is_decimal d1 && is_decimal d2
          then k (Some d2) s' (<[name := [d1; d2]]> g)
          else None
      | _ => None
      end.
  Proof.
    destruct s as [|d1 [|d2 s']]; cbn [rmatch digit cclass_match]; try reflexivity.
    - destruct (is_decimal d1); reflexivity.
    - destruct (is_decimal d1); [|reflexivity].
      destruct (is_decimal d2); [|reflexivity].
      cbn [andb]. rewrite take_two. reflexivity.
  Qed.

Lemma rmatch_tail prev t g k :
    rmatch TV_TAIL prev t g k
    = match tail_test t with
      | Some (ss, ee, e2, rest) =>
          k (Some e2) rest (<["ep" := ee]> (<["season" := ss]> g))
      | None => None
      end.
  Proof.
    unfold tail_test.
    unfold TV_TAIL, lit. cbn [concat].
    rewrite rmatch_Seq, rmatch_Cls.
    destruct t as [|c0 t]; [reflexivity|].
    change (cclass_match (CLit (N_of_ascii ".")) c0) with (lit_match 46 c0).
    destruct (lit_match 46 c0); [|by repeat (destruct t as [|? t]; try reflexivity)].
    rewrite rmatch_Seq, rmatch_Cls.
    destruct t as [|cS t]; [reflexivity|].
    change (cclass_match (CLit (N_of_ascii "S")) cS) with (lit_match 83 cS).
    destruct (lit_match 83 cS); [|by repeat (destruct t as [|? t]; try reflexivity)].
    rewrite rmatch_Seq, rmatch_two_digits.
    destruct t as [|s1 [|s2 t]]; try reflexivity.
    destruct (is_decimal s1 && is_decimal s2);
      [|by repeat (destruct t as [|? t]; try reflexivity)].
    rewrite rmatch_Seq, rmatch_Cls.
    destruct t as [|cE t]; [reflexivity|].
    change (cclass_match (CLit (N_of_ascii "E")) cE) with (lit_match 69 cE).
    destruct (lit_match 69 cE); [|by repeat (destruct t as [|? t]; try reflexivity)].
    rewrite rmatch_Seq, rmatch_two_digits.
    destruct t as [|e1 [|e2 rest]]; try reflexivity.
    destruct (is_decimal e1 && is_decimal e2); [|reflexivity].
    cbn [rmatch andb word_at].
    destruct (xorb (is_word e2) (word_at (head rest))); reflexivity.
  Qed.

Lemma rmatch_year_part prev t g k :
    rmatch YEAR_PART prev t g k
    = match year_test t with
      | Some (yy, d2, u) => k (Some d2) u (<["year" := yy]> g)
      | None => None
      end.
  Proof.
    unfold year_test, YEAR_PART, YEAR, lit. cbn [concat].
    rewrite rmatch_Seq, rmatch_Cls.
    destruct t as [|c0 t]; [reflexivity|].
    change (cclass_match (CLit (N_of_ascii ".")) c0) with (lit_match 46 c0).
    destruct (lit_match 46 c0); [|by repeat (destruct t as [|? t]; try reflexivity)].
    cbn [andb].
    destruct t as [|c1 [|c2 [|d1 [|d2 u]]]];
      cbn [rmatch cclass_match digit]; try reflexivity;
      change (N_of_ascii "1") with 49; change (N_of_ascii "9") with 57;
      change (N_of_ascii "2") with 50; change (N_of_ascii "0") with 48;
      rewrite ?(lit_match_low 49), ?(lit_match_low 50), ?(lit_match_low 57),
        ?(lit_match_low 48) by lia.
    - destruct (N.eqb_spec c1 49), (N.eqb_spec c1 50); reflexivity.
    - destruct (N.eqb_spec c1 49), (N.eqb_spec c1 50), (N.eqb_spec c2 57),
        (N.eqb_spec c2 48); reflexivity.
    - destruct (N.eqb_spec c1 49), (N.eqb_spec c1 50), (N.eqb_spec c2 57),
        (N.eqb_spec c2 48), (is_decimal d1); reflexivity.
    - rewrite take_four.
      destruct (N.eqb_spec c1 49), (N.eqb_spec c1 50), (N.eqb_spec c2 57),
        (N.eqb_spec c2 48), (is_decimal d1), (is_decimal d2);
        cbn [andb orb]; try reflexivity; try lia;
        match goal with |- match ?x with _ => _ end = _ => destruct x; reflexivity end.
  Qed.

Lemma lazy_loop_scan {X} (test : list N -> option X)
      (fill : gmap string (list N) -> list N -> X -> R) release k :
    (forall p s' g',
        k p s' g' = fill g' (take (length release - length s') release) <$> test s') ->
    forall s pre c g,
      release = pre ++ s ->
      lazy_loop CAny c s g k
      = (fun px => fill g (fst px) (snd px)) <$> scan test pre s.
  Proof.
    intros Hk.
    induction s as [|x s IH]; intros pre c g Hrel.
    - cbn [lazy_loop scan]. rewrite Hk.
      replace (take (length release - length (@nil N)) release) with pre.
      + destruct (test []); reflexivity.
      + subst release. rewrite app_nil_r. cbn [length].
        rewrite Nat.sub_0_r. symmetry. apply firstn_all.
    - cbn [lazy_loop scan]. rewrite Hk.
      replace (take (length release - length (x :: s)) release) with pre.
      + destruct (test (x :: s)); [reflexivity|].
        cbn [fmap option_fmap option_map cclass_match].
        destruct (negb (x =? 10)); [|reflexivity].
        apply IH. subst release. rewrite <- app_assoc. reflexivity.
      + subst release. rewrite length_app.
        replace (length pre + length (x :: s) - length (x :: s))%nat
          with (length pre) by lia.
        rewrite take_app_length. reflexivity.
  Qed.

End RegexFacts.

Lemma rmatch_tv_rest prev t g :
  rmatch (Seq (Opt YEAR_PART) TV_TAIL) prev t g (fun _ _ g' => Some g')
  = (fun x => tv_fill x g) <$> tv_suffix t.
Proof.
  rewrite rmatch_Seq. cbn [rmatch]. rewrite rmatch_year_part, rmatch_tail.
  unfold tv_suffix.
  destruct (year_test t) as [[[yy d2] u]|].
  - rewrite rmatch_tail.
    destruct (tail_test u) as [[[[ss ee] e2] rest]|]; [reflexivity|].
    destruct (tail_test t) as [[[[ss ee] e2] rest]|]; reflexivity.
  - destruct (tail_test t) as [[[[ss ee] e2] rest]|]; reflexivity.
Qed.

(** The TV pattern, compiled: a lazy scan for the show segment. *)
Lemma re_match_TV_RE release :
  re_match TV_RE release = tv_groups <$> split_lazy tv_suffix release.
Proof.
  unfold re_match, split_lazy. rewrite TV_RE_eq, rmatch_Seq. cbn [rmatch].
  destruct release as [|c s]; [reflexivity|].
  cbn [cclass_match]. destruct (negb (c =? 10)); [|reflexivity].
  apply (lazy_loop_scan tv_suffix
           (fun g sh x => tv_fill x (<["show" := sh]> g)) (c :: s)); [|reflexivity].
  intros p s' g'. apply rmatch_tv_rest.
Qed.

Lemma rmatch_movie_rest prev t g :
  rmatch (Seq (lit ".") (Seq (Group "year" YEAR) WordBoundary)) prev t g
    (fun _ _ g' => Some g')
  = (fun x => <["year" := fst x]> g) <$> movie_suffix t.
Proof.
  change (rmatch (Seq YEAR_PART WordBoundary) prev t g (fun _ _ g' => Some g')
          = (fun x => <["year" := fst x]> g) <$> movie_suffix t).
  rewrite rmatch_Seq, rmatch_year_part. unfold movie_suffix.
  destruct (year_test t) as [[[yy d2] u]|]; [|reflexivity].
  cbn [rmatch word_at].
  destruct (xorb (is_word d2) (word_at (head u))); reflexivity.
Qed.

Lemma re_match_MOVIE_RE release :
  re_match MOVIE_RE release = movie_groups <$> split_lazy movie_suffix release.
Proof.
  unfold re_match, split_lazy. rewrite MOVIE_RE_eq, rmatch_Seq. cbn [rmatch].
  destruct release as [|c s]; [reflexivity|].
  cbn [cclass_match]. destruct (negb (c =? 10)); [|reflexivity].
  apply (lazy_loop_scan movie_suffix
           (fun g sh x => <["year" := fst x]> (<["title" := sh]> g)) (c :: s));
    [|reflexivity].
  intros p s' g'. exact (rmatch_movie_rest p s' _).
Qed.

(** *** Decimal digits and [int] *)

Lemma is_decimal_value c :
  is_decimal c = true -> exists v, decimal_value c = Some v /\ v < 10.
Proof.
  unfold is_decimal, in_ranges, decimal_value.
  generalize decimal_ranges. intros tbl H.
  induction tbl as [|r tbl IH]; [discriminate|].
  cbn [existsb find] in *.
  destruct ((fst r <=? c) && (c <=? snd r)).
  - eexists. split; [reflexivity|]. by apply N.mod_lt.
  - apply IH. exact H.
Qed.

Lemma digit_of_range c : (0 <= digit_of c <= 9)%Z.
Proof.
  unfold digit_of, decimal_value.
  destruct (find _ _); [|lia].
  assert ((c - fst p) mod 10 < 10) as H by (by apply N.mod_lt).
  revert H. generalize ((c - fst p) mod 10). intros v Hv. lia.
Qed.

Lemma int_two d1 d2 :
  is_decimal d1 = true -> is_decimal d2 = true ->
  int [d1; d2] = Some (10 * digit_of d1 + digit_of d2)%Z.
Proof.
  intros H1 H2. unfold int, digit_of. cbn [int_digits].
  destruct (is_decimal_value _ H1) as (v1 & -> & _).
  destruct (is_decimal_value _ H2) as (v2 & -> & _).
  f_equal; lia.
Qed.

Lemma int_four c1 c2 d1 d2 :
  is_decimal c1 = true -> is_decimal c2 = true ->
  is_decimal d1 = true -> is_decimal d2 = true ->
  int [c1; c2; d1; d2]
  = Some (1000 * digit_of c1 + 100 * digit_of c2 + 10 * digit_of d1 + digit_of d2)%Z.
Proof.
  intros H1 H2 H3 H4. unfold int, digit_of. cbn [int_digits].
  destruct (is_decimal_value _ H1) as (v1 & -> & _).
  destruct (is_decimal_value _ H2) as (v2 & -> & _).
  destruct (is_decimal_value _ H3) as (v3 & -> & _).
  destruct (is_decimal_value _ H4) as (v4 & -> & _).
  f_equal; lia.
Qed.

(** *** What the acceptors accept *)

Lemma tail_test_inv t ss ee e2 rest :
  tail_test t = Some (ss, ee, e2, rest) ->
  exists cS s1 s2 cE e1,
    t = 46 :: cS :: s1 :: s2 :: cE :: e1 :: e2 :: rest
    /\ ss = [s1; s2] /\ ee = [e1; e2]
    /\ lit_match 83 cS = true /\ lit_match 69 cE = true
    /\ is_decimal s1 = true /\ is_decimal s2 = true
    /\ is_decimal e1 = true /\ is_decimal e2 = true
    /\ xorb (is_word e2) (word_at (head rest)) = true.
Proof.
  unfold tail_test.
  destruct t as [|c0 [|cS [|s1 [|s2 [|cE [|e1 [|e2' rest']]]]]]]; try discriminate.
  destruct (_ && _) eqn:E; [|discriminate].
  intros [= <- <- <- <-].
  do 5 (apply andb_prop in E as [E ?]).
  repeat match goal with
         | H : is_decimal _ && is_decimal _ = true |- _ =>
             apply andb_prop in H as [? ?]
         end.
  rewrite lit_match_low in E by lia. apply N.eqb_eq in E. subst c0.
  exists cS, s1, s2, cE, e1. repeat split; assumption.
Qed.

Lemma year_test_inv t yy d2 u :
  year_test t = Some (yy, d2, u) ->
  exists c1 c2 d1,
    t = 46 :: c1 :: c2 :: d1 :: d2 :: u
    /\ yy = [c1; c2; d1; d2]
    /\ ((c1 = 49 /\ c2 = 57) \/ (c1 = 50 /\ c2 = 48))
    /\ is_decimal d1 = true /\ is_decimal d2 = true.
Proof.
  unfold year_test.
  destruct t as [|c0 [|c1 [|c2 [|d1 [|d2' u']]]]]; try discriminate.
  destruct (_ && _) eqn:E; [|discriminate].
  intros [= <- <- <-].
  do 2 (apply andb_prop in E as [E ?]).
  repeat match goal with
         | H : is_decimal _ && is_decimal _ = true |- _ =>
             apply andb_prop in H as [? ?]
         end.
  rewrite lit_match_low in E by lia. apply N.eqb_eq in E. subst c0.
  rewrite !lit_match_low in * by lia.
  exists c1, c2, d1. repeat split; try assumption.
  match goal with H : (_ || _) = true |- _ =>
    apply orb_prop in H as [H|H]; apply andb_prop in H as [Ha Hb];
    apply N.eqb_eq in Ha, Hb; auto
  end.
Qed.

(** *** The lazy scan *)

Lemma scan_inv {X} (test : list N -> option X) s :
  forall pre sh x,
    scan test pre s = Some (sh, x) ->
    exists n, (n <= length s)%nat
      /\ sh = pre ++ take n s
      /\ test (drop n s) = Some x
      /\ Forall (fun c => c <> 10) (take n s)
      /\ forall j, (j < n)%nat -> test (drop j s) = None.
Proof.
  induction s as [|c s IH]; intros pre sh x; cbn [scan].
  - destruct (test []) as [x'|] eqn:E; [|discriminate].
    intros [= <- <-]. exists 0%nat. cbn. rewrite app_nil_r.
    repeat split; auto. intros j Hj. lia.
  - destruct (test (c :: s)) as [x'|] eqn:E.
    + intros [= <- <-]. exists 0%nat. cbn. rewrite app_nil_r.
      repeat split; auto; [lia|]. intros j Hj. lia.
    + destruct (N.eqb_spec c 10) as [->|Hc]; cbn [negb]; [discriminate|].
      intros H. apply IH in H as (n & Hn & -> & Ht & Hall & Hmin).
      exists (S n). cbn [take drop length]. rewrite <- app_assoc.
      repeat split; auto; [lia|].
      intros [|j] Hj; [exact E|]. apply Hmin. lia.
Qed.

Lemma scan_intro {X} (test : list N -> option X) s :
  forall pre n x,
    (n <= length s)%nat ->
    test (drop n s) = Some x ->
    Forall (fun c => c <> 10) (take n s) ->
    (forall j, (j < n)%nat -> test (drop j s) = None) ->
    scan test pre s = Some (pre ++ take n s, x).
Proof.
  induction s as [|c s IH]; intros pre n x Hn Ht Hall Hmin.
  - destruct n; [|cbn in Hn; lia]. cbn in *. rewrite Ht, app_nil_r. reflexivity.
  - destruct n as [|n].
    + cbn in *. rewrite Ht, app_nil_r. reflexivity.
    + cbn [scan]. pose proof (Hmin 0%nat ltac:(lia)) as H0. cbn [drop] in H0.
      rewrite H0.
      cbn [take] in Hall. apply Forall_cons in Hall as [Hc Hall].
      destruct (N.eqb_spec c 10) as [->|_]; [done|]. cbn [negb].
      rewrite (IH (pre ++ [c]) n x); cbn in Hn; try lia; auto.
      * cbn [take]. rewrite <- app_assoc. reflexivity.
      * intros j Hj. apply (Hmin (S j)). lia.
Qed.

(** The show (or title) segment is the shortest non-empty prefix without a
    line feed after which the rest of the pattern matches. *)
Lemma split_lazy_inv {X} (test : list N -> option X) release sh x :
  split_lazy test release = Some (sh, x) ->
  exists t,
    release = sh ++ t /\ sh <> [] /\ Forall (fun c => c <> 10) sh
    /\ test t = Some x
    /\ forall j, (0 < j < length sh)%nat -> test (drop j release) = None.
Proof.
  unfold split_lazy. destruct release as [|c s]; [discriminate|].
  destruct (N.eqb_spec c 10) as [->|Hc]; cbn [negb]; [discriminate|].
  intros H. apply scan_inv in H as (n & Hn & -> & Ht & Hall & Hmin).
  exists (drop n s). repeat split.
  - cbn. by rewrite take_drop.
  - discriminate.
  - constructor; assumption.
  - exact Ht.
  - intros [|j] Hj; [lia|]. cbn [drop]. apply Hmin.
    cbn [length app] in Hj. rewrite length_take in Hj. lia.
Qed.

Lemma split_lazy_intro {X} (test : list N -> option X) sh t x :
  sh <> [] -> Forall (fun c => c <> 10) sh ->
  test t = Some x ->
  (forall j, (0 < j < length sh)%nat -> test (drop j (sh ++ t)) = None) ->
  split_lazy test (sh ++ t) = Some (sh, x).
Proof.
  intros Hne Hall Ht Hmin. destruct sh as [|c sh]; [done|].
  apply Forall_cons in Hall as [Hc Hall].
  cbn [split_lazy app]. destruct (N.eqb_spec c 10) as [->|_]; [done|]. cbn [negb].
  rewrite (scan_intro test (sh ++ t) [c] (length sh) x).
  - rewrite take_app_length. reflexivity.
  - rewrite length_app. lia.
  - rewrite drop_app_length. exact Ht.
  - rewrite take_app_length. exact Hall.
  - intros j Hj. apply (Hmin (S j)). cbn [length]. lia.
Qed.

(** *** The parsers never raise *)

Lemma tail_test_int t ss ee e2 rest :
  tail_test t = Some (ss, ee, e2, rest) ->
  int ss = Some (int_value ss) /\ int ee = Some (int_value ee).
Proof.
  intros H. apply tail_test_inv in H
    as (cS & s1 & s2 & cE & e1 & _ & -> & -> & _ & _ & H1 & H2 & H3 & H4 & _).
  unfold int_value. rewrite (int_two _ _ H1 H2), (int_two _ _ H3 H4). auto.
Qed.

Lemma decimal_48 : is_decimal 48 = true. Proof. reflexivity. Qed.
Lemma decimal_49 : is_decimal 49 = true. Proof. reflexivity. Qed.
Lemma decimal_50 : is_decimal 50 = true. Proof. reflexivity. Qed.
Lemma decimal_57 : is_decimal 57 = true. Proof. reflexivity. Qed.

Lemma year_test_int t yy d2 u :
  year_test t = Some (yy, d2, u) ->
  exists c, exists y, yy = c :: y
    /\ int yy = Some (int_value yy)
    /\ (1900 <= int_value yy <= 2099)%Z.
Proof.
  intros H. apply year_test_inv in H as (c1 & c2 & d1 & _ & -> & Hc & H1 & H2).
  exists c1, [c2; d1; d2]. split; [reflexivity|].
  pose proof (digit_of_range d1). pose proof (digit_of_range d2).
  unfold int_value.
  destruct Hc as [[-> ->]|[-> ->]].
  - rewrite (int_four _ _ _ _ decimal_49 decimal_57 H1 H2).
    change (digit_of 49) with 1%Z. change (digit_of 57) with 9%Z.
    split; [reflexivity|lia].
  - rewrite (int_four _ _ _ _ decimal_50 decimal_48 H1 H2).
    change (digit_of 50) with 2%Z. change (digit_of 48) with 0%Z.
    split; [reflexivity|lia].
Qed.

Ltac map_lookup :=
  repeat first
    [ rewrite lookup_insert_eq
    | rewrite lookup_insert_ne by (intros [=])
    | rewrite lookup_empty ].

Lemma parse_tv_eq release :
  parse_tv release = Return (tv_record <$> split_lazy tv_suffix release).
Proof.
  unfold parse_tv. rewrite re_match_TV_RE.
  destruct (split_lazy tv_suffix release) as [[sh [[[yy ss] ee] rest]]|] eqn:E;
    [|reflexivity].
  apply split_lazy_inv in E as (t & _ & _ & _ & Ht & _).
  cbn [fmap option_fmap option_map tv_groups tv_fill fst snd tv_record].
  unfold group_str, tv_suffix in *.
  assert (int ss = Some (int_value ss) /\ int ee = Some (int_value ee)
          /\ match yy with
             | Some y => exists c y', y = c :: y' /\ int y = Some (int_value y)
             | None => True
             end) as (Hs & He & Hy).
  { destruct (year_test t) as [[[yy' d2] u]|] eqn:Ey.
    - destruct (tail_test u) as [[[[ss' ee'] e2] rest']|] eqn:Et.
      + injection Ht as <- <- <- <-.
        destruct (tail_test_int _ _ _ _ _ Et) as [? ?].
        destruct (year_test_int _ _ _ _ Ey) as (c & y' & ? & ? & _). eauto 6.
      + destruct (tail_test t) as [[[[ss' ee'] e2] rest']|] eqn:Et'; [|discriminate].
        injection Ht as <- <- <- <-.
        destruct (tail_test_int _ _ _ _ _ Et') as [? ?]. auto.
    - destruct (tail_test t) as [[[[ss' ee'] e2] rest']|] eqn:Et'; [|discriminate].
      injection Ht as <- <- <- <-.
      destruct (tail_test_int _ _ _ _ _ Et') as [? ?]. auto. }
  destruct yy as [y|].
  - destruct Hy as (c & y' & -> & Hy).
    map_lookup. cbn [mbind exc_bind fmap exc_fmap]. unfold int_exc.
    rewrite Hy. cbn [mbind exc_bind fmap exc_fmap]. rewrite Hs.
    cbn [mbind exc_bind fmap exc_fmap]. rewrite He. reflexivity.
  - map_lookup. cbn [mbind exc_bind fmap exc_fmap]. unfold int_exc.
    rewrite Hs. cbn [mbind exc_bind fmap exc_fmap]. rewrite He. reflexivity.
Qed.

Lemma parse_movie_eq release :
  parse_movie release = Return (movie_record <$> split_lazy movie_suffix release).
Proof.
  unfold parse_movie. rewrite re_match_MOVIE_RE.
  destruct (split_lazy movie_suffix release) as [[sh [yy rest]]|] eqn:E;
    [|reflexivity].
  apply split_lazy_inv in E as (t & _ & _ & _ & Ht & _).
  cbn [fmap option_fmap option_map movie_groups fst snd movie_record].
  unfold group_str, movie_suffix in *.
  destruct (year_test t) as [[[yy' d2] u]|] eqn:Ey; [|discriminate].
  destruct (xorb _ _); [|discriminate]. injection Ht as <- <-.
  destruct (year_test_int _ _ _ _ Ey) as (c & y' & _ & Hy & _).
  unfold movie_groups. cbn [fst snd].
  map_lookup. cbn [mbind exc_bind fmap exc_fmap]. unfold int_exc.
  rewrite Hy. reflexivity.
Qed.

(** Neither parser raises: a name is parsed, or it is not parseable. *)
Lemma parse_tv_total release : exists r, parse_tv release = Return r.
Proof. rewrite parse_tv_eq. eauto. Qed.

Lemma parse_movie_total release : exists r, parse_movie release = Return r.
Proof. rewrite parse_movie_eq. eauto. Qed.

(** ** The monad *)

Lemma bind_inv {A B} (m : M A) (f : A -> M B) w b w' :
  (m ≫= f) w = Return (b, w') ->
  exists a w1, m w = Return (a, w1) /\ f a w1 = Return (b, w').
Proof.
  unfold mbind, M_bind. destruct (m w) as [[a w1]|e]; [|discriminate]. eauto.
Qed.

Lemma bind_Return {A B} (m : M A) (f : A -> M B) w a w1 :
  m w = Return (a, w1) -> (m ≫= f) w = f a w1.
Proof. unfold mbind, M_bind. intros ->. reflexivity. Qed.

Lemma add_log_nil w : add_log [] w = w.
Proof. destruct w. unfold add_log. cbn. by rewrite app_nil_r. Qed.

Lemma add_log_app l1 l2 w : add_log l2 (add_log l1 w) = add_log (l1 ++ l2) w.
Proof. unfold add_log. cbn. by rewrite app_assoc. Qed.

Lemma log_line_eq msg w : log_line msg w = Return (tt, add_log [msg] w).
Proof. reflexivity. Qed.

(** ** Dry run: the file operations only write to the log *)

Section DryRun.
Variable tool :
    list (list N) -> list (list (list N) * node) ->
    exc (Z * list N * list (list (list N) * node)).
Variable today : list N.
Variable pid : N.

Lemma ensure_dir_dry p w :
    ensure_dir p false w = Return (tt, add_log (mkdir_note (files w) p) w).
  Proof.
    unfold ensure_dir, mkdir_note, gets, mbind, M_bind.
    destruct (Fs.path_exists (files w) p).
    - rewrite add_log_nil. reflexivity.
    - reflexivity.
  Qed.

Lemma move_path_dry src dst w :
    move_path src dst false w
    = Return (tt, add_log (mkdir_note (files w) (Path.parent dst)
                             ++ [move_line src dst]) w).
  Proof.
    unfold move_path.
    rewrite (bind_Return _ _ _ _ _ (ensure_dir_dry _ w)).
    unfold mbind, M_bind, mret, M_ret, log_line, add_log, move_line.
    cbn [files calls log audit_log]. rewrite <- app_assoc. reflexivity.
  Qed.

Lemma extract_rar_dry rar dest_dir w :
    extract_rar tool rar dest_dir false w
    = Return ((true, py "DRY_RUN"),
              add_log (mkdir_note (files w) dest_dir ++ [unrar_line rar dest_dir]) w).
  Proof.
    unfold extract_rar.
    rewrite (bind_Return _ _ _ _ _ (ensure_dir_dry _ w)).
    unfold mbind, M_bind, mret, M_ret, log_line, add_log, unrar_line, unrar_cmd.
    cbn [files calls log audit_log negb]. rewrite <- app_assoc. reflexivity.
  Qed.
End DryRun.

(** ** New directories do not change what discovery finds *)

Lemma lookup_app fs ex q :
  Fs.lookup (fs ++ ex) q
  = match Fs.lookup fs q with
    | Some x => Some x
    | None => Fs.lookup ex q
    end.
Proof.
  unfold Fs.lookup. destruct q as [|c q]; [reflexivity|].
  induction fs as [|e fs IH]; cbn [app find]; [reflexivity|].
  destruct (bool_decide (fst e = c :: q)); [reflexivity|]. exact IH.
Qed.

Lemma lookup_Some_in fs q x :
  q <> [] -> Fs.lookup fs q = Some x -> In q (map fst fs).
Proof.
  unfold Fs.lookup. destruct q as [|c q]; [done|]. intros _.
  destruct (find _ fs) as [e|] eqn:E; [|discriminate]. intros _.
  apply find_some in E as [Hin He]. apply bool_decide_eq_true in He.
  rewrite <- He. apply in_map. exact Hin.
Qed.

Lemma lookup_in_not_None fs q : In q (map fst fs) -> Fs.lookup fs q <> None.
Proof.
  unfold Fs.lookup. destruct q as [|c q]; [done|].
  intros Hin. apply in_map_iff in Hin as (e & He & Hin).
  destruct (find _ fs) as [e'|] eqn:E; [done|].
  eapply find_none in E; [|exact Hin]. apply bool_decide_eq_false in E. done.
Qed.

Lemma dir_ext_refl fs : dir_ext fs fs.
Proof. exists []. by rewrite app_nil_r. Qed.

Lemma dir_ext_lookup fs fs' q :
  dir_ext fs fs' -> Fs.lookup fs q <> None -> Fs.lookup fs' q = Fs.lookup fs q.
Proof.
  intros (ex & -> & _) H. rewrite lookup_app. by destruct (Fs.lookup fs q).
Qed.

Lemma dir_ext_trans fs1 fs2 fs3 : dir_ext fs1 fs2 -> dir_ext fs2 fs3 -> dir_ext fs1 fs3.
Proof.
  intros (e1 & -> & H1) H23. pose proof H23 as (e2 & -> & H2).
  exists (e1 ++ e2). split; [by rewrite app_assoc|].
  apply Forall_app. split; [|exact H2].
  eapply Forall_impl; [exact H1|]. intros e He. cbn beta in *.
  rewrite (dir_ext_lookup _ _ _ H23); [exact He|]. by rewrite He.
Qed.

Lemma dir_ext_new fs fs' p :
  dir_ext fs fs' -> Fs.lookup fs p = None ->
  Fs.lookup fs' p = None \/ Fs.lookup fs' p = Some Dir.
Proof.
  intros (ex & -> & Hex) E.
  destruct (Fs.lookup (fs ++ ex) p) as [y|] eqn:E2; [|by left]. right.
  destruct p as [|c p]; [cbn in E; discriminate|].
  assert (In (c :: p) (map fst ex)) as Hin.
  { rewrite lookup_app, E in E2. by apply lookup_Some_in in E2. }
  apply in_map_iff in Hin as (e & He & Hin).
  rewrite List.Forall_forall in Hex. specialize (Hex e Hin).
  rewrite He in Hex. congruence.
Qed.

Lemma dir_ext_is_file fs fs' p :
  dir_ext fs fs' -> Fs.is_file fs' p = Fs.is_file fs p.
Proof.
  intros H. unfold Fs.is_file.
  destruct (Fs.lookup fs p) as [x|] eqn:E.
  - rewrite (dir_ext_lookup _ _ _ H), E; [reflexivity|]. by rewrite E.
  - destruct (dir_ext_new _ _ _ H E) as [-> | ->]; reflexivity.
Qed.

Lemma dir_ext_stat_size fs fs' p :
  dir_ext fs fs' -> stat_size fs' p = stat_size fs p.
Proof.
  intros H. unfold stat_size.
  destruct (Fs.lookup fs p) as [x|] eqn:E.
  - rewrite (dir_ext_lookup _ _ _ H), E; [reflexivity|]. by rewrite E.
  - destruct (dir_ext_new _ _ _ H E) as [-> | ->]; reflexivity.
Qed.

Lemma dir_ext_exists fs fs' p :
  dir_ext fs fs' -> Fs.path_exists fs p = true -> Fs.path_exists fs' p = true.
Proof.
  intros H. unfold Fs.path_exists.
  destruct (Fs.lookup fs p) as [x|] eqn:E; [|discriminate].
  rewrite (dir_ext_lookup _ _ _ H), E; [done|]. by rewrite E.
Qed.

Lemma rglob_all_app fs ex root :
  Fs.rglob_all (fs ++ ex) root = Fs.rglob_all fs root ++ Fs.rglob_all ex root.
Proof. unfold Fs.rglob_all. by rewrite filter_app, fmap_app. Qed.

Lemma rglob_all_in fs root p : In p (Fs.rglob_all fs root) -> In p (map fst fs).
Proof.
  unfold Fs.rglob_all. intros H. apply list_elem_of_In in H.
  apply list_elem_of_fmap in H as (e & -> & He).
  apply list_elem_of_filter in He as [_ He]. apply list_elem_of_In in He.
  by apply in_map.
Qed.

Lemma find_app_none {A} (f : A -> bool) l1 l2 :
  (forall x, In x l2 -> f x = false) -> find f (l1 ++ l2) = find f l1.
Proof.
  intros H. induction l1 as [|a l1 IH]; cbn [app find].
  - destruct (find f l2) as [x|] eqn:E; [|reflexivity].
    apply find_some in E as [Hin Hf]. rewrite H in Hf by exact Hin. discriminate.
  - destruct (f a); [reflexivity|exact IH].
Qed.

Lemma find_ext_in {A} (f g : A -> bool) l :
  (forall x, In x l -> f x = g x) -> find f l = find g l.
Proof.
  induction l as [|a l IH]; intros H; cbn [find]; [reflexivity|].
  rewrite (H a) by (by left). destruct (g a); [reflexivity|].
  apply IH. intros x Hx. apply H. by right.
Qed.

Lemma filter_app_none {A} (f : A -> bool) l1 l2 :
  (forall x, In x l2 -> f x = false) ->
  List.filter f (l1 ++ l2) = List.filter f l1.
Proof.
  intros H. rewrite List.filter_app.
  replace (List.filter f l2) with (@nil A); [by rewrite app_nil_r|].
  symmetry. induction l2 as [|a l2 IH]; [reflexivity|]. cbn [List.filter].
  rewrite H by (by left). apply IH. intros x Hx. apply H. by right.
Qed.

Lemma new_entry_not_file fs ex root p :
  Forall (fun e => Fs.lookup (fs ++ ex) (fst e) = Some Dir) ex ->
  In p (Fs.rglob_all ex root) -> Fs.is_file (fs ++ ex) p = false.
Proof.
  intros Hex Hin. apply rglob_all_in, in_map_iff in Hin as (e & He & Hin).
  rewrite List.Forall_forall in Hex. specialize (Hex e Hin).
  unfold Fs.is_file. rewrite <- He, Hex. reflexivity.
Qed.

Lemma dir_ext_video_files fs fs' root :
  dir_ext fs fs' -> find_video_files fs' root = find_video_files fs root.
Proof.
  intros H. pose proof H as (ex & -> & Hex). unfold find_video_files.
  rewrite rglob_all_app, filter_app_none.
  - apply List.filter_ext. intros p. by rewrite (dir_ext_is_file _ _ _ H).
  - intros p Hp. by rewrite (new_entry_not_file _ _ _ _ Hex Hp).
Qed.

Lemma dir_ext_large_extensionless fs fs' root min_bytes :
  dir_ext fs fs' ->
  find_large_extensionless fs' root min_bytes
  = find_large_extensionless fs root min_bytes.
Proof.
  intros H. pose proof H as (ex & -> & Hex). unfold find_large_extensionless.
  rewrite rglob_all_app, filter_app_none.
  - apply List.filter_ext. intros p.
    by rewrite (dir_ext_is_file _ _ _ H), (dir_ext_stat_size _ _ _ H).
  - intros p Hp. by rewrite (new_entry_not_file _ _ _ _ Hex Hp).
Qed.

Lemma dir_ext_first_rar fs fs' root :
  dir_ext fs fs' -> find_first_rar fs' root = find_first_rar fs root.
Proof.
  intros H. pose proof H as (ex & -> & Hex). unfold find_first_rar, Fs.rglob_rar.
  rewrite rglob_all_app, filter_app, find_app_none.
  - apply find_ext_in. intros p _. apply (dir_ext_is_file _ _ _ H).
  - intros p Hp. apply list_elem_of_In, list_elem_of_filter in Hp as [_ Hp].
    apply list_elem_of_In in Hp. apply (new_entry_not_file _ _ _ _ Hex Hp).
Qed.

Lemma mkdir_from_dir_ext todo :
  forall fs done fs',
    Fs.mkdir_from fs done todo = Return fs' -> dir_ext fs fs'.
Proof.
  induction todo as [|c todo IH]; intros fs done fs'; cbn [Fs.mkdir_from].
  - intros [= <-]. apply dir_ext_refl.
  - destruct (Fs.lookup fs (done ++ [c])) as [[|sz]|] eqn:E.
    + apply IH.
    + discriminate.
    + intros H. apply IH in H. eapply dir_ext_trans; [|exact H].
      exists [(done ++ [c], Dir)]. split; [reflexivity|].
      constructor; [|constructor]. cbn [fst].
      rewrite lookup_app, E. unfold Fs.lookup.
      destruct (done ++ [c]) eqn:Ed; [by destruct done|].
      cbn [find fst]. rewrite bool_decide_eq_true_2 by reflexivity. reflexivity.
Qed.

Lemma mkdir_parents_dir_ext fs p fs' :
  Fs.mkdir_parents fs p = Return fs' -> dir_ext fs fs'.
Proof. apply mkdir_from_dir_ext. Qed.

(** ** The file operations, performing or not *)

Section Operations.
Variable tool :
    list (list N) -> list (list (list N) * node) ->
    exc (Z * list N * list (list (list N) * node)).
Variable today : list N.
Variable pid : N.

Lemma ensure_dir_inv p run w u w' :
    ensure_dir p run w = Return (u, w') -> ensure_dir_post p run w w'.
  Proof.
    unfold ensure_dir, ensure_dir_post, mkdir_note, gets, mbind, M_bind.
    destruct (Fs.path_exists (files w) p) eqn:E.
    - intros [= _ <-]. rewrite andb_false_r, !app_nil_r.
      auto using dir_ext_refl.
    - destruct run.
      + unfold sys_mkdir.
        destruct (Fs.mkdir_parents (files w) p) as [fs'|e] eqn:Em;
          cbn [mbind exc_bind]; [|discriminate].
        unfold log_line. cbn [files calls log audit_log].
        intros [= _ <-]. cbn [files calls log audit_log andb negb].
        repeat split; try done.
        * by apply mkdir_parents_dir_ext in Em.
        * intros [?|?]; discriminate.
      + cbn. intros [= _ <-]. cbn [files calls log audit_log].
        rewrite app_nil_r. auto using dir_ext_refl.
  Qed.

Lemma move_path_inv src dst run w u w' :
    move_path src dst run w = Return (u, w') -> move_path_post src dst run w w'.
  Proof.
    unfold move_path. intros H.
    apply bind_inv in H as (u1 & w1 & H1 & H).
    apply bind_inv in H as (u2 & w2 & H2 & H).
    apply ensure_dir_inv in H1. exists w1. split; [exact H1|].
    unfold log_line in H. injection H as _ <-. cbn [files calls log audit_log].
    destruct run.
    - unfold sys_move in H2.
      destruct (Fs.move (files w1) src dst) as [fs'|e] eqn:Em;
        cbn [mbind exc_bind] in H2; [|discriminate].
      injection H2 as _ <-. cbn [files calls log audit_log]. auto.
    - injection H2 as _ <-. rewrite app_nil_r. auto.
  Qed.

  (** A performed extraction: [ensure_dir], the log line, then the tool. *)
Lemma extract_rar_inv rar dest_dir w ok out w' :
    extract_rar tool rar dest_dir true w = Return ((ok, out), w') ->
    exists w1 code,
      ensure_dir_post dest_dir true w w1
      /\ tool (unrar_cmd rar dest_dir) (files w1) = Return (code, out, files w')
      /\ ok = bool_decide (code = 0%Z)
      /\ calls w' = calls w1 ++ [SysRun (unrar_cmd rar dest_dir)]
      /\ log w' = log w1 ++ [unrar_line rar dest_dir]
      /\ audit_log w' = audit_log w1.
  Proof.
    unfold extract_rar. intros H.
    apply bind_inv in H as (u1 & w1 & H1 & H).
    apply bind_inv in H as (u2 & w2 & H2 & H).
    apply ensure_dir_inv in H1.
    unfold log_line in H2. injection H2 as _ <-.
    cbn [negb] in H. apply bind_inv in H as ([code out'] & w3 & H3 & H).
    injection H as <- <- <-.
    unfold run_cmd in H3. cbn [files calls log audit_log] in H3.
    fold (unrar_cmd rar dest_dir) in H3.
    destruct (tool (unrar_cmd rar dest_dir) (files w1)) as [[[c o] fs']|e] eqn:Et;
      cbn [mbind exc_bind] in H3; [|discriminate].
    injection H3 as <- <- <-. cbn [files calls log audit_log].
    exists w1, c. auto 10.
  Qed.
End Operations.

Section Transfer.
Variable tool :
    list (list N) -> list (list (list N) * node) ->
    exc (Z * list N * list (list (list N) * node)).
Variable today : list N.
Variable pid : N.

Lemma for_each_moves_inv target run l :
    forall acc w moved w',
      for_each l (fun v _ => move_path v (target v) run;; mret true) acc w
      = Return (moved, w') ->
      moved = match l with [] => acc | _ :: _ => true end
      /\ moves_post l target run w w'.
  Proof.
    induction l as [|v l IH]; intros acc w moved w'; cbn [for_each moves_post].
    - intros [= <- <-]. auto.
    - intros H. apply bind_inv in H as (acc' & w1 & H1 & H).
      apply bind_inv in H1 as (u & w1' & H1 & Hr).
      injection Hr as <- <-.
      apply move_path_inv in H1. apply IH in H as [-> H].
      split; [by destruct l|]. eauto.
  Qed.

Lemma recycle_inv folder details (run : bool) w d w' :
    (recycle_dest ← (gets (fun w0 : world =>
                             unique_recycle_dest today pid (files w0) folder)
                       : M (list (list N)));
     ensure_dir (Path.parent recycle_dest) run;;
     (if run then sys_move folder recycle_dest else mret tt);;
     log_line (py "recycle " ++ Path.to_str folder ++ py " -> "
                 ++ Path.to_str recycle_dest);;
     mret (<["recycled_to" := Path.to_str recycle_dest]> details)) w
    = Return (d, w') ->
    recycle_post today pid folder details run w d w'.
  Proof.
    intros H. apply bind_inv in H as (rd & w0 & H0 & H).
    injection H0 as <- <-.
    apply bind_inv in H as (u1 & w1 & H1 & H).
    apply bind_inv in H as (u2 & w2 & H2 & H).
    apply bind_inv in H as (u3 & w3 & H3 & H).
    injection H as <- <-. injection H3 as _ <-.
    apply ensure_dir_inv in H1. exists w1. split; [exact H1|].
    cbn [files calls log audit_log]. fold (recycle_line folder
      (unique_recycle_dest today pid (files w) folder)).
    destruct run.
    - unfold sys_move in H2.
      destruct (Fs.move (files w1) folder _) as [fs'|e] eqn:Em;
        cbn [mbind exc_bind] in H2; [|discriminate].
      injection H2 as _ <-. cbn [files calls log audit_log]. auto 10.
    - injection H2 as _ <-. rewrite app_nil_r. auto 10.
  Qed.

Lemma transfer_and_recycle_inv release folder dest_dir details run w d w' :
    transfer_and_recycle tool today pid release folder dest_dir details run w
    = Return (d, w') ->
    transfer_cases tool today pid release folder dest_dir details run w d w'.
  Proof.
    unfold transfer_and_recycle, transfer_cases, content_strategy, select_strategy.
    intros H.
    apply bind_inv in H as (rar & w0 & H0 & H). injection H0 as <- <-.
    apply bind_inv in H as (vids & w0 & H0 & H). injection H0 as <- <-.
    apply bind_inv in H as (extless & w0 & H0 & H). injection H0 as <- <-.
    apply bind_inv in H as (step & w1 & Hstep & H).
    destruct (find_first_rar (files w) folder) as [rar|].
    - apply bind_inv in Hstep as ([ok out] & w2 & He & Hstep).
      exists ok, out, w2. split; [exact He|].
      destruct ok; cbn [negb] in Hstep.
      + injection Hstep as <- <-. by apply recycle_inv in H.
      + apply bind_inv in Hstep as (u1 & w3 & H3 & Hstep).
        apply bind_inv in Hstep as (u2 & w4 & H4 & Hstep).
        injection Hstep as <- <-. injection H as <- <-.
        injection H4 as _ <-. injection H3 as _ <-.
        cbn [files calls log audit_log]. auto.
    - destruct (find_video_files (files w) folder) as [|v vids] eqn:Ev.
      + destruct (find_large_extensionless (files w) folder default_min_bytes)
          as [|f extless] eqn:Ef.
        * apply bind_inv in Hstep as (u1 & w3 & H3 & Hstep).
          injection Hstep as <- <-. injection H as <- <-.
          injection H3 as _ <-. auto.
        * apply bind_inv in Hstep as (moved & w3 & H3 & Hstep).
          injection Hstep as <- <-.
          apply (for_each_moves_inv (fun _ => dest_dir // (release ++ py ".mkv")))
            in H3 as [-> H3].
          exists w3. split; [exact H3|]. by apply recycle_inv in H.
      + apply bind_inv in Hstep as (moved & w3 & H3 & Hstep).
        injection Hstep as <- <-.
        apply (for_each_moves_inv (fun v => dest_dir // Path.name v)) in H3 as [-> H3].
        exists w3. split; [exact H3|]. by apply recycle_inv in H.
  Qed.
End Transfer.

(** ** The two processors *)

Section Processors.
Variable tool :
    list (list N) -> list (list (list N) * node) ->
    exc (Z * list N * list (list (list N) * node)).
Variable today : list N.
Variable pid : N.

Lemma process_series_folder_parsed folder run w parsed :
    parse_tv (Path.name folder) = Return (Some parsed) ->
    process_series_folder tool today pid folder run w
    = (ensure_dir (tv_dest_dir parsed) run;;
       transfer_and_recycle tool today pid (Path.name folder) folder
         (tv_dest_dir parsed) (ok_details (py "tv") folder (tv_dest_dir parsed)) run) w.
  Proof.
    intros H. unfold process_series_folder, lift, mbind at 1, M_bind at 1.
    rewrite H. reflexivity.
  Qed.

Lemma process_series_folder_unparseable folder run w :
    parse_tv (Path.name folder) = Return None ->
    process_series_folder tool today pid folder run w
    = Return (unparseable_result (py "tv") folder,
              add_log [py "IRREGULAR TV name (can't parse): " ++ Path.name folder] w).
  Proof.
    intros H. unfold process_series_folder, lift, mbind at 1, M_bind at 1.
    rewrite H. reflexivity.
  Qed.

Lemma process_movie_folder_parsed folder run w parsed :
    parse_movie (Path.name folder) = Return (Some parsed) ->
    process_movie_folder tool today pid folder run w
    = (ensure_dir (movie_dest_dir parsed) run;;
       transfer_and_recycle tool today pid (Path.name folder) folder
         (movie_dest_dir parsed)
         (ok_details (py "movie") folder (movie_dest_dir parsed)) run) w.
  Proof.
    intros H. unfold process_movie_folder, lift, mbind at 1, M_bind at 1.
    rewrite H. reflexivity.
  Qed.

Lemma process_movie_folder_unparseable folder run w :
    parse_movie (Path.name folder) = Return None ->
    process_movie_folder tool today pid folder run w
    = Return (unparseable_result (py "movie") folder,
              add_log [py "IRREGULAR Movie name (can't parse year): "
                         ++ Path.name folder] w).
  Proof.
    intros H. unfold process_movie_folder, lift, mbind at 1, M_bind at 1.
    rewrite H. reflexivity.
  Qed.

  (** After the name is parsed: [ensure_dir] on the destination, then the
      transfer, whose discovery sees the same media as before. *)
Lemma ensure_then_transfer_inv release folder dest_dir details run w d w' :
    (ensure_dir dest_dir run;;
     transfer_and_recycle tool today pid release folder dest_dir details run) w
    = Return (d, w') ->
    exists w1,
      ensure_dir_post dest_dir run w w1
      /\ content_strategy (files w1) folder = content_strategy (files w) folder
      /\ transfer_cases tool today pid release folder dest_dir details run w1 d w'.
  Proof.
    intros H. apply bind_inv in H as (u & w1 & H1 & H).
    apply ensure_dir_inv in H1. apply transfer_and_recycle_inv in H.
    exists w1. split; [exact H1|]. split; [|exact H].
    destruct H1 as (Hext & _). unfold content_strategy.
    by rewrite (dir_ext_first_rar _ _ _ Hext), (dir_ext_video_files _ _ _ Hext),
      (dir_ext_large_extensionless _ _ _ _ Hext).
  Qed.
End Processors.

(** ** Dry run: the processors always return and only write to the log *)

Lemma gets_bind {A B} (f : world -> A) (k : A -> M B) w :
  (gets f ≫= k) w = k (f w) w.
Proof. reflexivity. Qed.

Lemma mret_bind {A B} (a : A) (k : A -> M B) w : (mret a ≫= k) w = k a w.
Proof. reflexivity. Qed.

Section DryRunProcessors.
Variable tool :
    list (list N) -> list (list (list N) * node) ->
    exc (Z * list N * list (list (list N) * node)).
Variable today : list N.
Variable pid : N.

Lemma for_each_moves_dry target l :
    forall acc w,
      exists lines,
        for_each l (fun v _ => move_path v (target v) false;; mret true) acc w
        = Return (match l with [] => acc | _ :: _ => true end, add_log lines w).
  Proof.
    induction l as [|v l IH]; intros acc w; cbn [for_each].
    - exists []. by rewrite add_log_nil.
    - destruct (IH true
                  (add_log (mkdir_note (files w) (Path.parent (target v))
                              ++ [move_line v (target v)]) w)) as (lines & Hl).
      eexists.
      erewrite bind_Return; [|erewrite bind_Return; [|apply move_path_dry]; reflexivity].
      rewrite Hl, add_log_app. by destruct l.
  Qed.

Lemma recycle_dry folder (details : gmap string (list N)) w :
    exists d lines,
      (recycle_dest ← (gets (fun w0 : world =>
                               unique_recycle_dest today pid (files w0) folder)
                         : M (list (list N)));
       ensure_dir (Path.parent recycle_dest) false;;
       mret tt;;
       log_line (py "recycle " ++ Path.to_str folder ++ py " -> "
                   ++ Path.to_str recycle_dest);;
       mret (<["recycled_to" := Path.to_str recycle_dest]> details)) w
      = Return (d, add_log lines w) /\ lines <> [].
  Proof.
    rewrite gets_bind.
    erewrite bind_Return; [|apply ensure_dir_dry].
    rewrite mret_bind. erewrite bind_Return; [|apply log_line_eq].
    do 2 eexists. rewrite add_log_app. split; [reflexivity|].
    by destruct (mkdir_note _ _).
  Qed.

Lemma transfer_and_recycle_dry release folder dest_dir details w :
    exists d lines,
      transfer_and_recycle tool today pid release folder dest_dir details false w
      = Return (d, add_log lines w) /\ lines <> [].
  Proof.
    unfold transfer_and_recycle. rewrite !gets_bind.
    destruct (find_first_rar (files w) folder) as [rar|].
    - erewrite bind_Return;
        [|erewrite bind_Return; [|apply extract_rar_dry]; reflexivity].
      destruct (recycle_dry folder details
                  (add_log (mkdir_note (files w) dest_dir
                              ++ [unrar_line rar dest_dir]) w)) as (d & l & Hd & Hl).
      exists d. eexists. rewrite Hd, add_log_app. split; [reflexivity|].
      intros E. apply app_eq_nil in E as [_ E]. done.
    - destruct (find_video_files (files w) folder) as [|v vids].
      + destruct (find_large_extensionless (files w) folder default_min_bytes)
          as [|f extless].
        * erewrite bind_Return;
            [|erewrite bind_Return; [|apply log_line_eq]; reflexivity].
          do 2 eexists. split; [reflexivity|done].
        * destruct (for_each_moves_dry
                      (fun _ => dest_dir // (release ++ py ".mkv"))
                      (f :: extless) false w) as (l1 & H1).
          erewrite bind_Return; [|erewrite bind_Return; [|exact H1]; reflexivity].
          destruct (recycle_dry folder details (add_log l1 w)) as (d & l & Hd & Hl).
          exists d. eexists. rewrite Hd, add_log_app. split; [reflexivity|].
          intros E. apply app_eq_nil in E as [_ E]. done.
      + destruct (for_each_moves_dry (fun v => dest_dir // Path.name v)
                    (v :: vids) false w) as (l1 & H1).
        erewrite bind_Return; [|erewrite bind_Return; [|exact H1]; reflexivity].
        destruct (recycle_dry folder details (add_log l1 w)) as (d & l & Hd & Hl).
        exists d. eexists. rewrite Hd, add_log_app. split; [reflexivity|].
        intros E. apply app_eq_nil in E as [_ E]. done.
  Qed.

Lemma process_series_folder_dry folder w :
    exists d lines,
      process_series_folder tool today pid folder false w
      = Return (d, add_log lines w) /\ lines <> [].
  Proof.
    destruct (parse_tv_total (Path.name folder)) as ([parsed|] & Hp).
    - rewrite (process_series_folder_parsed _ _ _ _ _ _ _ Hp).
      erewrite bind_Return; [|apply ensure_dir_dry].
      destruct (transfer_and_recycle_dry (Path.name folder) folder
                  (tv_dest_dir parsed)
                  (ok_details (py "tv") folder (tv_dest_dir parsed))
                  (add_log (mkdir_note (files w) (tv_dest_dir parsed)) w))
        as (d & l & Hd & Hl).
      exists d. eexists. rewrite Hd, add_log_app. split; [reflexivity|].
      intros E. apply app_eq_nil in E as [_ E]. done.
    - rewrite (process_series_folder_unparseable _ _ _ _ _ _ Hp).
      do 2 eexists. split; [reflexivity|done].
  Qed.

Lemma process_movie_folder_dry folder w :
    exists d lines,
      process_movie_folder tool today pid folder false w
      = Return (d, add_log lines w) /\ lines <> [].
  Proof.
    destruct (parse_movie_total (Path.name folder)) as ([parsed|] & Hp).
    - rewrite (process_movie_folder_parsed _ _ _ _ _ _ _ Hp).
      erewrite bind_Return; [|apply ensure_dir_dry].
      destruct (transfer_and_recycle_dry (Path.name folder) folder
                  (movie_dest_dir parsed)
                  (ok_details (py "movie") folder (movie_dest_dir parsed))
                  (add_log (mkdir_note (files w) (movie_dest_dir parsed)) w))
        as (d & l & Hd & Hl).
      exists d. eexists. rewrite Hd, add_log_app. split; [reflexivity|].
      intros E. apply app_eq_nil in E as [_ E]. done.
    - rewrite (process_movie_folder_unparseable _ _ _ _ _ _ Hp).
      do 2 eexists. split; [reflexivity|done].
  Qed.
End DryRunProcessors.

(** ** Normalisation of the show and title segments *)

Lemma split_acc_join sep t :
  (forall cur, cur <> [] ->
     join_words (split_acc sep cur t) = cur ++ join_pass sep false true t
     /\ flat_map (fun x => 32 :: x) (split_acc sep cur t)
        = 32 :: cur ++ join_pass sep false true t)
  /\ flat_map (fun x => 32 :: x) (split_acc sep [] t) = join_pass sep true true t
  /\ forall pw, join_words (split_acc sep [] t) = join_pass sep pw false t.
Proof.
  induction t as [|c t (IH1 & IH3 & IH4)]; cbn [split_acc join_pass].
  - split; [|split; [reflexivity|reflexivity]].
    intros [|x cur] Hne; [done|]. cbn. by rewrite !app_nil_r.
  - destruct (sep c).
    + split; [|split; [exact IH3|intros pw; apply IH4]].
      intros [|x cur] Hne; [done|]. cbn [join_words flat_map].
      rewrite IH3. split; reflexivity.
    + split; [|split].
      * intros cur Hne.
        destruct (IH1 (cur ++ [c])) as [H1 H2]; [by destruct cur|].
        rewrite H1, H2, <- !app_assoc. split; reflexivity.
      * destruct (IH1 [c]) as [_ H2]; [done|]. exact H2.
      * intros pw. destruct (IH1 [c]) as [H1 _]; [done|]. cbn [app].
        rewrite H1, andb_false_r. reflexivity.
Qed.

Lemma join_pass_replace pw st s :
  join_pass is_sep pw st s = join_pass is_space pw st (replace_char 46 32 s).
Proof.
  revert pw st. induction s as [|c s IH]; intros pw st; [reflexivity|].
  cbn [replace_char map join_pass]. unfold is_sep at 1.
  destruct (N.eqb_spec c 46) as [->|Hc].
  - change (is_space 32) with true. cbn [orb]. apply IH.
  - cbn [orb]. destruct (is_space c); by rewrite IH.
Qed.

Lemma sub_spaces_snoc t c :
  forall b,
    sub_spaces b (t ++ [c])
    = sub_spaces b t
      ++ (if is_space c then (if last_ws b t then [] else [32]) else [c]).
Proof.
  induction t as [|x t IH]; intros b; cbn [app sub_spaces last_ws].
  - destruct (is_space c), b; reflexivity.
  - destruct (is_space x) eqn:Ex.
    + destruct b; rewrite IH; reflexivity.
    + rewrite IH. reflexivity.
Qed.

Lemma last_ws_snoc t c : forall b, last_ws b (t ++ [c]) = is_space c.
Proof. induction t as [|x t IH]; intros b; cbn; [reflexivity|apply IH]. Qed.

Lemma started_after_snoc t c :
  forall st, started_after st (t ++ [c]) = started_after st t || negb (is_space c).
Proof. induction t as [|x t IH]; intros st; cbn; [reflexivity|apply IH]. Qed.

Lemma started_after_true t : started_after true t = true.
Proof. induction t as [|x t IH]; cbn; [reflexivity|exact IH]. Qed.

Lemma join_pass_snoc t c :
  forall pw st,
    join_pass is_space pw st (t ++ [c])
    = join_pass is_space pw st t
      ++ (if is_space c then []
          else (if last_ws pw t && started_after st t then [32] else []) ++ [c]).
Proof.
  induction t as [|x t IH]; intros pw st;
    cbn [app join_pass last_ws started_after].
  - destruct (is_space c); [reflexivity|]. by destruct (pw && st).
  - destruct (is_space x) eqn:Ex; rewrite IH.
    + cbn [negb]. rewrite orb_false_r. reflexivity.
    + cbn [negb]. rewrite orb_true_r, <- app_assoc. reflexivity.
Qed.

Lemma lstrip_app x y :
  lstrip (x ++ y) = match lstrip x with [] => lstrip y | _ :: _ => lstrip x ++ y end.
Proof.
  induction x as [|c x IH]; cbn [app lstrip]; [reflexivity|].
  destruct (is_space c); [exact IH|reflexivity].
Qed.

Lemma rstrip_snoc x c :
  rstrip (x ++ [c]) = if is_space c then rstrip x else x ++ [c].
Proof.
  unfold rstrip. rewrite rev_app_distr. cbn [rev app lstrip].
  destruct (is_space c); [reflexivity|].
  cbn [rev]. by rewrite rev_involutive.
Qed.

Lemma strip_sub_spaces t :
  let u := lstrip (sub_spaces false t) in
  let z := join_pass is_space false false t in
  u = z ++ (if last_ws false t && started_after false t then [32] else [])
  /\ rstrip z = z
  /\ (started_after false t = false -> z = [])
  /\ (started_after false t = true -> z <> []).
Proof.
  induction t as [|c t IH] using rev_ind; [by cbn|].
  cbn zeta in *. destruct IH as (I1 & I2 & I3 & I4).
  rewrite sub_spaces_snoc, lstrip_app, join_pass_snoc, last_ws_snoc,
    started_after_snoc.
  set (u := lstrip (sub_spaces false t)) in *.
  set (z := join_pass is_space false false t) in *.
  destruct (is_space c) eqn:Ec; cbn [negb andb].
  - rewrite orb_false_r, app_nil_r. split; [|auto].
    destruct (last_ws false t) eqn:El; cbn [andb] in *.
    + rewrite app_nil_r. cbn [lstrip]. rewrite <- I1. by destruct u.
    + rewrite app_nil_r in I1. change (lstrip [32]) with (@nil N).
      destruct (started_after false t) eqn:Es.
      * specialize (I4 eq_refl). rewrite I1. by destruct z.
      * rewrite (I3 eq_refl) in I1 |- *. by rewrite I1.
  - rewrite orb_true_r, app_nil_r. cbn [lstrip]. rewrite Ec.
    assert (match u with [] => [c] | _ :: _ => u ++ [c] end = u ++ [c]) as ->
      by (by destruct u).
    rewrite I1, <- app_assoc. split; [reflexivity|]. split; [|split].
    + rewrite app_assoc, rstrip_snoc, Ec. reflexivity.
    + discriminate.
    + intros _ H. by destruct z, (_ && _).
Qed.

(** [slug_to_name] gives the words of the segment, joined by single spaces:
    the words are what is left between periods and white space. *)
Lemma slug_to_name_words s : slug_to_name s = join_words (words_of s).
Proof.
  unfold slug_to_name, words_of, strip.
  destruct (split_acc_join is_sep s) as (_ & _ & H). rewrite (H false).
  rewrite join_pass_replace.
  destruct (strip_sub_spaces (replace_char 46 32 s)) as (I1 & I2 & _).
  cbn zeta in *. rewrite I1.
  destruct (_ && _); [|by rewrite app_nil_r].
  rewrite rstrip_snoc. change (is_space 32) with true. exact I2.
Qed.

Lemma split_acc_words sep t :
  forall cur,
    Forall (fun c => sep c = false) cur ->
    Forall (fun w => w <> [] /\ Forall (fun c => sep c = false) w) (split_acc sep cur t)
    /\ List.concat (split_acc sep cur t) = cur ++ List.filter (fun c => negb (sep c)) t.
Proof.
  induction t as [|c t IH]; intros cur Hcur; cbn [split_acc List.filter].
  - destruct cur as [|x cur]; cbn [List.concat app].
    + split; [constructor|reflexivity].
    + split; [|by rewrite !app_nil_r].
      constructor; [|constructor]. split; [done|exact Hcur].
  - destruct (sep c) eqn:Ec; cbn [negb].
    + destruct (IH [] (List.Forall_nil _)) as [H1 H2].
      destruct cur as [|x cur]; [by split|].
      cbn [List.concat]. rewrite H2. split; [|reflexivity].
      constructor; [by split|exact H1].
    + destruct (IH (cur ++ [c])) as [H1 H2].
      { apply Forall_app. split; [exact Hcur|by repeat constructor]. }
      rewrite H2, <- app_assoc. by split.
Qed.

(** The words hold no separator, none is empty, and together they are the
    characters of the segment that are no separators. *)
Lemma words_of_spec s :
  Forall (fun w => w <> [] /\ Forall (fun c => is_sep c = false) w) (words_of s)
  /\ List.concat (words_of s) = List.filter (fun c => negb (is_sep c)) s.
Proof. apply (split_acc_words is_sep s []). constructor. Qed.

(** ** What follows the matched prefix does not matter *)

Lemma tail_test_intro cS s1 s2 cE e1 e2 rest :
  lit_match 83 cS = true -> lit_match 69 cE = true ->
  is_decimal s1 = true -> is_decimal s2 = true ->
  is_decimal e1 = true -> is_decimal e2 = true ->
  xorb (is_word e2) (word_at (head rest)) = true ->
  tail_test (46 :: cS :: s1 :: s2 :: cE :: e1 :: e2 :: rest)
  = Some ([s1; s2], [e1; e2], e2, rest).
Proof.
  intros HS HE H1 H2 H3 H4 Hb. unfold tail_test.
  rewrite HS, HE, H1, H2, H3, H4, Hb.
  change (lit_match 46 46) with true. reflexivity.
Qed.

Lemma lit_S_not_digit cS :
  lit_match 83 cS = true -> lit_match 49 cS = false /\ lit_match 50 cS = false.
Proof.
  intros H. rewrite !lit_match_low by lia.
  split; apply N.eqb_neq; intros ->; vm_compute in H; discriminate H.
Qed.

Lemma tv_suffix_intro yy cS s1 s2 cE e1 e2 rest :
  lit_match 83 cS = true -> lit_match 69 cE = true ->
  is_decimal s1 = true -> is_decimal s2 = true ->
  is_decimal e1 = true -> is_decimal e2 = true ->
  xorb (is_word e2) (word_at (head rest)) = true ->
  match yy with
  | Some y =>
      exists c1 c2 d1 d2,
        y = [c1; c2; d1; d2]
        /\ ((c1 = 49 /\ c2 = 57) \/ (c1 = 50 /\ c2 = 48))
        /\ is_decimal d1 = true /\ is_decimal d2 = true
  | None => True
  end ->
  tv_suffix (year_text yy ++ 46 :: cS :: s1 :: s2 :: cE :: e1 :: e2 :: rest)
  = Some (yy, [s1; s2], [e1; e2], rest).
Proof.
  intros HS HE H1 H2 H3 H4 Hb Hy.
  pose proof (tail_test_intro _ _ _ _ _ _ _ HS HE H1 H2 H3 H4 Hb) as Ht.
  unfold tv_suffix. destruct yy as [y|]; cbn [year_text app].
  - destruct Hy as (c1 & c2 & d1 & d2 & -> & Hc & Hd1 & Hd2).
    assert (year_test (46 :: [c1; c2; d1; d2]
                         ++ 46 :: cS :: s1 :: s2 :: cE :: e1 :: e2 :: rest)
            = Some ([c1; c2; d1; d2], d2,
                    46 :: cS :: s1 :: s2 :: cE :: e1 :: e2 :: rest)) as Hyt.
    { unfold year_test. cbn [app]. rewrite Hd1, Hd2.
      change (lit_match 46 46) with true.
      destruct Hc as [[-> ->]|[-> ->]]; reflexivity. }
    rewrite Hyt, Ht. reflexivity.
  - destruct (lit_S_not_digit _ HS) as [E1 E2].
    assert (year_test (46 :: cS :: s1 :: s2 :: cE :: e1 :: e2 :: rest) = None) as Hyt.
    { unfold year_test. rewrite E1, E2. cbn [andb orb]. by rewrite andb_false_r. }
    rewrite Hyt, Ht. reflexivity.
Qed.

Ltac destruct_ifs :=
  repeat (cbn [head word_at take];
          match goal with
          | |- context [if ?b then _ else _] =>
              lazymatch type of b with bool => destruct b end
          end).

Ltac bool_false :=
  repeat rewrite ?andb_false_l, ?andb_false_r, ?orb_false_l, ?orb_false_r.

(** Whether the pattern accepts depends on the next 13 characters only. *)
Lemma tv_accepts_take u : tv_accepts u = tv_accepts (take 13 u).
Proof.
  do 13 (destruct u as [|? u]; [reflexivity|]).
  unfold tv_accepts, tv_suffix, year_test, tail_test. cbn [take head word_at].
  destruct_ifs; reflexivity.
Qed.

Lemma tv_accepts_stable q yy b1 b2 b3 b4 b5 b6 rest rest' :
  q <> [] ->
  match yy with Some y => length y = 4%nat | None => True end ->
  word_at (head rest) = word_at (head rest') ->
  tv_accepts (q ++ year_text yy ++ 46 :: b1 :: b2 :: b3 :: b4 :: b5 :: b6 :: rest)
  = tv_accepts (q ++ year_text yy ++ 46 :: b1 :: b2 :: b3 :: b4 :: b5 :: b6 :: rest').
Proof.
  intros Hq Hy Hw.
  assert (forall body r r',
             (13 <= length (q ++ body))%nat ->
             tv_accepts (q ++ body ++ r) = tv_accepts (q ++ body ++ r')) as Hlong.
  { intros body r r' Hlen.
    rewrite (tv_accepts_take (q ++ body ++ r)), (tv_accepts_take (q ++ body ++ r')).
    rewrite (app_assoc q body r), (app_assoc q body r').
    rewrite (take_app_le (q ++ body) r) by exact Hlen.
    rewrite (take_app_le (q ++ body) r') by exact Hlen. reflexivity. }
  destruct yy as [y|]; cbn [year_text].
  - assert (forall r,
               q ++ (46 :: y) ++ 46 :: b1 :: b2 :: b3 :: b4 :: b5 :: b6 :: r
               = q ++ ((46 :: y) ++ [46; b1; b2; b3; b4; b5; b6]) ++ r) as E
      by (intros r; by rewrite <- (app_assoc (46 :: y))).
    rewrite !E. apply Hlong.
    destruct q; [done|]. rewrite !length_app. cbn [length]. lia.
  - destruct q as [|q1 [|q2 [|q3 [|q4 [|q5 [|q6 q]]]]]]; [done|..].
    + unfold tv_accepts, tv_suffix, year_test, tail_test. cbn [app head word_at].
      change (lit_match 49 46) with false. change (lit_match 50 46) with false.
      bool_false. destruct_ifs; reflexivity.
    + unfold tv_accepts, tv_suffix, year_test, tail_test. cbn [app head word_at].
      change (lit_match 57 46) with false. change (lit_match 48 46) with false.
      bool_false. destruct_ifs; reflexivity.
    + unfold tv_accepts, tv_suffix, year_test, tail_test. cbn [app head word_at].
      change (is_decimal 46) with false.
      bool_false. destruct_ifs; reflexivity.
    + unfold tv_accepts, tv_suffix, year_test, tail_test. cbn [app head word_at].
      change (is_decimal 46) with false.
      bool_false. destruct_ifs; reflexivity.
    + unfold tv_accepts, tv_suffix, year_test, tail_test. cbn [app head word_at].
      repeat (cbn [head word_at take]; rewrite ?Hw;
              match goal with
              | |- context [if ?b then _ else _] =>
                  lazymatch type of b with bool => destruct b end
              end);
        reflexivity.
    + apply (Hlong [46; b1; b2; b3; b4; b5; b6] rest rest').
      rewrite length_app. cbn [length]. lia.
Qed.

Lemma first_rar_split fs l rar :
  find (Fs.is_file fs)
    (filter (fun p => Is_true (Path.ends_with (py ".rar") (Path.name p))) l)
  = Some rar ->
  Fs.is_file fs rar = true
  /\ Path.ends_with (py ".rar") (Path.name rar) = true
  /\ exists before after,
       l = before ++ rar :: after
       /\ Forall (fun q => Path.ends_with (py ".rar") (Path.name q) = true ->
                           Fs.is_file fs q = false) before.
Proof.
  induction l as [|q l IH]; [discriminate|].
  rewrite filter_cons.
  destruct (decide (Is_true (Path.ends_with (py ".rar") (Path.name q)))) as [Hq|Hq].
  - cbn [find]. destruct (Fs.is_file fs q) eqn:Hf.
    + intros [= <-]. split; [exact Hf|]. split; [by apply Is_true_true|].
      exists [], l. by split.
    + intros H. destruct (IH H) as (H1 & H3 & before & after & -> & Hb).
      split; [exact H1|]. split; [exact H3|].
      exists (q :: before), after. split; [reflexivity|].
      constructor; [by intros _|exact Hb].
  - intros H. destruct (IH H) as (H1 & H3 & before & after & -> & Hb).
    split; [exact H1|]. split; [exact H3|].
    exists (q :: before), after. split; [reflexivity|].
    constructor; [|exact Hb]. intros E. by rewrite E in Hq.
Qed.

(** ** Dry run: what is logged *)

Section DryRunLog.
Variable tool :
    list (list N) -> list (list (list N) * node) ->
    exc (Z * list N * list (list (list N) * node)).
Variable today : list N.
Variable pid : N.

Lemma for_each_moves_preview target l :
    forall acc w,
      for_each l (fun v _ => move_path v (target v) false;; mret true) acc w
      = Return (match l with [] => acc | _ :: _ => true end,
                add_log (preview_moves (files w) l target) w).
  Proof.
    induction l as [|v l IH]; intros acc w; cbn [for_each preview_moves flat_map].
    - by rewrite add_log_nil.
    - erewrite bind_Return; [|erewrite bind_Return; [|apply move_path_dry]; reflexivity].
      rewrite IH, add_log_app. cbn [add_log files]. by destruct l.
  Qed.

Lemma recycle_preview folder (details : gmap string (list N)) w :
    (recycle_dest ← (gets (fun w0 : world =>
                             unique_recycle_dest today pid (files w0) folder)
                       : M (list (list N)));
     ensure_dir (Path.parent recycle_dest) false;;
     mret tt;;
     log_line (py "recycle " ++ Path.to_str folder ++ py " -> "
                 ++ Path.to_str recycle_dest);;
     mret (<["recycled_to" := Path.to_str recycle_dest]> details)) w
    = Return (<["recycled_to"
                := Path.to_str (unique_recycle_dest today pid (files w) folder)]>
                details,
              add_log (preview_recycle today pid (files w) folder) w).
  Proof.
    rewrite gets_bind.
    erewrite bind_Return; [|apply ensure_dir_dry].
    rewrite mret_bind. erewrite bind_Return; [|apply log_line_eq].
    by rewrite add_log_app.
  Qed.

Lemma transfer_and_recycle_preview release folder dest_dir details w :
    transfer_and_recycle tool today pid release folder dest_dir details false w
    = Return (preview_result today pid (files w) folder details,
              add_log (preview_transfer today pid (files w) release folder dest_dir)
                w).
  Proof.
    unfold transfer_and_recycle, preview_result, preview_transfer, content_strategy,
      select_strategy.
    rewrite !gets_bind.
    destruct (find_first_rar (files w) folder) as [rar|].
    - erewrite bind_Return;
        [|erewrite bind_Return; [|apply extract_rar_dry]; reflexivity].
      etrans;
        [exact (recycle_preview folder details
                  (add_log (mkdir_note (files w) dest_dir
                              ++ [unrar_line rar dest_dir]) w))|].
      rewrite add_log_app. cbn [add_log files]. by rewrite <- !app_assoc.
    - destruct (find_video_files (files w) folder) as [|v vids].
      + destruct (find_large_extensionless (files w) folder default_min_bytes)
          as [|f extless].
        * erewrite bind_Return;
            [|erewrite bind_Return; [|apply log_line_eq]; reflexivity].
          reflexivity.
        * erewrite bind_Return;
            [|erewrite bind_Return; [|apply for_each_moves_preview]; reflexivity].
          etrans;
            [exact (recycle_preview folder details
                      (add_log (preview_moves (files w) (f :: extless)
                                  (fun _ => dest_dir // (release ++ py ".mkv"))) w))|].
          by rewrite add_log_app.
      + erewrite bind_Return;
          [|erewrite bind_Return; [|apply for_each_moves_preview]; reflexivity].
        etrans;
          [exact (recycle_preview folder details
                    (add_log (preview_moves (files w) (v :: vids)
                                (fun v0 => dest_dir // Path.name v0)) w))|].
        by rewrite add_log_app.
  Qed.

Lemma ensure_then_transfer_preview release folder dest_dir details w :
    (ensure_dir dest_dir false;;
     transfer_and_recycle tool today pid release folder dest_dir details false) w
    = Return (preview_result today pid (files w) folder details,
              add_log (mkdir_note (files w) dest_dir
                         ++ preview_transfer today pid (files w) release folder
                              dest_dir) w).
  Proof.
    erewrite bind_Return; [|apply ensure_dir_dry].
    by rewrite transfer_and_recycle_preview, add_log_app.
  Qed.
End DryRunLog.


(** * The claims *)

Lemma re_match_None_parse_tv release :
  re_match TV_RE release = None -> parse_tv release = Return None.
Proof. unfold parse_tv. intros ->. reflexivity. Qed.

Lemma re_match_None_parse_movie release :
  re_match MOVIE_RE release = None -> parse_movie release = Return None.
Proof. unfold parse_movie. intros ->. reflexivity. Qed.

Lemma unparseable_result_fields kind folder :
  unparseable_result kind folder !! "status" = Some (py "error")
  /\ unparseable_result kind folder !! "reason" = Some (py "unparseable")
  /\ unparseable_result kind folder !! "dest" = None
  /\ unparseable_result kind folder !! "recycled_to" = None.
Proof. unfold unparseable_result. repeat split; by map_lookup. Qed.

(** C9: a folder whose name matches neither the TV nor the movie pattern is
    not parseable, and neither parser raises.  Whenever a processor returns
    for such a folder, in either mode, the result has status [error] and
    reason [unparseable], and nothing was changed in the file system: no
    directory was made, nothing was moved, nothing was retired and nothing
    audited; one line was written to the log. *)
Theorem unparseable_name_changes_nothing
    (tool : list (list N) -> list (list (list N) * node) ->
            exc (Z * list N * list (list (list N) * node)))
    (today : list N) (pid : N) (folder : list (list N)) (run : bool) (w : world) :
  re_match TV_RE (Path.name folder) = None ->
  re_match MOVIE_RE (Path.name folder) = None ->
  parse_tv (Path.name folder) = Return None
  /\ parse_movie (Path.name folder) = Return None
  /\ (forall d w',
        process_series_folder tool today pid folder run w = Return (d, w') ->
        d !! "status" = Some (py "error")
        /\ d !! "reason" = Some (py "unparseable")
        /\ d !! "dest" = None /\ d !! "recycled_to" = None
        /\ files w' = files w /\ calls w' = calls w
        /\ audit_log w' = audit_log w
        /\ log w' = log w ++ [py "IRREGULAR TV name (can't parse): "
                                ++ Path.name folder])
  /\ (forall d w',
        process_movie_folder tool today pid folder run w = Return (d, w') ->
        d !! "status" = Some (py "error")
        /\ d !! "reason" = Some (py "unparseable")
        /\ d !! "dest" = None /\ d !! "recycled_to" = None
        /\ files w' = files w /\ calls w' = calls w
        /\ audit_log w' = audit_log w
        /\ log w' = log w ++ [py "IRREGULAR Movie name (can't parse year): "
                                ++ Path.name folder]).
Proof.
  intros Htv Hmovie.
  apply re_match_None_parse_tv in Htv. apply re_match_None_parse_movie in Hmovie.
  split; [exact Htv|]. split; [exact Hmovie|]. split.
  - intros d w' H.
    rewrite (process_series_folder_unparseable _ _ _ _ _ _ Htv) in H.
    injection H as <- <-.
    destruct (unparseable_result_fields (py "tv") folder) as (? & ? & ? & ?).
    auto 10.
  - intros d w' H.
    rewrite (process_movie_folder_unparseable _ _ _ _ _ _ Hmovie) in H.
    injection H as <- <-.
    destruct (unparseable_result_fields (py "movie") folder) as (? & ? & ? & ?).
    auto 10.
Qed.

Lemma unparseable_name_witness :
  re_match TV_RE (Path.name random_folder) = None
  /\ re_match MOVIE_RE (Path.name random_folder) = None
  /\ exists d w',
       process_series_folder tool_ok sample_today 4242 random_folder true
         (sample_world [(random_folder, Dir)]) = Return (d, w')
       /\ d !! "reason" = Some (py "unparseable")
       /\ files w' = sample_roots ++ [(random_folder, Dir)]
       /\ calls w' = [].
Proof.
  assert (re_match TV_RE (Path.name random_folder) = None) as Htv
    by (vm_compute; reflexivity).
  assert (re_match MOVIE_RE (Path.name random_folder) = None) as Hmovie
    by (vm_compute; reflexivity).
  split; [exact Htv|]. split; [exact Hmovie|].
  destruct (process_series_folder tool_ok sample_today 4242 random_folder true
              (sample_world [(random_folder, Dir)])) as [[d w']|e] eqn:HE;
    [|exfalso; vm_compute in HE; discriminate HE].
  destruct (unparseable_name_changes_nothing tool_ok sample_today 4242 random_folder
              true (sample_world [(random_folder, Dir)]) Htv Hmovie)
    as (_ & _ & Hs & _).
  destruct (Hs d w' HE) as (_ & Hr & _ & _ & Hf & Hc & _).
  exists d, w'. split; [reflexivity|]. split; [exact Hr|].
  split; [exact Hf|exact Hc].
Defined.

Lemma py_ok_not_error : py "ok" <> py "error".
Proof. intros H. vm_compute in H. discriminate. Qed.

Lemma ok_details_fields kind folder dest_dir :
  ok_details kind folder dest_dir !! "status" = Some (py "ok")
  /\ ok_details kind folder dest_dir !! "reason" = None
  /\ ok_details kind folder dest_dir !! "recycled_to" = None.
Proof. unfold ok_details. repeat split; by map_lookup. Qed.

Lemma error_result_fields reason details :
  details !! "recycled_to" = None ->
  error_result reason details !! "status" = Some (py "error")
  /\ error_result reason details !! "reason" = Some reason
  /\ error_result reason details !! "recycled_to" = None.
Proof. intros H. unfold error_result. repeat split; map_lookup; done. Qed.

Section ErrorPaths.
Variable tool :
    list (list N) -> list (list (list N) * node) ->
    exc (Z * list N * list (list (list N) * node)).
Variable today : list N.
Variable pid : N.

  (** A retired folder has status [ok]. *)
Lemma recycle_post_status folder details run w d w' :
    recycle_post today pid folder details run w d w' ->
    d !! "status" = details !! "status".
  Proof.
    intros (w1 & _ & _ & _ & _ & _ & ->). by map_lookup.
  Qed.

  (** An extraction that reports failure was performed, and issued no move. *)
Lemma extract_rar_failed rar dest_dir run w out w' :
    extract_rar tool rar dest_dir run w = Return ((false, out), w') ->
    run = true
    /\ exists fs code,
         tool (unrar_cmd rar dest_dir) fs = Return (code, out, files w')
         /\ code <> 0%Z
         /\ audit_log w' = audit_log w
         /\ calls w'
            = calls w
              ++ (if negb (Fs.path_exists (files w) dest_dir)
                  then [SysMkdir dest_dir] else [])
              ++ [SysRun (unrar_cmd rar dest_dir)].
  Proof.
    destruct run.
    - intros H. split; [reflexivity|].
      apply extract_rar_inv in H
        as (w1 & code & (_ & _ & Hc & _ & Ha) & Ht & Hok & Hc' & _ & Ha').
      exists (files w1), code. split; [exact Ht|].
      split; [symmetry in Hok; by apply bool_decide_eq_false in Hok|].
      split; [congruence|].
      rewrite Hc', Hc. cbn [andb]. by rewrite <- app_assoc.
    - rewrite extract_rar_dry. discriminate.
  Qed.

  (** An early error return of the transfer: which reasons there are, that
      nothing is recorded as recycled and that no move was issued. *)
Lemma transfer_error release folder dest_dir details run w d w' :
    transfer_cases tool today pid release folder dest_dir details run w d w' ->
    details !! "status" = Some (py "ok") ->
    details !! "recycled_to" = None ->
    d !! "status" = Some (py "error") ->
    d !! "recycled_to" = None
    /\ (d !! "reason" = Some (py "no_media_found")
        \/ d !! "reason" = Some (py "unrar_failed"))
    /\ exists issued,
         calls w' = calls w ++ issued /\ Forall (fun c => is_move c = false) issued.
  Proof.
    intros H Hok Hrec Herr. unfold transfer_cases in H.
    assert (forall w1, recycle_post today pid folder details run w1 d w' -> False)
      as Hno.
    { intros w1 Hr. apply recycle_post_status in Hr.
      rewrite Herr, Hok in Hr. apply (inj Some) in Hr.
      symmetry in Hr. by apply py_ok_not_error in Hr. }
    destruct (content_strategy (files w) folder) as [rar|vids|extless|].
    - destruct H as ([|] & out & w1 & He & H); [by apply Hno in H|].
      destruct H as (-> & _ & Hc & _ & _).
      destruct (error_result_fields (py "unrar_failed") details Hrec) as (_ & ? & ?).
      apply extract_rar_failed in He as (_ & fs & code & _ & _ & _ & Hc1).
      split; [done|]. split; [by right|].
      eexists. split; [rewrite Hc, Hc1; reflexivity|].
      apply Forall_app. split; [|by repeat constructor].
      destruct (negb _); by repeat constructor.
    - destruct H as (w1 & _ & H). by apply Hno in H.
    - destruct H as (w1 & _ & H). by apply Hno in H.
    - destruct H as (-> & ->).
      destruct (error_result_fields (py "no_media_found") details Hrec) as (_ & ? & ?).
      split; [done|]. split; [by left|].
      exists []. cbn. by rewrite app_nil_r.
  Qed.

Lemma ensure_then_transfer_error release folder dest_dir details run w d w' :
    (ensure_dir dest_dir run;;
     transfer_and_recycle tool today pid release folder dest_dir details run) w
    = Return (d, w') ->
    details !! "status" = Some (py "ok") ->
    details !! "recycled_to" = None ->
    d !! "status" = Some (py "error") ->
    d !! "recycled_to" = None
    /\ (d !! "reason" = Some (py "no_media_found")
        \/ d !! "reason" = Some (py "unrar_failed"))
    /\ exists issued,
         calls w' = calls w ++ issued /\ Forall (fun c => is_move c = false) issued.
  Proof.
    intros H Hok Hrec Herr.
    apply ensure_then_transfer_inv in H as (w1 & (_ & _ & Hc & _) & _ & H).
    destruct (transfer_error _ _ _ _ _ _ _ _ H Hok Hrec Herr)
      as (? & ? & issued & Hi & Hall).
    split; [done|]. split; [done|].
    eexists. split; [rewrite Hi, Hc, <- app_assoc; reflexivity|].
    apply Forall_app. split; [|exact Hall].
    destruct (_ && _); by repeat constructor.
  Qed.
End ErrorPaths.

(** C1: whenever a processor returns a result with status [error], whatever
    the reason (unparseable, no_media_found or unrar_failed), the result
    has no [recycled_to] entry and no move was issued while the folder was
    processed: the source folder is not moved to the recycle area. *)
Theorem error_result_never_recycles
    (tool : list (list N) -> list (list (list N) * node) ->
            exc (Z * list N * list (list (list N) * node)))
    (today : list N) (pid : N) (folder : list (list N)) (run : bool)
    (w : world) (d : gmap string (list N)) (w' : world) :
  process_series_folder tool today pid folder run w = Return (d, w')
  \/ process_movie_folder tool today pid folder run w = Return (d, w') ->
  d !! "status" = Some (py "error") ->
  d !! "recycled_to" = None
  /\ (d !! "reason" = Some (py "unparseable")
      \/ d !! "reason" = Some (py "no_media_found")
      \/ d !! "reason" = Some (py "unrar_failed"))
  /\ exists issued,
       calls w' = calls w ++ issued
       /\ Forall (fun c => is_move c = false) issued
       /\ forall dst, ~ In (SysMove folder dst) issued.
Proof.
  intros H Herr.
  assert (d !! "recycled_to" = None
          /\ (d !! "reason" = Some (py "unparseable")
              \/ d !! "reason" = Some (py "no_media_found")
              \/ d !! "reason" = Some (py "unrar_failed"))
          /\ exists issued,
               calls w' = calls w ++ issued
               /\ Forall (fun c => is_move c = false) issued) as (Hr & Hreason & Hi).
  { destruct H as [H|H].
    - destruct (parse_tv_total (Path.name folder)) as ([parsed|] & Hp).
      + rewrite (process_series_folder_parsed _ _ _ _ _ _ _ Hp) in H.
        destruct (ok_details_fields (py "tv") folder (tv_dest_dir parsed))
          as (Hok & _ & Hrec).
        destruct (ensure_then_transfer_error _ _ _ _ _ _ _ _ _ _ _ H Hok Hrec Herr)
          as (? & ? & ?). intuition.
      + rewrite (process_series_folder_unparseable _ _ _ _ _ _ Hp) in H.
        injection H as <- <-.
        destruct (unparseable_result_fields (py "tv") folder) as (_ & ? & _ & ?).
        split; [done|]. split; [by left|]. exists []. cbn. by rewrite app_nil_r.
    - destruct (parse_movie_total (Path.name folder)) as ([parsed|] & Hp).
      + rewrite (process_movie_folder_parsed _ _ _ _ _ _ _ Hp) in H.
        destruct (ok_details_fields (py "movie") folder (movie_dest_dir parsed))
          as (Hok & _ & Hrec).
        destruct (ensure_then_transfer_error _ _ _ _ _ _ _ _ _ _ _ H Hok Hrec Herr)
          as (? & ? & ?). intuition.
      + rewrite (process_movie_folder_unparseable _ _ _ _ _ _ Hp) in H.
        injection H as <- <-.
        destruct (unparseable_result_fields (py "movie") folder) as (_ & ? & _ & ?).
        split; [done|]. split; [by left|]. exists []. cbn. by rewrite app_nil_r. }
  split; [exact Hr|]. split; [exact Hreason|].
  destruct Hi as (issued & Hc & Hall). exists issued.
  split; [exact Hc|]. split; [exact Hall|].
  intros dst Hin. rewrite List.Forall_forall in Hall.
  apply Hall in Hin. discriminate.
Qed.

Ltac eval_outcome t :=
  let r := eval vm_compute in t in
  lazymatch r with
  | Return (?d, ?w) => exists d, w
  end.

Lemma error_result_witness :
  exists d w',
    process_series_folder tool_crc_error sample_today 4242 show_folder true
      show_with_rar = Return (d, w')
    /\ d !! "status" = Some (py "error")
    /\ d !! "reason" = Some (py "unrar_failed")
    /\ d !! "recycled_to" = None
    /\ forall dst, ~ In (SysMove show_folder dst) (calls w').
Proof.
  eval_outcome (process_series_folder tool_crc_error sample_today 4242 show_folder
                  true show_with_rar).
  match goal with |- ?E /\ ?S /\ _ =>
    assert E as HE by (vm_compute; reflexivity);
    assert S as HS by (vm_compute; reflexivity)
  end.
  destruct (error_result_never_recycles _ _ _ _ _ _ _ _ (or_introl HE) HS)
    as (Hr & _ & issued & Hc & _ & Hno).
  split; [exact HE|]. split; [exact HS|].
  split; [vm_compute; reflexivity|]. split; [exact Hr|].
  intros dst. rewrite Hc. exact (Hno dst).
Defined.






Lemma no_media_outcome
    (tool : list (list N) -> list (list (list N) * node) ->
            exc (Z * list N * list (list (list N) * node)))
    (today : list N) (pid : N) release folder dest_dir details run w d w' :
  content_strategy (files w) folder = NoMedia ->
  (ensure_dir dest_dir run;;
   transfer_and_recycle tool today pid release folder dest_dir details run) w
  = Return (d, w') ->
  d = error_result (py "no_media_found") details
  /\ ensure_dir_post dest_dir run w
       (mkWorld (files w') (calls w')
          (log w ++ mkdir_note (files w) dest_dir) (audit_log w')).
Proof.
  intros Hs H.
  apply ensure_then_transfer_inv in H as (w1 & Hpost & Hs1 & H).
  unfold transfer_cases in H. rewrite Hs1, Hs in H. destruct H as (-> & ->).
  split; [reflexivity|].
  destruct Hpost as (? & ? & ? & ? & ?). unfold ensure_dir_post, add_log.
  cbn [files calls log audit_log]. auto.
Qed.

(** C5, as amended: when the strategy is None the processor returns status
    [error] with reason [no_media_found]; nothing is extracted, moved or
    retired.  The destination directory was ensured before discovery
    (line 218): when performing, it is created if it was missing, and that
    is the only call issued; the file system is otherwise unchanged, and in
    a dry run it is unchanged altogether. *)
Theorem no_media_found_effects
    (tool : list (list N) -> list (list (list N) * node) ->
            exc (Z * list N * list (list (list N) * node)))
    (today : list N) (pid : N) (folder dest_dir : list (list N)) (run : bool)
    (w : world) (d : gmap string (list N)) (w' : world) :
  content_strategy (files w) folder = NoMedia ->
  (exists parsed,
      parse_tv (Path.name folder) = Return (Some parsed)
      /\ dest_dir = tv_dest_dir parsed
      /\ process_series_folder tool today pid folder run w = Return (d, w'))
  \/ (exists parsed,
        parse_movie (Path.name folder) = Return (Some parsed)
        /\ dest_dir = movie_dest_dir parsed
        /\ process_movie_folder tool today pid folder run w = Return (d, w')) ->
  d !! "status" = Some (py "error")
  /\ d !! "reason" = Some (py "no_media_found")
  /\ d !! "recycled_to" = None
  /\ calls w' = calls w
                ++ (if run && negb (Fs.path_exists (files w) dest_dir)
                    then [SysMkdir dest_dir] else [])
  /\ dir_ext (files w) (files w')
  /\ (run = false \/ Fs.path_exists (files w) dest_dir = true -> files w' = files w)
  /\ audit_log w' = audit_log w.
Proof.
  intros Hs H.
  assert (exists details,
             details !! "recycled_to" = None
             /\ (ensure_dir dest_dir run;;
                 transfer_and_recycle tool today pid (Path.name folder) folder
                   dest_dir details run) w = Return (d, w'))
    as (details & Hrec & Hrun).
  { destruct H as [(parsed & Hp & -> & H)|(parsed & Hp & -> & H)].
    - rewrite (process_series_folder_parsed _ _ _ _ _ _ _ Hp) in H.
      destruct (ok_details_fields (py "tv") folder (tv_dest_dir parsed))
        as (_ & _ & Hrec). eauto.
    - rewrite (process_movie_folder_parsed _ _ _ _ _ _ _ Hp) in H.
      destruct (ok_details_fields (py "movie") folder (movie_dest_dir parsed))
        as (_ & _ & Hrec). eauto. }
  destruct (no_media_outcome _ _ _ _ _ _ _ _ _ _ _ Hs Hrun)
    as (-> & Hext & Hsame & Hc & _ & Ha).
  cbn [files calls log audit_log] in *.
  destruct (error_result_fields (py "no_media_found") details Hrec) as (? & ? & ?).
  auto 10.
Qed.

Lemma no_media_found_witness :
  exists d w',
    process_series_folder tool_ok sample_today 4242 show_folder false show_empty
    = Return (d, w')
    /\ d !! "reason" = Some (py "no_media_found")
    /\ files w' = files show_empty
    /\ calls w' = [].
Proof.
  eval_outcome (process_series_folder tool_ok sample_today 4242 show_folder
                  false show_empty).
  match goal with |- ?E /\ _ => assert E as HE by (vm_compute; reflexivity) end.
  assert (content_strategy (files show_empty) show_folder = NoMedia) as HS
    by (vm_compute; reflexivity).
  assert (parse_tv (Path.name show_folder)
          = Return (Some (mkParsedTV (py "Show Name") (Some 2020%Z) 1 2))) as HP
    by (vm_compute; reflexivity).
  destruct (no_media_found_effects tool_ok sample_today 4242 show_folder
              show_dest_dir false _ _ _ HS
              (or_introl (ex_intro _ _ (conj HP (conj eq_refl HE)))))
    as (_ & Hr & _ & Hc & _ & Hf & _).
  split; [exact HE|]. split; [exact Hr|]. split; [apply Hf; by left|]. exact Hc.
Defined.

(** C5, as stated, fails when performing: for a parseable folder without
    media the destination directory is created all the same, and the reason
    is spelled [no_media_found]. *)
Lemma no_media_found_creates_dest_dir :
  exists d w',
    process_series_folder tool_ok sample_today 4242 show_folder true show_empty
    = Return (d, w')
    /\ content_strategy (files show_empty) show_folder = NoMedia
    /\ d !! "status" = Some (py "error")
    /\ d !! "reason" = Some (py "no_media_found")
    /\ d !! "reason" <> Some (py "no media found")
    /\ Fs.path_exists (files show_empty) show_dest_dir = false
    /\ Fs.is_dir (files w') show_dest_dir = true
    /\ calls w' = [SysMkdir show_dest_dir].
Proof.
  eval_outcome (process_series_folder tool_ok sample_today 4242 show_folder
                  true show_empty).
  repeat split; try (vm_compute; reflexivity).
  vm_compute. discriminate.
Qed.

(** C2: in a dry run nothing is changed, and what would be done is logged.
    Whenever [extract_rar] returns in a dry run, it returns success with
    the output [DRY_RUN] and has logged the command, and what it does is
    the same for every extraction tool: the tool is not run.  Whenever
    [move_path] or [ensure_dir] returns, it has moved nothing and made no
    directory, and has logged the move or the directory that is missing.
    Whenever a processor returns, the files are what they were, no call
    was issued and nothing was audited; the log has gained, for a name
    that does not parse, the report of that and, for a parsed name, the
    line for each missing directory, the extraction or each move that
    would be made, and the retirement of the folder ([preview_transfer]);
    the result names the recycle destination that would be used. *)
Theorem dry_run_changes_nothing
    (tool : list (list N) -> list (list (list N) * node) ->
            exc (Z * list N * list (list (list N) * node)))
    (today : list N) (pid : N) :
  (forall rar dest_dir w r w',
      extract_rar tool rar dest_dir false w = Return (r, w') ->
      r = (true, py "DRY_RUN")
      /\ w' = mkWorld (files w) (calls w)
                (log w ++ mkdir_note (files w) dest_dir ++ [unrar_line rar dest_dir])
                (audit_log w))
  /\ (forall tool' rar dest_dir w,
         extract_rar tool rar dest_dir false w
         = extract_rar tool' rar dest_dir false w)
  /\ (forall src dst w u w',
         move_path src dst false w = Return (u, w') ->
         w' = mkWorld (files w) (calls w)
                (log w ++ mkdir_note (files w) (Path.parent dst)
                       ++ [move_line src dst])
                (audit_log w))
  /\ (forall p w u w',
         ensure_dir p false w = Return (u, w') ->
         w' = mkWorld (files w) (calls w)
                (log w ++ mkdir_note (files w) p) (audit_log w))
  /\ (forall folder w d w',
         process_series_folder tool today pid folder false w = Return (d, w') ->
         files w' = files w /\ calls w' = calls w
         /\ audit_log w' = audit_log w
         /\ (parse_tv (Path.name folder) = Return None ->
             d = unparseable_result (py "tv") folder
             /\ log w' = log w ++ [py "IRREGULAR TV name (can't parse): "
                                     ++ Path.name folder])
         /\ (forall parsed,
                parse_tv (Path.name folder) = Return (Some parsed) ->
                d = preview_result today pid (files w) folder
                      (ok_details (py "tv") folder (tv_dest_dir parsed))
                /\ log w'
                   = log w ++ mkdir_note (files w) (tv_dest_dir parsed)
                       ++ preview_transfer today pid (files w) (Path.name folder)
                            folder (tv_dest_dir parsed)))
  /\ (forall folder w d w',
         process_movie_folder tool today pid folder false w = Return (d, w') ->
         files w' = files w /\ calls w' = calls w
         /\ audit_log w' = audit_log w
         /\ (parse_movie (Path.name folder) = Return None ->
             d = unparseable_result (py "movie") folder
             /\ log w' = log w ++ [py "IRREGULAR Movie name (can't parse year): "
                                     ++ Path.name folder])
         /\ (forall parsed,
                parse_movie (Path.name folder) = Return (Some parsed) ->
                d = preview_result today pid (files w) folder
                      (ok_details (py "movie") folder (movie_dest_dir parsed))
                /\ log w'
                   = log w ++ mkdir_note (files w) (movie_dest_dir parsed)
                       ++ preview_transfer today pid (files w) (Path.name folder)
                            folder (movie_dest_dir parsed))).
Proof.
  split; [|split; [|split; [|split; [|split]]]].
  - intros rar dest_dir w r w' H. rewrite extract_rar_dry in H.
    by injection H as <- <-.
  - intros tool' rar dest_dir w. by rewrite !extract_rar_dry.
  - intros src dst w u w' H. rewrite move_path_dry in H.
    by injection H as <-.
  - intros p w u w' H. rewrite ensure_dir_dry in H. by injection H as <-.
  - intros folder w d w' H.
    destruct (parse_tv_total (Path.name folder)) as ([parsed|] & Hp).
    + rewrite (process_series_folder_parsed _ _ _ _ _ _ _ Hp),
        ensure_then_transfer_preview in H.
      injection H as <- <-. cbn [add_log files calls log audit_log].
      do 3 (split; [reflexivity|]). split; [by rewrite Hp|].
      intros parsed' Hp'. rewrite Hp in Hp'. by injection Hp' as <-.
    + rewrite (process_series_folder_unparseable _ _ _ _ _ _ Hp) in H.
      injection H as <- <-. cbn [add_log files calls log audit_log].
      do 3 (split; [reflexivity|]). split; [done|].
      intros parsed' Hp'. by rewrite Hp in Hp'.
  - intros folder w d w' H.
    destruct (parse_movie_total (Path.name folder)) as ([parsed|] & Hp).
    + rewrite (process_movie_folder_parsed _ _ _ _ _ _ _ Hp),
        ensure_then_transfer_preview in H.
      injection H as <- <-. cbn [add_log files calls log audit_log].
      do 3 (split; [reflexivity|]). split; [by rewrite Hp|].
      intros parsed' Hp'. rewrite Hp in Hp'. by injection Hp' as <-.
    + rewrite (process_movie_folder_unparseable _ _ _ _ _ _ Hp) in H.
      injection H as <- <-. cbn [add_log files calls log audit_log].
      do 3 (split; [reflexivity|]). split; [done|].
      intros parsed' Hp'. by rewrite Hp in Hp'.
Qed.


(** Scenario 5: the dry run of scenario 1 logs the directory, the move and
    the retirement, and leaves the folder and its file where they were. *)

Example dry_run_scenario :
  exists d w',
    process_series_folder tool_ok sample_today 4242 show_folder false show_with_mkv
    = Return (d, w')
    /\ files w' = files show_with_mkv
    /\ calls w' = []
    /\ d !! "status" = Some (py "ok")
    /\ log w'
       = [ mkdir_line show_dest_dir;
           mkdir_line show_dest_dir;
           move_line (show_folder // py "show.name.s01e02.mkv")
                     (show_dest_dir // py "show.name.s01e02.mkv");
           mkdir_line (RECYCLE // sample_today);
           recycle_line show_folder
             (RECYCLE // sample_today // Path.name show_folder) ].
Proof.
  eval_outcome (process_series_folder tool_ok sample_today 4242 show_folder
                  false show_with_mkv).
  repeat split; vm_compute; reflexivity.
Qed.

Lemma dry_run_witness :
  exists d w',
    process_series_folder tool_ok sample_today 4242 show_folder false show_with_mkv
    = Return (d, w')
    /\ files w' = files show_with_mkv
    /\ calls w' = []
    /\ d !! "recycled_to"
       = Some (Path.to_str (RECYCLE // sample_today // Path.name show_folder))
    /\ log w'
       = [ mkdir_line show_dest_dir;
           mkdir_line show_dest_dir;
           move_line (show_folder // py "show.name.s01e02.mkv")
                     (show_dest_dir // py "show.name.s01e02.mkv");
           mkdir_line (RECYCLE // sample_today);
           recycle_line show_folder
             (RECYCLE // sample_today // Path.name show_folder) ].
Proof.
  assert (parse_tv (Path.name show_folder)
          = Return (Some (mkParsedTV (py "Show Name") (Some 2020%Z) 1 2))) as HP
    by (vm_compute; reflexivity).
  destruct (process_series_folder tool_ok sample_today 4242 show_folder false
              show_with_mkv) as [[d w']|e] eqn:HE;
    [|exfalso; vm_compute in HE; discriminate HE].
  destruct (dry_run_changes_nothing tool_ok sample_today 4242)
    as (_ & _ & _ & _ & Hs & _).
  destruct (Hs show_folder show_with_mkv d w' HE) as (Hf & Hc & _ & _ & Hparsed).
  destruct (Hparsed _ HP) as [Hd Hl].
  exists d, w'. split; [reflexivity|]. split; [exact Hf|]. split; [exact Hc|].
  split.
  - rewrite Hd. vm_compute. reflexivity.
  - rewrite Hl. vm_compute. reflexivity.
Defined.

Lemma select_strategy_cases rar vids extless :
  (forall r, select_strategy rar vids extless = Archive r <-> rar = Some r)
  /\ (forall l, select_strategy rar vids extless = VideoFiles l
                <-> rar = None /\ l = vids /\ vids <> [])
  /\ (forall l, select_strategy rar vids extless = LargeUnlabeledFiles l
                <-> rar = None /\ vids = [] /\ l = extless /\ extless <> [])
  /\ (select_strategy rar vids extless = NoMedia
      <-> rar = None /\ vids = [] /\ extless = []).
Proof.
  unfold select_strategy.
  destruct rar as [r|], vids as [|v vids], extless as [|f extless];
    repeat split; intros; destruct_and?; simplify_eq; done.
Qed.

Lemma archive_file_found fs folder a :
  is_archive_file fs folder a ->
  exists rar, find_first_rar fs folder = Some rar /\ is_archive_file fs folder rar.
Proof.
  intros (Hin & Hend & Hfile). unfold find_first_rar.
  destruct (find (Fs.is_file fs) (Fs.rglob_rar fs folder)) as [rar|] eqn:E.
  - exists rar. split; [reflexivity|].
    apply find_some in E as [Hr Hf]. unfold Fs.rglob_rar in Hr.
    apply list_elem_of_In, list_elem_of_filter in Hr as [He Hr].
    apply list_elem_of_In in Hr. apply Is_true_true in He. by repeat split.
  - exfalso. eapply find_none in E.
    + rewrite Hfile in E. discriminate.
    + unfold Fs.rglob_rar. apply list_elem_of_In, list_elem_of_filter.
      split; [by apply Is_true_true|by apply list_elem_of_In].
Qed.

Lemma list_filter_sublist {A} (f : A -> bool) l : List.filter f l `sublist_of` l.
Proof.
  induction l as [|x l IH]; [constructor|].
  cbn [List.filter]. destruct (f x); by constructor.
Qed.

Lemma first_rar_is_archive fs folder rar :
  find_first_rar fs folder = Some rar ->
  is_archive_file fs folder rar
  /\ exists before after,
       Fs.rglob_all fs folder = before ++ rar :: after
       /\ Forall (fun q => ~ is_archive_file fs folder q) before.
Proof.
  intros H. unfold find_first_rar, Fs.rglob_rar in H.
  destruct (first_rar_split fs _ _ H) as (Hf & He & before & after & Hl & Hb).
  split.
  - split; [rewrite Hl; apply in_elt|]. by split.
  - exists before, after. split; [exact Hl|].
    eapply List.Forall_impl; [|exact Hb].
    intros q Hq (_ & Hend & Hfile). by rewrite (Hq Hend) in Hfile.
Qed.

Lemma no_archive_file fs folder :
  find_first_rar fs folder = None <-> forall a, ~ is_archive_file fs folder a.
Proof.
  split.
  - intros E a Ha. apply archive_file_found in Ha as (rar & Hr & _).
    by rewrite E in Hr.
  - intros Hno. destruct (find_first_rar fs folder) as [rar|] eqn:E; [|reflexivity].
    apply first_rar_is_archive in E as [E _]. by apply Hno in E.
Qed.

Lemma video_files_found fs folder p :
  In p (find_video_files fs folder) <-> is_video_file fs folder p.
Proof.
  unfold find_video_files, is_video_file.
  rewrite filter_In, andb_true_iff, bool_decide_eq_true. tauto.
Qed.

Lemma large_files_found fs folder min_bytes p :
  In p (find_large_extensionless fs folder min_bytes)
  <-> is_large_file fs folder min_bytes p.
Proof.
  unfold find_large_extensionless, is_large_file.
  rewrite filter_In, !andb_true_iff, bool_decide_eq_true, N.leb_le. tauto.
Qed.

Lemma nothing_found {A} (l : list A) (P : A -> Prop) :
  (forall p, In p l <-> P p) -> l = [] <-> forall p, ~ P p.
Proof.
  intros H. split.
  - intros -> p Hp. by apply H in Hp.
  - intros Hno. destruct l as [|x l]; [reflexivity|].
    destruct (Hno x). apply H. by left.
Qed.

(** C3: one strategy is selected for every folder, and which one is
    decided by what the folder holds, by the priority Archive, then
    VideoFiles, then LargeUnlabeledFiles, then None.  Archive is selected
    exactly when the folder holds an archive file (a regular file below it
    whose name ends in [.rar]), whatever else it holds, and with the first
    such file in traversal order.  VideoFiles is selected exactly when it
    holds no archive file but a video file, with the list of its video
    files, in traversal order.  LargeUnlabeledFiles is selected exactly
    when it holds neither but a large file without extension, with the
    list of those.  None is selected exactly when it holds none of the
    three.  The code of both processors does what [transfer_cases] states
    for the selected strategy. *)
Theorem strategy_selection_priority (fs : list (list (list N) * node))
    (folder : list (list N)) :
  let no_archive := forall a, ~ is_archive_file fs folder a in
  let no_video := forall v, ~ is_video_file fs folder v in
  let no_large := forall f, ~ is_large_file fs folder default_min_bytes f in
  ((exists a, is_archive_file fs folder a)
   <-> exists rar, content_strategy fs folder = Archive rar)
  /\ (forall rar,
         content_strategy fs folder = Archive rar ->
         is_archive_file fs folder rar
         /\ exists before after,
              Fs.rglob_all fs folder = before ++ rar :: after
              /\ Forall (fun q => ~ is_archive_file fs folder q) before)
  /\ (no_archive /\ (exists v, is_video_file fs folder v)
      <-> exists l, content_strategy fs folder = VideoFiles l)
  /\ (forall l,
         content_strategy fs folder = VideoFiles l ->
         l <> [] /\ l `sublist_of` Fs.rglob_all fs folder
         /\ forall p, In p l <-> is_video_file fs folder p)
  /\ (no_archive /\ no_video
      /\ (exists f, is_large_file fs folder default_min_bytes f)
      <-> exists l, content_strategy fs folder = LargeUnlabeledFiles l)
  /\ (forall l,
         content_strategy fs folder = LargeUnlabeledFiles l ->
         l <> [] /\ l `sublist_of` Fs.rglob_all fs folder
         /\ forall p, In p l <-> is_large_file fs folder default_min_bytes p)
  /\ (no_archive /\ no_video /\ no_large <-> content_strategy fs folder = NoMedia)
  /\ (forall tool today pid release dest_dir details run w d w',
         files w = fs ->
         transfer_and_recycle tool today pid release folder dest_dir details run w
         = Return (d, w') ->
         transfer_cases tool today pid release folder dest_dir details run w d w').
Proof.
  cbn zeta. unfold content_strategy.
  destruct (select_strategy_cases (find_first_rar fs folder)
              (find_video_files fs folder)
              (find_large_extensionless fs folder default_min_bytes))
    as (H1 & H2 & H3 & H4).
  pose proof (no_archive_file fs folder) as Hrar.
  pose proof (nothing_found _ _ (video_files_found fs folder)) as Hvid.
  pose proof (nothing_found _ _ (large_files_found fs folder default_min_bytes))
    as Hlarge.
  assert (forall {A} (l : list A) (P : A -> Prop),
             (forall p, In p l <-> P p) -> l <> [] <-> exists p, P p) as Hsome.
  { intros A l P H. split.
    - destruct l as [|x l]; [done|]. intros _. exists x. apply H. by left.
    - intros (p & Hp) ->. by apply H in Hp. }
  pose proof (Hsome _ _ _ (video_files_found fs folder)) as Hvid'.
  pose proof (Hsome _ _ _ (large_files_found fs folder default_min_bytes))
    as Hlarge'.
  split.
  { split.
    - intros (a & Ha). apply archive_file_found in Ha as (rar & Hr & _).
      exists rar. by apply H1.
    - intros (rar & Hr). apply H1, first_rar_is_archive in Hr as [Hr _]. eauto. }
  split.
  { intros rar Hr. by apply H1, first_rar_is_archive in Hr. }
  split.
  { split.
    - intros (Hna & Hv). exists (find_video_files fs folder). apply H2.
      split; [by apply Hrar|]. split; [reflexivity|by apply Hvid'].
    - intros (l & Hl). apply H2 in Hl as (Hr & -> & Hne).
      split; [by apply Hrar|by apply Hvid']. }
  split.
  { intros l Hl. apply H2 in Hl as (_ & -> & Hne).
    split; [exact Hne|]. split; [apply list_filter_sublist|].
    apply video_files_found. }
  split.
  { split.
    - intros (Hna & Hnv & Hf).
      exists (find_large_extensionless fs folder default_min_bytes). apply H3.
      split; [by apply Hrar|]. split; [by apply Hvid|].
      split; [reflexivity|by apply Hlarge']. 
    - intros (l & Hl). apply H3 in Hl as (Hr & Hv & -> & Hne).
      split; [by apply Hrar|]. split; [by apply Hvid|by apply Hlarge']. }
  split.
  { intros l Hl. apply H3 in Hl as (_ & _ & -> & Hne).
    split; [exact Hne|]. split; [apply list_filter_sublist|].
    apply large_files_found. }
  split.
  { rewrite H4, Hrar, Hvid, Hlarge. reflexivity. }
  intros tool today pid release dest_dir details run w d w' _.
  apply transfer_and_recycle_inv.
Qed.

Ltac in_list := vm_compute; repeat (first [left; reflexivity | right]).

Lemma strategy_selection_witness :
  is_archive_file (files show_with_rar) show_folder
    (show_folder // py "show.name.s01e02.rar")
  /\ is_video_file (files show_with_rar) show_folder
       (show_folder // py "Sample" // py "sample.mkv")
  /\ content_strategy (files show_with_rar) show_folder
     = Archive (show_folder // py "show.name.s01e02.rar").
Proof.
  assert (is_archive_file (files show_with_rar) show_folder
            (show_folder // py "show.name.s01e02.rar")) as Ha.
  { split; [in_list|]. split; vm_compute; reflexivity. }
  assert (is_video_file (files show_with_rar) show_folder
            (show_folder // py "Sample" // py "sample.mkv")) as Hv.
  { split; [in_list|]. split; [vm_compute; reflexivity|].
    apply list_elem_of_In. in_list. }
  split; [exact Ha|]. split; [exact Hv|].
  destruct (strategy_selection_priority (files show_with_rar) show_folder)
    as (H & _).
  destruct (proj1 H (ex_intro _ _ Ha)) as (rar & Hs). rewrite Hs.
  vm_compute in Hs. injection Hs as <-. reflexivity.
Defined.

Lemma filter_mkdir_opt (b : bool) p :
  List.filter is_move (if b then [SysMkdir p] else []) = [].
Proof. by destruct b. Qed.

(** The calls and log lines of a loop of [move_path]: when performing, its
    moves are those of the files of the list, in order, each to its target;
    the log names every one of them in both modes. *)
Lemma moves_post_moves target run l :
  forall w w',
    moves_post l target run w w' ->
    exists issued lines,
      calls w' = calls w ++ issued
      /\ log w' = log w ++ lines
      /\ List.filter is_move issued
         = (if run then map (fun v => SysMove v (target v)) l else [])
      /\ forall v, In v l -> In (move_line v (target v)) lines.
Proof.
  induction l as [|v l IH]; intros w w'; cbn [moves_post].
  - intros ->. exists [], []. rewrite !app_nil_r.
    repeat split; [by destruct run|]. intros v [].
  - intros (w1 & (w0 & (_ & _ & Hc0 & Hl0 & _) & _ & Hc1 & Hl1 & _) & H).
    apply IH in H as (issued & lines & Hc & Hl & Hf & Hin).
    eexists. eexists. split; [|split; [|split]].
    + rewrite Hc, Hc1, Hc0, <- !app_assoc. reflexivity.
    + rewrite Hl, Hl1, Hl0, <- !app_assoc. reflexivity.
    + rewrite !List.filter_app, filter_mkdir_opt, Hf. by destruct run.
    + intros v' [<-|Hv].
      * apply in_or_app. right. apply in_or_app. left. by left.
      * apply in_or_app. right. apply in_or_app. right. by apply Hin.
Qed.

Lemma recycle_post_moves today pid folder details run w d w' :
  recycle_post today pid folder details run w d w' ->
  exists issued lines,
    calls w' = calls w ++ issued
    /\ log w' = log w ++ lines
    /\ List.filter is_move issued
       = (if run
          then [SysMove folder (unique_recycle_dest today pid (files w) folder)]
          else []).
Proof.
  intros (w1 & (_ & _ & Hc1 & Hl1 & _) & _ & Hc & Hl & _ & _).
  eexists. eexists. split; [|split].
  - rewrite Hc, Hc1, <- !app_assoc. reflexivity.
  - rewrite Hl, Hl1, <- !app_assoc. reflexivity.
  - rewrite List.filter_app, filter_mkdir_opt. by destruct run.
Qed.

Lemma extless_outcome
    (tool : list (list N) -> list (list (list N) * node) ->
            exc (Z * list N * list (list (list N) * node)))
    (today : list N) (pid : N) release folder dest_dir details run w d w' extless :
  content_strategy (files w) folder = LargeUnlabeledFiles extless ->
  (ensure_dir dest_dir run;;
   transfer_and_recycle tool today pid release folder dest_dir details run) w
  = Return (d, w') ->
  exists issued lines recycle_dest,
    calls w' = calls w ++ issued
    /\ log w' = log w ++ lines
    /\ List.filter is_move issued
       = (if run
          then map (fun f => SysMove f (dest_dir // (release ++ py ".mkv"))) extless
               ++ [SysMove folder recycle_dest]
          else [])
    /\ forall f, In f extless ->
                 In (move_line f (dest_dir // (release ++ py ".mkv"))) lines.
Proof.
  intros Hs H.
  apply ensure_then_transfer_inv in H as (w1 & (_ & _ & Hc1 & Hl1 & _) & Hs1 & H).
  unfold transfer_cases in H. rewrite Hs1, Hs in H.
  destruct H as (w2 & Hm & Hr).
  apply moves_post_moves in Hm as (i2 & l2 & Hc2 & Hl2 & Hf2 & Hin).
  apply recycle_post_moves in Hr as (i3 & l3 & Hc3 & Hl3 & Hf3).
  eexists. eexists. eexists. split; [|split; [|split]].
  - rewrite Hc3, Hc2, Hc1, <- !app_assoc. reflexivity.
  - rewrite Hl3, Hl2, Hl1, <- !app_assoc. reflexivity.
  - rewrite !List.filter_app, filter_mkdir_opt, Hf2, Hf3. by destruct run.
  - intros f Hf. apply in_or_app. right. apply in_or_app. left. by apply Hin.
Qed.

(** C10: when the LargeUnlabeledFiles strategy is selected, every file of
    the list goes to one and the same path, [<dest_dir>/<release>.mkv]: the
    target does not depend on the file.  When performing, the moves issued
    are those of the files, in order, all to that path, followed by the
    retirement of the folder; in both modes the log names each of them.
    With two or more files, every move after the first is onto the path
    the first one used. *)
Theorem large_unlabeled_files_share_target
    (tool : list (list N) -> list (list (list N) * node) ->
            exc (Z * list N * list (list (list N) * node)))
    (today : list N) (pid : N) (folder dest_dir : list (list N)) (run : bool)
    (w : world) (d : gmap string (list N)) (w' : world)
    (extless : list (list (list N))) :
  content_strategy (files w) folder = LargeUnlabeledFiles extless ->
  (exists parsed,
      parse_tv (Path.name folder) = Return (Some parsed)
      /\ dest_dir = tv_dest_dir parsed
      /\ process_series_folder tool today pid folder run w = Return (d, w'))
  \/ (exists parsed,
        parse_movie (Path.name folder) = Return (Some parsed)
        /\ dest_dir = movie_dest_dir parsed
        /\ process_movie_folder tool today pid folder run w = Return (d, w')) ->
  exists issued lines recycle_dest,
    calls w' = calls w ++ issued
    /\ log w' = log w ++ lines
    /\ List.filter is_move issued
       = (if run
          then map (fun f => SysMove f (dest_dir // (Path.name folder ++ py ".mkv")))
                   extless
               ++ [SysMove folder recycle_dest]
          else [])
    /\ forall f, In f extless ->
                 In (move_line f (dest_dir // (Path.name folder ++ py ".mkv"))) lines.
Proof.
  intros Hs H.
  assert (exists details,
             (ensure_dir dest_dir run;;
              transfer_and_recycle tool today pid (Path.name folder) folder
                dest_dir details run) w = Return (d, w'))
    as (details & Hrun).
  { destruct H as [(parsed & Hp & -> & H)|(parsed & Hp & -> & H)].
    - rewrite (process_series_folder_parsed _ _ _ _ _ _ _ Hp) in H. eauto.
    - rewrite (process_movie_folder_parsed _ _ _ _ _ _ _ Hp) in H. eauto. }
  exact (extless_outcome _ _ _ _ _ _ _ _ _ _ _ _ Hs Hrun).
Qed.

Lemma large_unlabeled_files_witness :
  exists d w' recycle_dest,
    process_movie_folder tool_ok sample_today 4242 blob_folder true two_blobs
    = Return (d, w')
    /\ content_strategy (files two_blobs) blob_folder
       = LargeUnlabeledFiles [blob_folder // py "part1"; blob_folder // py "part2"]
    /\ List.filter is_move (calls w')
       = [ SysMove (blob_folder // py "part1")
             (movie_dest // py "Movie.Title.1999.BluRay.x264-GRP.mkv");
           SysMove (blob_folder // py "part2")
             (movie_dest // py "Movie.Title.1999.BluRay.x264-GRP.mkv");
           SysMove blob_folder recycle_dest ].
Proof.
  assert (content_strategy (files two_blobs) blob_folder
          = LargeUnlabeledFiles [blob_folder // py "part1"; blob_folder // py "part2"])
    as HS by (vm_compute; reflexivity).
  assert (parse_movie (Path.name blob_folder)
          = Return (Some (mkParsedMovie (py "Movie Title") 1999))) as HP
    by (vm_compute; reflexivity).
  destruct (process_movie_folder tool_ok sample_today 4242 blob_folder true two_blobs)
    as [[d w']|e] eqn:HE; [|exfalso; vm_compute in HE; discriminate HE].
  destruct (large_unlabeled_files_share_target tool_ok sample_today 4242 blob_folder
              movie_dest true _ _ _ _ HS
              (or_intror (ex_intro _ _ (conj HP (conj eq_refl HE)))))
    as (issued & lines & rd & Hc & _ & Hf & _).
  exists d, w', rd. split; [reflexivity|]. split; [exact HS|].
  rewrite Hc. change (calls two_blobs) with (@nil syscall). cbn [app].
  exact Hf.
Defined.

Lemma path_exists_in fs p : In p (map fst fs) -> Fs.path_exists fs p = true.
Proof.
  intros H. apply lookup_in_not_None in H. unfold Fs.path_exists.
  by destruct (Fs.lookup fs p).
Qed.

(** The recycle destination is the plain name when that is free, else the
    first free numbered variant; it exists already only when the plain name
    and all 999 variants are taken, and then it is the name with the
    process identifier. *)
Lemma unique_recycle_dest_fresh (today : list N) (pid : N)
    (fs : list (list (list N) * node)) (src_folder : list (list N)) :
  let base := RECYCLE // today // Path.name src_folder in
  (Fs.path_exists fs base = false ->
   unique_recycle_dest today pid fs src_folder = base)
  /\ (forall i,
         Fs.path_exists fs base = true ->
         (1 <= i <= 999)%nat ->
         Fs.path_exists fs (recycle_cand today src_folder (N.of_nat i)) = false ->
         (forall j, (1 <= j < i)%nat ->
                    Fs.path_exists fs (recycle_cand today src_folder (N.of_nat j)) = true) ->
         unique_recycle_dest today pid fs src_folder
         = recycle_cand today src_folder (N.of_nat i))
  /\ (Fs.path_exists fs base = true ->
      (forall i, (1 <= i <= 999)%nat ->
                 Fs.path_exists fs (recycle_cand today src_folder (N.of_nat i)) = true) ->
      unique_recycle_dest today pid fs src_folder = recycle_cand today src_folder pid)
  /\ (Fs.path_exists fs (unique_recycle_dest today pid fs src_folder) = true ->
      Fs.path_exists fs base = true
      /\ (forall i, (1 <= i <= 999)%nat ->
                    Fs.path_exists fs (recycle_cand today src_folder (N.of_nat i)) = true)
      /\ unique_recycle_dest today pid fs src_folder = recycle_cand today src_folder pid).
Proof.
  intros base. unfold unique_recycle_dest. fold base.
  set (free := fun i : nat =>
         negb (Fs.path_exists fs (recycle_cand today src_folder (N.of_nat i)))).
  split; [by intros ->|]. split; [|split].
  - intros i Hb Hi Hfree Hbefore. rewrite Hb. cbn [negb].
    assert (forall n start, (start <= i < start + n)%nat ->
              (forall j, (start <= j < i)%nat -> free j = false) ->
              find free (List.seq start n) = Some i) as Hfind.
    { induction n as [|n IH]; intros start Hr Hb'; [lia|]. cbn [List.seq find].
      destruct (decide (start = i)) as [->|Hne].
      - unfold free at 1. by rewrite Hfree.
      - rewrite Hb' by lia. apply IH; [lia|]. intros j Hj. apply Hb'. lia. }
    rewrite (Hfind 999%nat 1%nat); [reflexivity|lia|].
    intros j Hj. unfold free. by rewrite Hbefore.
  - intros Hb Hall. rewrite Hb. cbn [negb].
    destruct (find free (List.seq 1 999)) as [i|] eqn:E; [|reflexivity].
    apply find_some in E as [Hin E]. apply in_seq in Hin.
    unfold free in E. rewrite Hall in E by lia. discriminate.
  - destruct (Fs.path_exists fs base) eqn:Hb; cbn [negb].
    + destruct (find free (List.seq 1 999)) as [i|] eqn:E.
      * apply find_some in E as [_ E]. unfold free in E.
        intros H. rewrite H in E. discriminate.
      * intros _. split; [reflexivity|]. split; [|reflexivity].
        intros i Hi. eapply find_none in E.
        -- unfold free in E. apply negb_false_iff in E. exact E.
        -- apply in_seq. lia.
    + intros H. congruence.
Qed.

Lemma crowded_recycle_taken i :
  (1 <= i <= 999)%nat ->
  Fs.path_exists crowded_recycle (recycle_cand sample_today show_folder (N.of_nat i))
  = true.
Proof.
  intros Hi. apply path_exists_in. unfold crowded_recycle.
  rewrite !map_app. apply in_or_app. right. apply in_or_app. right.
  rewrite map_map. cbn [fst]. apply in_map_iff. exists i.
  split; [reflexivity|]. apply in_seq. lia.
Qed.

(** C6 at the failing input: with the name and its 999 variants taken, the
    process with identifier 7 gets the variant [.7], which exists already. *)
Theorem unique_recycle_dest_pid_collision :
  Fs.path_exists crowded_recycle (RECYCLE // sample_today // Path.name show_folder) = true
  /\ (forall i, (1 <= i <= 999)%nat ->
        Fs.path_exists crowded_recycle
          (recycle_cand sample_today show_folder (N.of_nat i)) = true)
  /\ unique_recycle_dest sample_today 7 crowded_recycle show_folder
     = recycle_cand sample_today show_folder 7
  /\ Fs.path_exists crowded_recycle
       (unique_recycle_dest sample_today 7 crowded_recycle show_folder) = true.
Proof.
  assert (Fs.path_exists crowded_recycle
            (RECYCLE // sample_today // Path.name show_folder) = true) as Hb.
  { apply path_exists_in. unfold crowded_recycle.
    rewrite !map_app. apply in_or_app. right. apply in_or_app. left.
    cbn [map fst]. do 3 right. by left. }
  destruct (unique_recycle_dest_fresh sample_today 7 crowded_recycle show_folder)
    as (_ & _ & Hall & _).
  split; [exact Hb|]. split; [exact crowded_recycle_taken|].
  rewrite (Hall Hb crowded_recycle_taken). split; [reflexivity|].
  exact (crowded_recycle_taken 7 ltac:(lia)).
Qed.

(** ** The parsers on matching names *)

Lemma tv_suffix_inv t yy ss ee rest :
  tv_suffix t = Some (yy, ss, ee, rest) ->
  exists cS s1 s2 cE e1 e2,
    t = year_text yy ++ 46 :: cS :: s1 :: s2 :: cE :: e1 :: e2 :: rest
    /\ ss = [s1; s2] /\ ee = [e1; e2]
    /\ lit_match 83 cS = true /\ lit_match 69 cE = true
    /\ is_decimal s1 = true /\ is_decimal s2 = true
    /\ is_decimal e1 = true /\ is_decimal e2 = true
    /\ xorb (is_word e2) (word_at (head rest)) = true
    /\ match yy with
       | Some y =>
           exists c1 c2 d1 d2,
             y = [c1; c2; d1; d2]
             /\ ((c1 = 49 /\ c2 = 57) \/ (c1 = 50 /\ c2 = 48))
             /\ is_decimal d1 = true /\ is_decimal d2 = true
       | None => True
       end.
Proof.
  unfold tv_suffix.
  assert (forall t',
             match tail_test t' with
             | Some (ss', ee', _, rest') => Some (@None (list N), ss', ee', rest')
             | None => None
             end = Some (yy, ss, ee, rest) ->
             yy = None
             /\ exists e2, tail_test t' = Some (ss, ee, e2, rest)) as Hno.
  { intros t'. destruct (tail_test t') as [[[[ss' ee'] e2'] rest']|]; [|discriminate].
    intros [= <- <- <- <-]. eauto. }
  destruct (year_test t) as [[[y d2] u]|] eqn:Ey.
  - destruct (tail_test u) as [[[[ss' ee'] e2'] rest']|] eqn:Et.
    + intros [= <- <- <- <-].
      apply year_test_inv in Ey as (c1 & c2 & d1 & -> & -> & Hc & H1 & H2).
      apply tail_test_inv in Et
        as (cS & s1 & s2 & cE & e1 & -> & -> & -> & ? & ? & ? & ? & ? & ? & ?).
      exists cS, s1, s2, cE, e1, e2'. cbn [year_text app].
      repeat split; try assumption. exists c1, c2, d1, d2. auto.
    + intros H. apply Hno in H as (-> & e2 & Et').
      apply tail_test_inv in Et'
        as (cS & s1 & s2 & cE & e1 & -> & -> & -> & ? & ? & ? & ? & ? & ? & ?).
      exists cS, s1, s2, cE, e1, e2. repeat split; assumption.
  - intros H. apply Hno in H as (-> & e2 & Et').
    apply tail_test_inv in Et'
      as (cS & s1 & s2 & cE & e1 & -> & -> & -> & ? & ? & ? & ? & ? & ? & ?).
    exists cS, s1, s2, cE, e1, e2. repeat split; assumption.
Qed.

Lemma parse_tv_Some_inv release p :
  parse_tv release = Return (Some p) ->
  exists sh yy ss ee rest,
    split_lazy tv_suffix release = Some (sh, (yy, ss, ee, rest))
    /\ p = mkParsedTV (slug_to_name sh) (int_value <$> yy) (int_value ss) (int_value ee).
Proof.
  rewrite parse_tv_eq. intros [= H].
  destruct (split_lazy tv_suffix release) as [[sh [[[yy ss] ee] rest]]|];
    [|discriminate].
  injection H as <-. exists sh, yy, ss, ee, rest. auto.
Qed.

Lemma int_value_two d1 d2 :
  is_decimal d1 = true -> is_decimal d2 = true ->
  int_value [d1; d2] = (10 * digit_of d1 + digit_of d2)%Z
  /\ (0 <= int_value [d1; d2] <= 99)%Z.
Proof.
  intros H1 H2. unfold int_value. rewrite (int_two _ _ H1 H2).
  pose proof (digit_of_range d1). pose proof (digit_of_range d2).
  split; [reflexivity|lia].
Qed.

(** The decimal digits below 128 are the ASCII digits. *)
Lemma decimal_ascii c :
  is_decimal c = true -> is_ascii c = true ->
  is_ascii_digit c = true /\ digit_of c = Z.of_N (c - 48).
Proof.
  intros Hd Ha. unfold is_ascii in Ha. apply N.ltb_lt in Ha.
  assert (forallb (fun r => 128 <=? fst r) (tail decimal_ranges) = true) as Hrest
    by (vm_compute; reflexivity).
  unfold is_decimal, in_ranges in Hd. unfold digit_of, decimal_value.
  change decimal_ranges with ((48, 57) :: tail decimal_ranges) in Hd |- *.
  set (others := tail decimal_ranges) in *.
  cbn [existsb find fst snd] in *.
  destruct ((48 <=? c) && (c <=? 57)) eqn:E.
  - apply andb_prop in E as [E1 E2]. apply N.leb_le in E1, E2.
    unfold is_ascii_digit. split.
    + apply andb_true_intro. split; by apply N.leb_le.
    + f_equal. apply N.mod_small. lia.
  - exfalso. cbn [orb] in Hd. apply existsb_exists in Hd as (r & Hin & Hr).
    rewrite forallb_forall in Hrest. apply Hrest in Hin.
    apply andb_prop in Hr as [Hr _]. apply N.leb_le in Hin, Hr. lia.
Qed.

(** C8, as amended: when [parse_tv] succeeds, the name holds the season
    marker: a period, the letter S, two decimal digits, the letter E and
    two decimal digits, in the sense [\d] has on a [str] pattern: the
    characters of general category Nd, of which the ASCII digits are a
    part.  The season and the episode are the values of the two pairs,
    between 0 and 99.  In a name made of ASCII characters the four digits
    are ASCII digits. *)
Theorem season_episode_two_decimal_digits (release : list N) (p : ParsedTV) :
  parse_tv release = Return (Some p) ->
  exists pre cS s1 s2 cE e1 e2 rest,
    release = pre ++ 46 :: cS :: s1 :: s2 :: cE :: e1 :: e2 :: rest
    /\ lit_match 83 cS = true /\ lit_match 69 cE = true
    /\ is_decimal s1 = true /\ is_decimal s2 = true
    /\ is_decimal e1 = true /\ is_decimal e2 = true
    /\ season p = (10 * digit_of s1 + digit_of s2)%Z
    /\ episode p = (10 * digit_of e1 + digit_of e2)%Z
    /\ (0 <= season p <= 99)%Z /\ (0 <= episode p <= 99)%Z
    /\ (Forall (fun c => is_ascii c = true) release ->
        is_ascii_digit s1 = true /\ is_ascii_digit s2 = true
        /\ is_ascii_digit e1 = true /\ is_ascii_digit e2 = true
        /\ season p = Z.of_N (10 * (s1 - 48) + (s2 - 48))
        /\ episode p = Z.of_N (10 * (e1 - 48) + (e2 - 48))).
Proof.
  intros H. apply parse_tv_Some_inv in H as (sh & yy & ss & ee & rest & Hs & ->).
  apply split_lazy_inv in Hs as (t & -> & _ & _ & Ht & _).
  apply tv_suffix_inv in Ht
    as (cS & s1 & s2 & cE & e1 & e2 & -> & -> & -> & HS & HE & H1 & H2 & H3 & H4 & _).
  exists (sh ++ year_text yy), cS, s1, s2, cE, e1, e2, rest.
  destruct (int_value_two _ _ H1 H2) as [Hv1 Hr1].
  destruct (int_value_two _ _ H3 H4) as [Hv2 Hr2].
  cbn [season episode].
  split; [by rewrite <- app_assoc|].
  do 6 (split; [assumption|]).
  split; [exact Hv1|]. split; [exact Hv2|]. split; [exact Hr1|]. split; [exact Hr2|].
  intros Hascii. rewrite !Forall_app in Hascii.
  destruct Hascii as (_ & _ & Hascii).
  repeat match goal with
         | H : Forall _ (_ :: _) |- _ => apply Forall_cons in H as [? H]
         end.
  destruct (decimal_ascii s1) as [? E1]; [done..|].
  destruct (decimal_ascii s2) as [? E2]; [done..|].
  destruct (decimal_ascii e1) as [? E3]; [done..|].
  destruct (decimal_ascii e2) as [? E4]; [done..|].
  do 4 (split; [assumption|]).
  rewrite Hv1, Hv2, E1, E2, E3, E4. split; lia.
Qed.

Lemma season_episode_witness :
  parse_tv (py "Show.Name.2020.S01E02.1080p.WEB.x264-GRP")
  = Return (Some (mkParsedTV (py "Show Name") (Some 2020%Z) 1 2))
  /\ exists pre cS s1 s2 cE e1 e2 rest,
       py "Show.Name.2020.S01E02.1080p.WEB.x264-GRP"
       = pre ++ 46 :: cS :: s1 :: s2 :: cE :: e1 :: e2 :: rest
       /\ is_decimal s1 = true /\ is_decimal s2 = true
       /\ is_decimal e1 = true /\ is_decimal e2 = true
       /\ (10 * digit_of s1 + digit_of s2 = 1)%Z
       /\ (10 * digit_of e1 + digit_of e2 = 2)%Z.
Proof.
  assert (parse_tv (py "Show.Name.2020.S01E02.1080p.WEB.x264-GRP")
          = Return (Some (mkParsedTV (py "Show Name") (Some 2020%Z) 1 2))) as H
    by (vm_compute; reflexivity).
  split; [exact H|].
  destruct (season_episode_two_decimal_digits _ _ H)
    as (pre & cS & s1 & s2 & cE & e1 & e2 & rest & Hr & _ & _ & H1 & H2 & H3 & H4
        & Hs & He & _).
  exists pre, cS, s1, s2, cE, e1, e2, rest. cbn [season episode] in Hs, He. auto 10.
Defined.

(** C8, as stated, fails: the name [S.S٠١E٠٢] has no ASCII digit at all, and
    [parse_tv] succeeds on it with season 1 and episode 2. *)
Lemma season_digits_need_not_be_ascii :
  parse_tv arabic_indic_release = Return (Some (mkParsedTV [83] None 1 2))
  /\ re_match TV_RE arabic_indic_release <> None
  /\ Forall (fun c => is_ascii_digit c = false) arabic_indic_release.
Proof.
  split; [vm_compute; reflexivity|]. split.
  - vm_compute. discriminate.
  - repeat constructor.
Qed.

Lemma tv_accepts_None u : tv_accepts u = false <-> tv_suffix u = None.
Proof. unfold tv_accepts. destruct (tv_suffix u); split; congruence. Qed.

(** The scan finds the same show segment and the same groups when the text
    after the matched prefix is replaced by another that starts, like it,
    with a word character or without one. *)
Lemma split_lazy_tv_rest release sh yy ss ee rest :
  split_lazy tv_suffix release = Some (sh, (yy, ss, ee, rest)) ->
  exists cS cE,
    release = sh ++ year_text yy ++ [46; cS] ++ ss ++ [cE] ++ ee ++ rest
    /\ forall rest',
         word_at (head rest') = word_at (head rest) ->
         split_lazy tv_suffix
           (sh ++ year_text yy ++ [46; cS] ++ ss ++ [cE] ++ ee ++ rest')
         = Some (sh, (yy, ss, ee, rest')).
Proof.
  intros H. apply split_lazy_inv in H as (t & -> & Hne & Hall & Ht & Hmin).
  apply tv_suffix_inv in Ht
    as (cS & s1 & s2 & cE & e1 & e2 & -> & -> & -> & HS & HE & H1 & H2 & H3 & H4
        & Hb & Hy).
  exists cS, cE. split; [reflexivity|].
  intros rest' Hw. cbn [app].
  apply split_lazy_intro; try assumption.
  - apply tv_suffix_intro; try assumption. by rewrite Hw.
  - intros j Hj. specialize (Hmin j Hj).
    rewrite drop_app_le in Hmin |- * by lia.
    apply tv_accepts_None. apply tv_accepts_None in Hmin.
    rewrite <- Hmin. apply tv_accepts_stable.
    + intros E. apply (f_equal length) in E. rewrite length_drop in E.
      cbn in E. lia.
    + destruct yy as [y|]; [|done].
      by destruct Hy as (c1 & c2 & d1 & d2 & -> & _).
    + exact Hw.
Qed.

Lemma int_value_year c1 c2 d1 d2 :
  (c1 = 49 /\ c2 = 57) \/ (c1 = 50 /\ c2 = 48) ->
  is_decimal d1 = true -> is_decimal d2 = true ->
  (1900 <= int_value [c1; c2; d1; d2] <= 2099)%Z.
Proof.
  intros Hc H1 H2.
  pose proof (digit_of_range d1). pose proof (digit_of_range d2).
  unfold int_value.
  destruct Hc as [[-> ->]|[-> ->]].
  - rewrite (int_four _ _ _ _ decimal_49 decimal_57 H1 H2).
    change (digit_of 49) with 1%Z. change (digit_of 57) with 9%Z. lia.
  - rewrite (int_four _ _ _ _ decimal_50 decimal_48 H1 H2).
    change (digit_of 50) with 2%Z. change (digit_of 48) with 0%Z. lia.
Qed.

(** C7: when the TV pattern matches a release name, the name is the show
    segment, the optional year, the season marker and the trailing tags;
    [parse_tv] returns the show segment normalised (its words, cut at
    periods and white space, joined by single spaces: every period
    replaced, white space collapsed, the ends trimmed), the year, when there
    is one, between 1900 and 2099, and the season and the episode as
    integers; whatever follows the matched prefix is ignored, as long as it
    keeps the word boundary after the episode. *)
Theorem parse_tv_on_matching_name (release : list N) (m : gmap string (list N)) :
  re_match TV_RE release = Some m ->
  exists sh yy ss ee cS cE rest,
    m !! "show" = Some sh /\ m !! "year" = yy
    /\ m !! "season" = Some ss /\ m !! "ep" = Some ee
    /\ release = sh ++ year_text yy ++ [46; cS] ++ ss ++ [cE] ++ ee ++ rest
    /\ lit_match 83 cS = true /\ lit_match 69 cE = true
    /\ length ss = 2%nat /\ length ee = 2%nat
    /\ parse_tv release
       = Return (Some (mkParsedTV (slug_to_name sh) (int_value <$> yy)
                         (int_value ss) (int_value ee)))
    /\ slug_to_name sh = join_words (words_of sh)
    /\ Forall (fun w => w <> [] /\ Forall (fun c => is_sep c = false) w) (words_of sh)
    /\ (forall y, yy = Some y -> (1900 <= int_value y <= 2099)%Z)
    /\ (0 <= int_value ss <= 99)%Z /\ (0 <= int_value ee <= 99)%Z
    /\ forall rest',
         word_at (head rest') = word_at (head rest) ->
         parse_tv (sh ++ year_text yy ++ [46; cS] ++ ss ++ [cE] ++ ee ++ rest')
         = parse_tv release.
Proof.
  rewrite re_match_TV_RE.
  destruct (split_lazy tv_suffix release) as [[sh [[[yy ss] ee] rest]]|] eqn:Hs;
    [|discriminate].
  intros [= <-].
  pose proof (parse_tv_eq release) as Hp. rewrite Hs in Hp.
  destruct (split_lazy_tv_rest _ _ _ _ _ _ Hs) as (cS & cE & Hrel & Hrest).
  pose proof Hs as Hs'.
  apply split_lazy_inv in Hs' as (t & Ht0 & _ & _ & Ht & _).
  apply tv_suffix_inv in Ht
    as (cS' & s1 & s2 & cE' & e1 & e2 & Ht & -> & -> & HS & HE & H1 & H2 & H3 & H4
        & _ & Hy).
  assert (cS' = cS /\ cE' = cE) as [-> ->].
  { rewrite Ht0, Ht in Hrel. apply app_inv_head in Hrel.
    apply app_inv_head in Hrel. by injection Hrel. }
  exists sh, yy, [s1; s2], [e1; e2], cS, cE, rest.
  destruct (int_value_two _ _ H1 H2) as [_ Hr1].
  destruct (int_value_two _ _ H3 H4) as [_ Hr2].
  destruct (words_of_spec sh) as [Hwords _].
  assert (tv_groups (sh, (yy, [s1; s2], [e1; e2], rest)) !! "year" = yy) as Hyear.
  { unfold tv_groups, tv_fill. cbn [fst snd]. destruct yy; by map_lookup. }
  unfold tv_groups at 1 3 4, tv_fill. cbn [fst snd].
  split; [destruct yy; by map_lookup|]. split; [exact Hyear|].
  split; [by map_lookup|]. split; [by map_lookup|].
  split; [exact Hrel|]. do 4 (split; [done|]).
  split; [exact Hp|]. split; [apply slug_to_name_words|]. split; [exact Hwords|].
  split.
  { intros y ->. destruct Hy as (c1 & c2 & d1 & d2 & -> & Hc & Hd1 & Hd2).
    by apply int_value_year. }
  split; [exact Hr1|]. split; [exact Hr2|].
  intros rest' Hw. rewrite Hp, parse_tv_eq, (Hrest rest' Hw). reflexivity.
Qed.

Lemma parse_tv_witness :
  exists m,
    re_match TV_RE (py "Show.Name.2020.S01E02.1080p.WEB.x264-GRP") = Some m
    /\ m !! "show" = Some (py "Show.Name")
    /\ parse_tv (py "Show.Name.2020.S01E02.1080p.WEB.x264-GRP")
       = Return (Some (mkParsedTV (py "Show Name") (Some 2020%Z) 1 2))
    /\ parse_tv (py "Show.Name.2020.S01E02" ++ py ".720p.HDTV-OTHER")
       = Return (Some (mkParsedTV (py "Show Name") (Some 2020%Z) 1 2)).
Proof.
  destruct (re_match TV_RE (py "Show.Name.2020.S01E02.1080p.WEB.x264-GRP"))
    as [m|] eqn:E; [|exfalso; vm_compute in E; discriminate E].
  destruct (parse_tv_on_matching_name _ _ E)
    as (sh & yy & ss & ee & cS & cE & rest & Hsh & _ & _ & _ & Hrel & _ & _ & _ & _
        & Hp & _).
  exists m. split; [reflexivity|].
  split; [|split; vm_compute; reflexivity].
  rewrite Hsh. f_equal.
  assert (m !! "show" = Some (py "Show.Name")) as Hm.
  { assert (Some m = Some m) as Hmm by reflexivity. rewrite <- E in Hmm at 1.
    vm_compute in Hmm. injection Hmm as <-. vm_compute. reflexivity. }
  rewrite Hsh in Hm. by injection Hm.
Defined.

(** * Further properties of the code *)

(** ** The parsers *)

Lemma decimal_ranges_alnum :
  forallb (fun r => existsb (fun a => (fst a <=? fst r) && (snd r <=? snd a))
                      alnum_ranges) decimal_ranges = true.
Proof. vm_compute. reflexivity. Qed.

Lemma decimal_is_word c : is_decimal c = true -> is_word c = true.
Proof.
  unfold is_decimal, is_word, in_ranges. intros H.
  apply existsb_exists in H as (r & Hr & Hc).
  pose proof decimal_ranges_alnum as Hall.
  rewrite forallb_forall in Hall. specialize (Hall r Hr).
  apply existsb_exists in Hall as (a & Ha & Hra).
  apply orb_true_intro. left. apply existsb_exists. exists a. split; [exact Ha|].
  apply andb_prop in Hc as [Hc1 Hc2]. apply andb_prop in Hra as [Hr1 Hr2].
  apply N.leb_le in Hc1, Hc2, Hr1, Hr2.
  apply andb_true_intro. split; apply N.leb_le; lia.
Qed.

Lemma movie_suffix_inv t yy rest :
  movie_suffix t = Some (yy, rest) ->
  exists c1 c2 d1 d2,
    t = 46 :: c1 :: c2 :: d1 :: d2 :: rest
    /\ yy = [c1; c2; d1; d2]
    /\ ((c1 = 49 /\ c2 = 57) \/ (c1 = 50 /\ c2 = 48))
    /\ is_decimal d1 = true /\ is_decimal d2 = true
    /\ word_at (head rest) = false.
Proof.
  unfold movie_suffix. intros H.
  destruct (year_test t) as [[[yy' d2'] u]|] eqn:Hy; [|discriminate H].
  destruct (xorb (is_word d2') (word_at (head u))) eqn:Hb; [|discriminate H].
  injection H as <- <-.
  apply year_test_inv in Hy as (c1 & c2 & d1 & -> & -> & Hc & H1 & H2).
  exists c1, c2, d1, d2'. repeat (split; [done|]).
  rewrite (decimal_is_word _ H2) in Hb. by destruct (word_at (head u)).
Qed.

Lemma year_test_intro c1 c2 d1 d2 u :
  (c1 = 49 /\ c2 = 57) \/ (c1 = 50 /\ c2 = 48) ->
  is_decimal d1 = true -> is_decimal d2 = true ->
  year_test (46 :: c1 :: c2 :: d1 :: d2 :: u) = Some ([c1; c2; d1; d2], d2, u).
Proof.
  intros Hc H1 H2. unfold year_test. rewrite H1, H2.
  by destruct Hc as [[-> ->]|[-> ->]].
Qed.

Lemma movie_suffix_intro c1 c2 d1 d2 rest :
  (c1 = 49 /\ c2 = 57) \/ (c1 = 50 /\ c2 = 48) ->
  is_decimal d1 = true -> is_decimal d2 = true ->
  word_at (head rest) = false ->
  movie_suffix (46 :: c1 :: c2 :: d1 :: d2 :: rest) = Some ([c1; c2; d1; d2], rest).
Proof.
  intros Hc H1 H2 Hw. unfold movie_suffix.
  rewrite (year_test_intro _ _ _ _ _ Hc H1 H2), (decimal_is_word _ H2), Hw.
  reflexivity.
Qed.

(** What the movie pattern asks for after the title segment: a period, a
    year of four digits that starts with 19 or 20, and no word character
    next. *)
Lemma movie_suffix_Some t :
  movie_suffix t <> None <->
  exists c1 c2 d1 d2 rest,
    t = 46 :: c1 :: c2 :: d1 :: d2 :: rest
    /\ ((c1 = 49 /\ c2 = 57) \/ (c1 = 50 /\ c2 = 48))
    /\ is_decimal d1 = true /\ is_decimal d2 = true
    /\ word_at (head rest) = false.
Proof.
  split.
  - destruct (movie_suffix t) as [[yy rest]|] eqn:H; [|done]. intros _.
    apply movie_suffix_inv in H as (c1 & c2 & d1 & d2 & -> & _ & Hc & H1 & H2 & Hw).
    by exists c1, c2, d1, d2, rest.
  - intros (c1 & c2 & d1 & d2 & rest & -> & Hc & H1 & H2 & Hw).
    by rewrite (movie_suffix_intro _ _ _ _ _ Hc H1 H2 Hw).
Qed.

(** X1: when the movie pattern matches a release name, the name is the
    title segment, a period, a year of four digits that starts with 19 or
    20, and a rest that does not start with a word character; the title
    segment is not empty, has no line feed, and no shorter segment is
    followed by such a year.  [parse_movie] returns the title segment
    normalised (its words joined by single spaces) and the year, a number
    between 1900 and 2099. *)
Theorem parse_movie_on_matching_name (release : list N) (m : gmap string (list N)) :
  re_match MOVIE_RE release = Some m ->
  exists ti c1 c2 d1 d2 rest,
    m !! "title" = Some ti /\ m !! "year" = Some [c1; c2; d1; d2]
    /\ release = ti ++ 46 :: [c1; c2; d1; d2] ++ rest
    /\ ti <> [] /\ Forall (fun c => c <> 10) ti
    /\ ((c1 = 49 /\ c2 = 57) \/ (c1 = 50 /\ c2 = 48))
    /\ is_decimal d1 = true /\ is_decimal d2 = true
    /\ word_at (head rest) = false
    /\ parse_movie release
       = Return (Some (mkParsedMovie (join_words (words_of ti))
                         (int_value [c1; c2; d1; d2])))
    /\ (1900 <= int_value [c1; c2; d1; d2] <= 2099)%Z
    /\ forall j a1 a2 b1 b2 u,
         (0 < j < length ti)%nat ->
         drop j release = 46 :: a1 :: a2 :: b1 :: b2 :: u ->
         (a1 = 49 /\ a2 = 57) \/ (a1 = 50 /\ a2 = 48) ->
         is_decimal b1 = true -> is_decimal b2 = true ->
         word_at (head u) = true.
Proof.
  rewrite re_match_MOVIE_RE.
  destruct (split_lazy movie_suffix release) as [[ti [yy rest]]|] eqn:Hs;
    [|discriminate].
  intros [= <-].
  pose proof (parse_movie_eq release) as Hp. rewrite Hs in Hp.
  apply split_lazy_inv in Hs as (t & Hrel & Hne & Hall & Ht & Hmin).
  apply movie_suffix_inv in Ht as (c1 & c2 & d1 & d2 & -> & -> & Hc & H1 & H2 & Hw).
  exists ti, c1, c2, d1, d2, rest.
  unfold movie_groups. cbn [fst snd].
  split; [by map_lookup|]. split; [by map_lookup|].
  split; [exact Hrel|]. do 6 (split; [done|]).
  split; [by rewrite Hp; cbn; rewrite slug_to_name_words|].
  split; [by apply int_value_year|].
  intros j a1 a2 b1 b2 u Hj Hd Ha Hb1 Hb2.
  specialize (Hmin j Hj). rewrite Hd in Hmin.
  destruct (word_at (head u)) eqn:Hu; [reflexivity|].
  by rewrite (movie_suffix_intro _ _ _ _ _ Ha Hb1 Hb2 Hu) in Hmin.
Qed.

Lemma parse_movie_witness :
  exists m,
    re_match MOVIE_RE (py "Movie.Title.1999.BluRay.x264-GRP") = Some m
    /\ parse_movie (py "Movie.Title.1999.BluRay.x264-GRP")
       = Return (Some (mkParsedMovie (py "Movie Title") 1999)).
Proof.
  destruct (re_match MOVIE_RE (py "Movie.Title.1999.BluRay.x264-GRP"))
    as [m|] eqn:E; [|exfalso; vm_compute in E; discriminate E].
  destruct (parse_movie_on_matching_name _ _ E)
    as (ti & c1 & c2 & d1 & d2 & rest & _ & _ & _ & _ & _ & _ & _ & _ & _ & Hp & _).
  exists m. split; [reflexivity|]. vm_compute. reflexivity.
Defined.

(** The lazy segment ends at the first position that the test accepts. *)
Lemma scan_complete {X} (test : list N -> option X) s :
  forall pre n,
    (n <= length s)%nat -> test (drop n s) <> None ->
    Forall (fun c => c <> 10) (take n s) ->
    exists k x, (k <= n)%nat
      /\ scan test pre s = Some (pre ++ take k s, x)
      /\ test (drop k s) = Some x.
Proof.
  induction s as [|c s IH]; intros pre n Hn Ht Hall.
  - cbn in *. rewrite drop_nil in Ht. destruct (test []) as [x|] eqn:E; [|done].
    exists 0%nat, x. cbn [scan take drop]. rewrite E, app_nil_r.
    split; [lia|done].
  - cbn [scan]. destruct (test (c :: s)) as [x|] eqn:E.
    + exists 0%nat, x. cbn [take drop]. rewrite app_nil_r. split; [lia|done].
    + destruct n as [|n]; [by cbn in Ht|].
      cbn in Hn, Ht, Hall. apply Forall_cons in Hall as [Hc Hall].
      apply N.eqb_neq in Hc. rewrite Hc. cbn [negb].
      destruct (IH (pre ++ [c]) n ltac:(lia) Ht Hall) as (k & x & Hk & Hs & Hx).
      exists (S k), x. split; [lia|]. split; [|exact Hx].
      rewrite Hs. cbn. by rewrite <- app_assoc.
Qed.

Lemma split_lazy_complete {X} (test : list N -> option X) a t :
  a <> [] -> Forall (fun c => c <> 10) a -> test t <> None ->
  exists k x, (0 < k <= length a)%nat
    /\ split_lazy test (a ++ t) = Some (take k a, x)
    /\ test (drop k (a ++ t)) = Some x.
Proof.
  intros Hne Hall Ht. destruct a as [|c a]; [done|].
  apply Forall_cons in Hall as [Hc Hall]. apply N.eqb_neq in Hc.
  cbn [split_lazy app]. rewrite Hc. cbn [negb].
  destruct (scan_complete test (a ++ t) [c] (length a)) as (k & x & Hk & Hs & Hx).
  - rewrite length_app. lia.
  - by rewrite drop_app_length.
  - by rewrite take_app_length.
  - exists (S k), x. split; [cbn; lia|]. split; [|exact Hx].
    rewrite Hs. cbn. by rewrite take_app_le by lia.
Qed.

(** X2: every name with a season marker is accepted.  When a segment [a]
    that is not empty and has no line feed is followed by a period, S, two
    digits, E, two digits and no word character, [parse_tv] returns a
    record whose show is the normalisation of a prefix of [a]; when the
    prefix is all of [a], the record has no year and the season and the
    episode of this marker. *)
Theorem parse_tv_accepts_marked_names (a : list N) (cS s1 s2 cE e1 e2 : N)
    (rest : list N) :
  a <> [] -> Forall (fun c => c <> 10) a ->
  lit_match 83 cS = true -> lit_match 69 cE = true ->
  is_decimal s1 = true -> is_decimal s2 = true ->
  is_decimal e1 = true -> is_decimal e2 = true ->
  word_at (head rest) = false ->
  exists (k : nat) (parsed : ParsedTV),
    (0 < k <= length a)%nat
    /\ parse_tv (a ++ 46 :: cS :: s1 :: s2 :: cE :: e1 :: e2 :: rest)
       = Return (Some parsed)
    /\ show parsed = slug_to_name (take k a)
    /\ (k = length a ->
        parsed = mkParsedTV (slug_to_name a) None
                   (int_value [s1; s2]) (int_value [e1; e2])).
Proof.
  intros Hne Hall HS HE H1 H2 H3 H4 Hw.
  assert (xorb (is_word e2) (word_at (head rest)) = true) as Hb.
  { by rewrite (decimal_is_word _ H4), Hw. }
  pose proof (tv_suffix_intro None cS s1 s2 cE e1 e2 rest HS HE H1 H2 H3 H4 Hb I)
    as Ht. cbn [year_text app] in Ht.
  destruct (split_lazy_complete tv_suffix a
              (46 :: cS :: s1 :: s2 :: cE :: e1 :: e2 :: rest) Hne Hall)
    as (k & [[[yy ss] ee] rest'] & Hk & Hs & Hx); [by rewrite Ht|].
  exists k, (tv_record (take k a, (yy, ss, ee, rest'))).
  split; [exact Hk|]. split; [by rewrite parse_tv_eq, Hs|].
  split; [reflexivity|].
  intros ->. rewrite drop_app_length, Ht in Hx. injection Hx as <- <- <- <-.
  by rewrite firstn_all.
Qed.

Lemma parse_tv_accepts_witness :
  exists k parsed,
    parse_tv (py "Some.Show" ++ 46 :: [83; 48; 51; 69; 49; 50] ++ py ".720p")
    = Return (Some parsed)
    /\ show parsed = slug_to_name (take k (py "Some.Show")).
Proof.
  destruct (parse_tv_accepts_marked_names (py "Some.Show") 83 48 51 69 49 50 (py ".720p"))
    as (k & parsed & _ & Hp & Hshow & _);
    [ discriminate | repeat constructor; discriminate
    | reflexivity | reflexivity | reflexivity | reflexivity | reflexivity
    | reflexivity | reflexivity | ].
  exists k, parsed. split; [exact Hp | exact Hshow].
Defined.

(** X3: every name with a year is accepted as a movie.  When a segment
    [a] that is not empty and has no line feed is followed by a period, a
    year of four digits that starts with 19 or 20 and no word character,
    [parse_movie] returns a record whose title is the normalisation of a
    prefix of [a] and whose year lies between 1900 and 2099; when the
    prefix is all of [a], the year is this one. *)
Theorem parse_movie_accepts_dated_names (a : list N) (c1 c2 d1 d2 : N)
    (rest : list N) :
  a <> [] -> Forall (fun c => c <> 10) a ->
  (c1 = 49 /\ c2 = 57) \/ (c1 = 50 /\ c2 = 48) ->
  is_decimal d1 = true -> is_decimal d2 = true ->
  word_at (head rest) = false ->
  exists (k : nat) (parsed : ParsedMovie),
    (0 < k <= length a)%nat
    /\ parse_movie (a ++ 46 :: c1 :: c2 :: d1 :: d2 :: rest) = Return (Some parsed)
    /\ title parsed = slug_to_name (take k a)
    /\ (1900 <= movie_year parsed <= 2099)%Z
    /\ (k = length a -> movie_year parsed = int_value [c1; c2; d1; d2]).
Proof.
  intros Hne Hall Hc H1 H2 Hw.
  pose proof (movie_suffix_intro c1 c2 d1 d2 rest Hc H1 H2 Hw) as Ht.
  destruct (split_lazy_complete movie_suffix a
              (46 :: c1 :: c2 :: d1 :: d2 :: rest) Hne Hall)
    as (k & [yy rest'] & Hk & Hs & Hx); [by rewrite Ht|].
  exists k, (movie_record (take k a, (yy, rest'))).
  split; [exact Hk|]. split; [by rewrite parse_movie_eq, Hs|].
  split; [reflexivity|]. cbn [movie_record movie_year]. split.
  - apply movie_suffix_inv in Hx
      as (a1 & a2 & b1 & b2 & _ & -> & Ha & Hb1 & Hb2 & _).
    by apply int_value_year.
  - intros ->. rewrite drop_app_length, Ht in Hx. by injection Hx as <- <-.
Qed.

Lemma parse_movie_accepts_witness :
  exists parsed,
    parse_movie (py "A.Film" ++ 46 :: [50; 48; 49; 55] ++ py ".1080p")
    = Return (Some parsed)
    /\ (1900 <= movie_year parsed <= 2099)%Z.
Proof.
  destruct (parse_movie_accepts_dated_names (py "A.Film") 50 48 49 55 (py ".1080p"))
    as (k & parsed & _ & Hp & _ & Hy & _);
    [ discriminate | repeat constructor; discriminate
    | right; split; reflexivity | reflexivity | reflexivity | reflexivity | ].
  exists parsed. split; [exact Hp | exact Hy].
Defined.

(** ** Normalisation of a title *)

Lemma split_acc_word sep w :
  Forall (fun c => sep c = false) w ->
  forall cur t, split_acc sep cur (w ++ t) = split_acc sep (cur ++ w) t.
Proof.
  induction 1 as [|c w Hc _ IH]; intros cur t.
  - by rewrite app_nil_r.
  - cbn [app split_acc]. rewrite Hc, IH, <- app_assoc. reflexivity.
Qed.

Lemma split_acc_joined ws :
  Forall (fun w => w <> [] /\ Forall (fun c => is_sep c = false) w) ws ->
  forall cur, cur <> [] ->
    split_acc is_sep cur (flat_map (fun x => 32 :: x) ws) = cur :: ws.
Proof.
  induction 1 as [|w ws [Hne Hw] _ IH]; intros cur Hcur.
  - cbn. by destruct cur.
  - cbn [flat_map app split_acc]. change (is_sep 32) with true.
    destruct cur as [|c cur]; [done|].
    rewrite (split_acc_word _ _ Hw), app_nil_l, (IH w Hne). reflexivity.
Qed.

Lemma words_of_join ws :
  Forall (fun w => w <> [] /\ Forall (fun c => is_sep c = false) w) ws ->
  words_of (join_words ws) = ws.
Proof.
  intros H. destruct H as [|w ws [Hne Hw] H]; [reflexivity|].
  unfold words_of, join_words.
  rewrite (split_acc_word _ _ Hw), app_nil_l.
  by apply split_acc_joined.
Qed.

Lemma join_words_chars ws :
  Forall (fun w => w <> [] /\ Forall (fun c => is_sep c = false) w) ws ->
  Forall (fun c => c = 32 \/ is_sep c = false) (join_words ws).
Proof.
  intros H. destruct H as [|w ws [Hne Hw] H]; [constructor|].
  unfold join_words. apply Forall_app. split.
  - eapply List.Forall_impl; [|exact Hw]. auto.
  - induction H as [|w' ws' [_ Hw'] _ IH]; [constructor|].
    cbn [flat_map]. constructor; [by left|]. apply Forall_app. split; [|exact IH].
    eapply List.Forall_impl; [|exact Hw']. auto.
Qed.

Lemma join_words_ends ws :
  Forall (fun w => w <> [] /\ Forall (fun c => is_sep c = false) w) ws ->
  (forall c, head (join_words ws) = Some c -> is_sep c = false)
  /\ (forall c, last (join_words ws) = Some c -> is_sep c = false).
Proof.
  intros H. destruct H as [|w ws [Hne Hw] H]; [by split|].
  split.
  - destruct w as [|c0 w]; [done|]. cbn. intros c [= <-].
    by apply Forall_cons in Hw as [? _].
  - unfold join_words. revert w Hne Hw.
    induction H as [|w' ws' [Hne' Hw'] _ IH]; intros w Hne Hw c.
    + cbn [flat_map]. rewrite app_nil_r. intros Hl.
      rewrite List.Forall_forall in Hw. apply Hw.
      apply list_elem_of_In. eapply last_Some_elem_of. exact Hl.
    + cbn [flat_map]. intros Hl.
      apply (IH w' Hne' Hw' c).
      destruct w' as [|c' w']; [done|].
      rewrite last_app in Hl. cbn [app] in Hl.
      rewrite last_cons in Hl.
      destruct (last ((c' :: w') ++ flat_map (fun x => 32 :: x) ws')) eqn:E.
      * cbn [app] in E. rewrite E in Hl. exact Hl.
      * apply last_None in E. discriminate E.
Qed.

(** X4: [slug_to_name] gives a normal form.  Applying it again changes
    nothing; the result has no period and no white space but the plain
    space, and it neither starts nor ends with a space; it is empty exactly
    when the text holds nothing but periods and white space. *)
Theorem slug_to_name_normal_form (s : list N) :
  slug_to_name (slug_to_name s) = slug_to_name s
  /\ Forall (fun c => c = 32 \/ (c <> 46 /\ is_space c = false)) (slug_to_name s)
  /\ head (slug_to_name s) <> Some 32
  /\ last (slug_to_name s) <> Some 32
  /\ (slug_to_name s = [] <-> Forall (fun c => c = 46 \/ is_space c = true) s).
Proof.
  destruct (words_of_spec s) as [Hw Hc].
  rewrite !slug_to_name_words.
  split; [by rewrite (words_of_join _ Hw)|].
  assert (forall c, is_sep c = false -> c <> 46 /\ is_space c = false) as Hsep.
  { intros c H. unfold is_sep in H. apply orb_false_elim in H as [H1 H2].
    apply N.eqb_neq in H1. by split. }
  split.
  { eapply List.Forall_impl; [|exact (join_words_chars _ Hw)].
    intros c [->|H]; [by left|right; by apply Hsep]. }
  destruct (join_words_ends _ Hw) as [Hh Hl].
  split; [intros E; by specialize (Hh _ E)|].
  split; [intros E; by specialize (Hl _ E)|].
  split.
  - intros E.
    assert (words_of s = []) as E0.
    { destruct (words_of s) as [|w ws]; [reflexivity|].
      apply Forall_cons in Hw as [[Hne _] _].
      destruct w; [done|discriminate E]. }
    rewrite E0 in Hc. cbn in Hc. symmetry in Hc.
    rewrite List.Forall_forall. intros c Hin.
    destruct (is_sep c) eqn:Es.
    + unfold is_sep in Es. apply orb_prop in Es as [Es|Es]; [left|by right].
      by apply N.eqb_eq in Es.
    + exfalso. assert (In c (List.filter (fun c => negb (is_sep c)) s)) as Hf.
      { apply filter_In. split; [exact Hin|by rewrite Es]. }
      by rewrite Hc in Hf.
  - intros Hall.
    assert (List.filter (fun c => negb (is_sep c)) s = []) as Hf.
    { clear -Hall. induction Hall as [|c s Hcs _ IH]; [reflexivity|].
      cbn. assert (is_sep c = true) as ->; [|exact IH].
      unfold is_sep. destruct Hcs as [-> | ->]; [reflexivity|apply orb_true_r]. }
    rewrite Hf in Hc.
    destruct (words_of s) as [|w ws]; [reflexivity|].
    apply Forall_cons in Hw as [[Hne _] _].
    cbn in Hc. destruct w; [done|discriminate Hc].
Qed.

(** ** Directories and discovery *)

Lemma mkdir_from_lookup todo :
  forall fs done fs',
    Fs.mkdir_from fs done todo = Return fs' ->
    Fs.lookup fs done = Some Dir ->
    forall k, Fs.lookup fs' (done ++ take k todo) = Some Dir.
Proof.
  induction todo as [|c todo IH]; intros fs done fs' H Hd k.
  - injection H as <-. by rewrite take_nil, app_nil_r.
  - pose proof (mkdir_from_dir_ext _ _ _ _ H) as Hext.
    destruct k as [|k].
    + rewrite take_0, app_nil_r, (dir_ext_lookup _ _ _ Hext); [exact Hd|].
      by rewrite Hd.
    + cbn [take]. rewrite (cons_middle c), app_assoc.
      cbn [Fs.mkdir_from] in H.
      destruct (Fs.lookup fs (done ++ [c])) as [[|sz]|] eqn:E.
      * by apply (IH _ _ _ H).
      * discriminate H.
      * apply (IH _ _ _ H). rewrite lookup_app, E.
        unfold Fs.lookup. destruct (done ++ [c]) eqn:Ep; [by destruct done|].
        cbn. by rewrite bool_decide_eq_true_2.
Qed.

(** X5: what [ensure_dir] leaves behind when it performs.  The path
    exists afterwards; when it was missing, the path and every ancestor of
    it is a directory; every entry that existed is what it was; and a
    second call does nothing at all. *)
Theorem ensure_dir_creates_once (p : list (list N)) (w : world) (u : unit)
    (w' : world) :
  ensure_dir p true w = Return (u, w') ->
  Fs.path_exists (files w') p = true
  /\ (Fs.path_exists (files w) p = false ->
      forall k, Fs.is_dir (files w') (take k p) = true)
  /\ (forall q, Fs.path_exists (files w) q = true ->
                Fs.lookup (files w') q = Fs.lookup (files w) q)
  /\ ensure_dir p true w' = Return (tt, w').
Proof.
  intros H. pose proof (ensure_dir_inv _ _ _ _ _ H) as (Hext & _).
  assert (Fs.path_exists (files w) p = false ->
          forall k, Fs.is_dir (files w') (take k p) = true) as Hdirs.
  { intros E k. revert H.
    unfold ensure_dir, gets, mbind, M_bind. rewrite E.
    unfold sys_mkdir, Fs.mkdir_parents.
    destruct (Fs.mkdir_from (files w) [] p) as [fs'|e] eqn:Em;
      cbn [mbind exc_bind]; [|discriminate].
    unfold log_line. cbn [files calls log audit_log]. intros [= _ <-].
    cbn [files]. unfold Fs.is_dir.
    pose proof (mkdir_from_lookup _ _ _ _ Em eq_refl k) as Hk.
    rewrite app_nil_l in Hk. by rewrite Hk. }
  assert (Fs.path_exists (files w') p = true) as Hex.
  { destruct (Fs.path_exists (files w) p) eqn:E.
    - by apply (dir_ext_exists _ _ _ Hext).
    - specialize (Hdirs eq_refl (length p)). rewrite firstn_all in Hdirs.
      unfold Fs.is_dir in Hdirs. unfold Fs.path_exists.
      by destruct (Fs.lookup (files w') p) as [[|?]|]. }
  split; [exact Hex|]. split; [exact Hdirs|]. split.
  - intros q Hq. apply (dir_ext_lookup _ _ _ Hext).
    unfold Fs.path_exists in Hq. by destruct (Fs.lookup (files w) q).
  - unfold ensure_dir, gets, mbind, M_bind. by rewrite Hex.
Qed.

Lemma ensure_dir_creates_witness :
  exists w',
    ensure_dir show_dest_dir true show_empty = Return (tt, w')
    /\ Fs.path_exists (files show_empty) show_dest_dir = false
    /\ Fs.path_exists (files w') show_dest_dir = true
    /\ ensure_dir show_dest_dir true w' = Return (tt, w').
Proof.
  destruct (ensure_dir show_dest_dir true show_empty) as [[[] w']|e] eqn:E;
    [|exfalso; vm_compute in E; discriminate E].
  destruct (ensure_dir_creates_once _ _ _ _ E) as (H1 & _ & _ & H2).
  exists w'. split; [reflexivity|]. split; [vm_compute; reflexivity|].
  split; [exact H1 | exact H2].
Defined.

(** X6: creating directories never changes what the three scans find:
    after [ensure_dir], in either mode, the first archive, the video
    files and the large files without extension of any folder are the
    same, so the strategy selected does not depend on whether the
    destination directory was created first, wherever it lies. *)
Theorem ensure_dir_keeps_discovery (p : list (list N)) (run : bool) (w : world)
    (u : unit) (w' : world) (root : list (list N)) (min_bytes : N) :
  ensure_dir p run w = Return (u, w') ->
  find_first_rar (files w') root = find_first_rar (files w) root
  /\ find_video_files (files w') root = find_video_files (files w) root
  /\ find_large_extensionless (files w') root min_bytes
     = find_large_extensionless (files w) root min_bytes
  /\ content_strategy (files w') root = content_strategy (files w) root.
Proof.
  intros H. apply ensure_dir_inv in H as (Hext & _).
  unfold content_strategy.
  rewrite (dir_ext_first_rar _ _ _ Hext), (dir_ext_video_files _ _ _ Hext),
    !(dir_ext_large_extensionless _ _ _ _ Hext).
  done.
Qed.

Lemma ensure_dir_keeps_discovery_witness :
  exists w',
    ensure_dir (show_folder // py "Season 01") true show_with_mkv = Return (tt, w')
    /\ find_video_files (files w') show_folder
       = find_video_files (files show_with_mkv) show_folder.
Proof.
  destruct (ensure_dir (show_folder // py "Season 01") true show_with_mkv)
    as [[[] w']|e] eqn:E; [|exfalso; vm_compute in E; discriminate E].
  destruct (ensure_dir_keeps_discovery _ _ _ _ _ show_folder 0 E) as (_ & H & _).
  exists w'. split; [reflexivity | exact H].
Defined.

(** X7: what the scans return.  Every path found is a regular file of the
    listing that lies strictly below the folder, never the folder itself or
    a directory; the archive is the first regular file in traversal order
    whose name ends in [.rar]; no file is both a video file and a large
    file without extension, and a large file has at least the size asked
    for. *)
Theorem discovery_finds_files_below (fs : list (list (list N) * node))
    (root : list (list N)) (min_bytes : N) :
  (forall rar, find_first_rar fs root = Some rar ->
     Fs.is_file fs rar = true /\ Path.is_under root rar = true
     /\ Path.ends_with (py ".rar") (Path.name rar) = true
     /\ exists before after,
          Fs.rglob_all fs root = before ++ rar :: after
          /\ Forall (fun q => Path.ends_with (py ".rar") (Path.name q) = true ->
                              Fs.is_file fs q = false) before)
  /\ (forall v, In v (find_video_files fs root) ->
        Fs.is_file fs v = true /\ Path.is_under root v = true
        /\ Path.suffix v <> []
        /\ ~ In v (find_large_extensionless fs root min_bytes))
  /\ (forall f, In f (find_large_extensionless fs root min_bytes) ->
        Fs.is_file fs f = true /\ Path.is_under root f = true
        /\ Path.suffix f = [] /\ min_bytes <= stat_size fs f).
Proof.
  assert (forall p, In p (Fs.rglob_all fs root) -> Path.is_under root p = true)
    as Hunder.
  { intros p Hp. unfold Fs.rglob_all in Hp.
    apply list_elem_of_In, list_elem_of_fmap in Hp as (e & -> & He).
    apply list_elem_of_filter in He as [He _]. by apply Is_true_true. }
  split; [|split].
  - intros rar H. unfold find_first_rar in H.
    destruct (first_rar_split fs _ _ H) as (H1 & H3 & before & after & Hl & Hb).
    split; [exact H1|]. split; [|split; [exact H3|by exists before, after]].
    apply Hunder. rewrite Hl. apply in_elt.
  - intros v Hv. unfold find_video_files in Hv. apply filter_In in Hv as [Hin Hv].
    apply andb_prop in Hv as [Hf Hs]. apply bool_decide_eq_true in Hs.
    split; [exact Hf|]. split; [by apply Hunder|].
    assert (Path.suffix v <> []) as Hne.
    { intros E. rewrite E in Hs. cbn in Hs.
      unfold VIDEO_EXTS in Hs.
      repeat (apply elem_of_cons in Hs as [Hs|Hs]; [discriminate Hs|]).
      by apply elem_of_nil in Hs. }
    split; [exact Hne|].
    intros Hl. unfold find_large_extensionless in Hl.
    apply filter_In in Hl as [_ Hl]. apply andb_prop in Hl as [Hl _].
    apply andb_prop in Hl as [_ Hl]. by apply bool_decide_eq_true in Hl.
  - intros f Hf. unfold find_large_extensionless in Hf.
    apply filter_In in Hf as [Hin Hf].
    apply andb_prop in Hf as [Hf Hsz]. apply andb_prop in Hf as [Hf Hs].
    apply bool_decide_eq_true in Hs. apply N.leb_le in Hsz.
    split; [exact Hf|]. split; [by apply Hunder|]. by split.
Qed.

(** ** The processors *)

Lemma rglob_all_under fs root p :
  In p (Fs.rglob_all fs root) -> Path.is_under root p = true.
Proof.
  intros Hp. unfold Fs.rglob_all in Hp.
  apply list_elem_of_In, list_elem_of_fmap in Hp as (e & -> & He).
  apply list_elem_of_filter in He as [He _]. by apply Is_true_true.
Qed.

Lemma find_video_files_under fs root v :
  In v (find_video_files fs root) -> Path.is_under root v = true.
Proof. intros H. apply filter_In in H as [H _]. by apply rglob_all_under in H. Qed.

Lemma find_large_extensionless_under fs root mb f :
  In f (find_large_extensionless fs root mb) -> Path.is_under root f = true.
Proof. intros H. apply filter_In in H as [H _]. by apply rglob_all_under in H. Qed.

Lemma find_first_rar_under fs root rar :
  find_first_rar fs root = Some rar -> Path.is_under root rar = true.
Proof.
  intros H. apply find_some in H as [H _]. unfold Fs.rglob_rar in H.
  apply list_elem_of_In, list_elem_of_filter in H as [_ H].
  apply list_elem_of_In in H. by apply rglob_all_under in H.
Qed.

Lemma join_prefix p n : p `prefix_of` (p // n).
Proof. destruct n; [reflexivity|by apply prefix_app_r]. Qed.

Lemma parent_join p n : n <> [] -> Path.parent (p // n) = p.
Proof.
  intros Hn. destruct n as [|c n]; [done|].
  unfold Path.parent, Path.join. apply removelast_last.
Qed.

Lemma parent_join_prefix lib p n :
  lib `prefix_of` p -> lib `prefix_of` Path.parent p ->
  lib `prefix_of` Path.parent (p // n).
Proof.
  intros H1 H2. destruct n as [|c n]; [exact H2|].
  by rewrite parent_join.
Qed.

Lemma unique_recycle_dest_form today pid fs folder :
  exists x, unique_recycle_dest today pid fs folder = RECYCLE // today // x.
Proof.
  unfold unique_recycle_dest, recycle_cand.
  destruct (negb _); [by eexists|]. destruct (find _ _); by eexists.
Qed.

Lemma recycle_dest_in_recycle today pid fs folder :
  today <> [] ->
  RECYCLE `prefix_of` unique_recycle_dest today pid fs folder
  /\ RECYCLE `prefix_of` Path.parent (unique_recycle_dest today pid fs folder).
Proof.
  intros Ht. destruct (unique_recycle_dest_form today pid fs folder) as [x ->].
  split.
  - etrans; apply join_prefix.
  - apply parent_join_prefix; [apply join_prefix|].
    by rewrite parent_join.
Qed.

Lemma content_strategy_found fs folder :
  match content_strategy fs folder with
  | Archive rar => find_first_rar fs folder = Some rar
  | VideoFiles vids => vids = find_video_files fs folder
  | LargeUnlabeledFiles extless =>
      extless = find_large_extensionless fs folder default_min_bytes
  | NoMedia => True
  end.
Proof.
  unfold content_strategy, select_strategy.
  destruct (find_first_rar fs folder); [reflexivity|].
  destruct (find_video_files fs folder); [|reflexivity].
  by destruct (find_large_extensionless fs folder default_min_bytes).
Qed.

Section Bounds.

Variable tool :
    list (list N) -> list (list (list N) * node) ->
    exc (Z * list N * list (list (list N) * node)).
Variable today : list N.
Variable pid : N.
Variables lib folder dest_dir : list (list N).
Hypothesis Hdest : lib `prefix_of` dest_dir.
Hypothesis Hparent : lib `prefix_of` Path.parent dest_dir.

Lemma ensure_dir_bounds p run w w' :
  (today <> [] -> lib `prefix_of` p \/ RECYCLE `prefix_of` p) ->
  ensure_dir_post p run w w' ->
  exists issued,
    calls w' = calls w ++ issued
    /\ audit_log w' = audit_log w
    /\ (run = false -> issued = [])
    /\ (today <> [] -> Forall (call_in_bounds lib folder) issued).
Proof.
  intros Hp (_ & _ & Hc & _ & Ha).
  eexists. split; [exact Hc|]. split; [exact Ha|]. split.
  - by intros ->.
  - intros Ht. destruct (_ && _); [|constructor].
    constructor; [|constructor]. cbn. by apply Hp.
Qed.

Lemma moves_bounds target run l :
  (forall v, In v l -> Path.is_under folder v = true) ->
  (forall v, exists n, target v = dest_dir // n) ->
  forall w w',
    moves_post l target run w w' ->
    exists issued,
      calls w' = calls w ++ issued
      /\ audit_log w' = audit_log w
      /\ (run = false -> issued = [])
      /\ (today <> [] -> Forall (call_in_bounds lib folder) issued).
Proof.
  intros Hl Htarget.
  induction l as [|v l IH]; intros w w'; cbn [moves_post].
  - intros ->. exists []. rewrite app_nil_r. by repeat split.
  - intros (w1 & (w0 & He & _ & Hc1 & _ & Ha1) & H).
    destruct (Htarget v) as [n Hn].
    apply (ensure_dir_bounds (Path.parent (target v))) in He
      as (i0 & Hc0 & Ha0 & Hd0 & Hb0).
    2:{ intros _. left. rewrite Hn. by apply parent_join_prefix. }
    apply IH in H as (issued & Hc & Ha & Hd & Hb).
    2:{ intros v' Hv'. apply Hl. by right. }
    eexists. split; [rewrite Hc, Hc1, Hc0, <- !app_assoc; reflexivity|].
    split; [by rewrite Ha, Ha1, Ha0|]. split.
    + intros ->. by rewrite Hd0, Hd.
    + intros Ht. apply Forall_app. split; [by apply Hb0|].
      apply Forall_app. split; [|by apply Hb].
      destruct run; [|constructor]. constructor; [|constructor]. cbn. left.
      split; [apply Hl; by left|]. rewrite Hn. etrans; [exact Hdest|apply join_prefix].
Qed.

Lemma recycle_bounds details run w d w' :
  recycle_post today pid folder details run w d w' ->
  exists issued recycle_dest,
    calls w' = calls w ++ issued
    /\ audit_log w' = audit_log w
    /\ (run = false -> issued = [])
    /\ (today <> [] -> Forall (call_in_bounds lib folder) issued)
    /\ d = <["recycled_to" := Path.to_str recycle_dest]> details
    /\ (run = true -> last issued = Some (SysMove folder recycle_dest))
    /\ last (log w') = Some (recycle_line folder recycle_dest).
Proof.
  intros (w1 & He & _ & Hc & Hl & Ha & ->).
  set (rd := unique_recycle_dest today pid (files w) folder) in *.
  apply (ensure_dir_bounds (Path.parent rd)) in He as (i0 & Hc0 & Ha0 & Hd0 & Hb0).
  2:{ intros Ht. right. by apply recycle_dest_in_recycle. }
  exists (i0 ++ (if run then [SysMove folder rd] else [])), rd.
  split; [by rewrite Hc, Hc0, <- app_assoc|].
  split; [by rewrite Ha, Ha0|]. split; [intros ->; by rewrite Hd0|].
  split.
  { intros Ht. apply Forall_app. split; [by apply Hb0|].
    destruct run; [|constructor]. constructor; [|constructor]. cbn. right.
    split; [reflexivity|]. by apply recycle_dest_in_recycle. }
  split; [reflexivity|]. split.
  - intros ->. by rewrite last_snoc.
  - by rewrite Hl, last_snoc.
Qed.

(** What [ensure_dir dest_dir] followed by lines 220-258 leaves behind. *)
Lemma ensure_then_transfer_summary release details run w d w' :
  (ensure_dir dest_dir run;;
   transfer_and_recycle tool today pid release folder dest_dir details run) w
  = Return (d, w') ->
  exists issued events,
    calls w' = calls w ++ issued
    /\ audit_log w' = audit_log w ++ events
    /\ (run = false -> issued = [])
    /\ (today <> [] -> Forall (call_in_bounds lib folder) issued)
    /\ ((d = error_result (py "no_media_found") details /\ events = [])
        \/ (exists rar out,
              d = error_result (py "unrar_failed") details
              /\ events = [unrar_failed_event release rar out] /\ run = true)
        \/ (exists recycle_dest,
              d = <["recycled_to" := Path.to_str recycle_dest]> details
              /\ events = []
              /\ (run = true -> last issued = Some (SysMove folder recycle_dest))
              /\ last (log w') = Some (recycle_line folder recycle_dest))).
Proof.
  intros H. apply ensure_then_transfer_inv in H as (w0 & He & _ & H).
  apply (ensure_dir_bounds dest_dir) in He as (i0 & Hc0 & Ha0 & Hd0 & Hb0);
    [|by intros _; left].
  assert (forall w1 i1,
            calls w1 = calls w0 ++ i1 -> audit_log w1 = audit_log w0 ->
            (run = false -> i1 = []) ->
            (today <> [] -> Forall (call_in_bounds lib folder) i1) ->
            recycle_post today pid folder details run w1 d w' ->
            exists issued events,
              calls w' = calls w ++ issued
              /\ audit_log w' = audit_log w ++ events
              /\ (run = false -> issued = [])
              /\ (today <> [] -> Forall (call_in_bounds lib folder) issued)
              /\ exists recycle_dest,
                   d = <["recycled_to" := Path.to_str recycle_dest]> details
                   /\ events = []
                   /\ (run = true -> last issued = Some (SysMove folder recycle_dest))
                   /\ last (log w') = Some (recycle_line folder recycle_dest))
    as Hrec.
  { intros w1 i1 Hc1 Ha1 Hd1 Hb1 Hr.
    apply recycle_bounds in Hr as (i2 & rd & Hc2 & Ha2 & Hd2 & Hb2 & -> & Hlast & Hlog).
    exists (i0 ++ i1 ++ i2), []. rewrite app_nil_r.
    split; [by rewrite Hc2, Hc1, Hc0, <- !app_assoc|].
    split; [by rewrite Ha2, Ha1, Ha0|].
    split; [intros ->; by rewrite Hd0, Hd1, Hd2|].
    split; [intros Ht; rewrite !Forall_app; auto|].
    exists rd. split; [reflexivity|]. split; [reflexivity|]. split; [|exact Hlog].
    intros Hrun. specialize (Hlast Hrun).
    rewrite !last_app, Hlast. reflexivity. }
  unfold transfer_cases in H.
  pose proof (content_strategy_found (files w0) folder) as Hcs.
  destruct (content_strategy (files w0) folder) as [rar|vids|extless|].
  - assert (Path.is_under folder rar = true) as Hrar.
    { by apply find_first_rar_under in Hcs. }
    destruct H as (ok & out & w1 & Hx & H).
    assert (exists i1, calls w1 = calls w0 ++ i1 /\ audit_log w1 = audit_log w0
                       /\ (run = false -> i1 = [])
                       /\ (today <> [] -> Forall (call_in_bounds lib folder) i1)
                       /\ (ok = false -> run = true))
      as (i1 & Hc1 & Ha1 & Hd1 & Hb1 & Hok).
    { destruct run.
      - apply extract_rar_inv in Hx as (w2 & code & Hex & _ & _ & Hc & _ & Ha).
        apply (ensure_dir_bounds dest_dir) in Hex as (i & Hci & Hai & _ & Hbi);
          [|by intros _; left].
        exists (i ++ [SysRun (unrar_cmd rar dest_dir)]).
        split; [by rewrite Hc, Hci, <- app_assoc|]. split; [by rewrite Ha, Hai|].
        split; [done|]. split; [|done].
        intros Ht. apply Forall_app. split; [by apply Hbi|].
        constructor; [|constructor]. cbn. by exists rar, dest_dir.
      - rewrite extract_rar_dry in Hx. injection Hx as <- <- <-.
        exists []. rewrite app_nil_r. by repeat split. }
    destruct ok.
    + destruct (Hrec w1 i1 Hc1 Ha1 Hd1 Hb1 H) as (issued & events & ? & ? & ? & ? & ?).
      exists issued, events. by repeat (split; [done|]); right; right.
    + destruct H as (-> & _ & Hc & _ & Ha).
      exists (i0 ++ i1), [unrar_failed_event release rar (last_2000 out)].
      split; [by rewrite Hc, Hc1, Hc0, <- app_assoc|].
      split; [by rewrite Ha, Ha1, Ha0|].
      split; [intros ->; by rewrite Hd0, Hd1|].
      split; [intros Ht; rewrite Forall_app; auto|].
      right. left. exists rar, (last_2000 out). by rewrite Hok.
  - destruct H as (w1 & Hm & H).
    apply moves_bounds in Hm as (i1 & Hc1 & Ha1 & Hd1 & Hb1).
    + by apply (Hrec w1 i1 Hc1 Ha1 Hd1 Hb1) in H
        as (issued & events & ? & ? & ? & ? & ?);
        exists issued, events; repeat (split; [done|]); right; right.
    + intros v Hv. apply (find_video_files_under (files w0)). by rewrite <- Hcs.
    + intros v. by eexists.
  - destruct H as (w1 & Hm & H).
    apply moves_bounds in Hm as (i1 & Hc1 & Ha1 & Hd1 & Hb1).
    + by apply (Hrec w1 i1 Hc1 Ha1 Hd1 Hb1) in H
        as (issued & events & ? & ? & ? & ? & ?);
        exists issued, events; repeat (split; [done|]); right; right.
    + intros v Hv.
      apply (find_large_extensionless_under (files w0) _ default_min_bytes).
      by rewrite <- Hcs.
    + intros v. by eexists.
  - destruct H as (-> & ->).
    exists i0, []. rewrite app_nil_r.
    split; [exact Hc0|]. split; [exact Ha0|]. split; [exact Hd0|].
    split; [exact Hb0|]. by left.
Qed.

End Bounds.

Lemma tv_dest_dir_in_library parsed :
  DST_TV `prefix_of` tv_dest_dir parsed
  /\ DST_TV `prefix_of` Path.parent (tv_dest_dir parsed).
Proof.
  unfold tv_dest_dir. split.
  - etrans; apply join_prefix.
  - rewrite parent_join by done. apply join_prefix.
Qed.

Lemma movie_dest_dir_in_library parsed :
  DST_MOVIES `prefix_of` movie_dest_dir parsed
  /\ DST_MOVIES `prefix_of` Path.parent (movie_dest_dir parsed).
Proof.
  unfold movie_dest_dir. split; [apply join_prefix|].
  rewrite parent_join; [reflexivity|]. by destruct (title parsed).
Qed.

(** What a processor leaves behind, for the kind and the library of each. *)
Lemma process_summary
    (tool : list (list N) -> list (list (list N) * node) ->
            exc (Z * list N * list (list (list N) * node)))
    (today : list N) (pid : N) kind lib folder run w d w' :
  (kind = py "tv" /\ lib = DST_TV
   /\ process_series_folder tool today pid folder run w = Return (d, w'))
  \/ (kind = py "movie" /\ lib = DST_MOVIES
      /\ process_movie_folder tool today pid folder run w = Return (d, w')) ->
  exists issued events,
    calls w' = calls w ++ issued
    /\ audit_log w' = audit_log w ++ events
    /\ (run = false -> issued = [])
    /\ (today <> [] -> Forall (call_in_bounds lib folder) issued)
    /\ ((d = unparseable_result kind folder /\ events = [] /\ issued = [])
        \/ exists dest_dir,
             let details := ok_details kind folder dest_dir in
             (d = error_result (py "no_media_found") details /\ events = [])
             \/ (exists rar out,
                   d = error_result (py "unrar_failed") details
                   /\ events = [unrar_failed_event (Path.name folder) rar out]
                   /\ run = true)
             \/ (exists recycle_dest,
                   d = <["recycled_to" := Path.to_str recycle_dest]> details
                   /\ events = []
                   /\ (run = true ->
                       last issued = Some (SysMove folder recycle_dest))
                   /\ last (log w') = Some (recycle_line folder recycle_dest))).
Proof.
  intros [(-> & -> & H)|(-> & -> & H)].
  - destruct (parse_tv_total (Path.name folder)) as [[parsed|] Hp].
    + rewrite (process_series_folder_parsed _ _ _ _ _ _ _ Hp) in H.
      destruct (tv_dest_dir_in_library parsed) as [H1 H2].
      destruct (ensure_then_transfer_summary tool today pid DST_TV folder _ H1 H2
                  _ _ _ _ _ _ H) as (issued & events & ? & ? & ? & ? & Hd).
      exists issued, events. repeat (split; [done|]). right. by eexists.
    + rewrite (process_series_folder_unparseable _ _ _ _ _ _ Hp) in H.
      injection H as <- <-. exists [], []. rewrite !app_nil_r.
      repeat (split; [done|]). by left.
  - destruct (parse_movie_total (Path.name folder)) as [[parsed|] Hp].
    + rewrite (process_movie_folder_parsed _ _ _ _ _ _ _ Hp) in H.
      destruct (movie_dest_dir_in_library parsed) as [H1 H2].
      destruct (ensure_then_transfer_summary tool today pid DST_MOVIES folder _ H1 H2
                  _ _ _ _ _ _ H) as (issued & events & ? & ? & ? & ? & Hd).
      exists issued, events. repeat (split; [done|]). right. by eexists.
    + rewrite (process_movie_folder_unparseable _ _ _ _ _ _ Hp) in H.
      injection H as <- <-. exists [], []. rewrite !app_nil_r.
      repeat (split; [done|]). by left.
Qed.

(** X8: a processor stays within bounds.  Whatever the folder holds and
    whatever the extraction tool does, every call issued while a folder is
    processed (the writing of the log apart) makes a directory in the
    library or in the recycle area,
    moves something from below the folder into the library, moves the
    folder itself into the recycle area, or runs the extraction of an
    archive below the folder into the library.  Nothing outside the folder
    is ever moved, and nothing is moved or created elsewhere. *)
Theorem processing_stays_in_bounds
    (tool : list (list N) -> list (list (list N) * node) ->
            exc (Z * list N * list (list (list N) * node)))
    (today : list N) (pid : N) (lib folder : list (list N)) (run : bool)
    (w : world) (d : gmap string (list N)) (w' : world) :
  today <> [] ->
  (lib = DST_TV
   /\ process_series_folder tool today pid folder run w = Return (d, w'))
  \/ (lib = DST_MOVIES
      /\ process_movie_folder tool today pid folder run w = Return (d, w')) ->
  exists issued,
    calls w' = calls w ++ issued
    /\ Forall (call_in_bounds lib folder) issued.
Proof.
  intros Ht H.
  assert (exists kind,
             (kind = py "tv" /\ lib = DST_TV
              /\ process_series_folder tool today pid folder run w = Return (d, w'))
             \/ (kind = py "movie" /\ lib = DST_MOVIES
                 /\ process_movie_folder tool today pid folder run w = Return (d, w')))
    as [kind Hk].
  { destruct H as [[-> H]|[-> H]]; [exists (py "tv")|exists (py "movie")]; auto. }
  destruct (process_summary _ _ _ _ _ _ _ _ _ _ Hk)
    as (issued & events & Hc & _ & _ & Hb & _).
  exists issued. split; [exact Hc|]. by apply Hb.
Qed.

Lemma processing_in_bounds_witness :
  exists d w',
    process_series_folder tool_ok sample_today 4242 show_folder true show_with_mkv
    = Return (d, w')
    /\ Forall (call_in_bounds DST_TV show_folder) (calls w').
Proof.
  destruct (process_series_folder tool_ok sample_today 4242 show_folder true
              show_with_mkv) as [[d w']|e] eqn:HE;
    [|exfalso; vm_compute in HE; discriminate HE].
  destruct (processing_stays_in_bounds tool_ok sample_today 4242 DST_TV show_folder
              true _ _ _ ltac:(discriminate) (or_introl (conj eq_refl HE)))
    as (issued & Hc & Hb).
  exists d, w'. split; [reflexivity|].
  rewrite Hc. exact Hb.
Defined.

(** X9: what a result says about the folder.  Every result names the
    folder and its release and has the status [ok] or [error]; a result
    with status [ok] has no reason and names the recycle destination, the
    last line logged is the retirement of the folder to that destination
    and, when the processor performs, the last call issued is that move: a
    folder reported [ok] was retired, and nothing was done after that. *)
Theorem ok_result_is_retired
    (tool : list (list N) -> list (list (list N) * node) ->
            exc (Z * list N * list (list (list N) * node)))
    (today : list N) (pid : N) (folder : list (list N)) (run : bool)
    (w : world) (d : gmap string (list N)) (w' : world) :
  process_series_folder tool today pid folder run w = Return (d, w')
  \/ process_movie_folder tool today pid folder run w = Return (d, w') ->
  d !! "release" = Some (Path.name folder)
  /\ d !! "path" = Some (Path.to_str folder)
  /\ (d !! "status" = Some (py "ok") \/ d !! "status" = Some (py "error"))
  /\ (d !! "status" = Some (py "ok") ->
      d !! "reason" = None
      /\ exists recycle_dest,
           d !! "recycled_to" = Some (Path.to_str recycle_dest)
           /\ last (log w') = Some (recycle_line folder recycle_dest)
           /\ (run = true -> last (calls w') = Some (SysMove folder recycle_dest))
           /\ (run = false -> calls w' = calls w)).
Proof.
  intros H.
  assert (exists kind lib,
             (kind = py "tv" /\ lib = DST_TV
              /\ process_series_folder tool today pid folder run w = Return (d, w'))
             \/ (kind = py "movie" /\ lib = DST_MOVIES
                 /\ process_movie_folder tool today pid folder run w = Return (d, w')))
    as (kind & lib & Hk).
  { destruct H as [H|H]; [exists (py "tv"), DST_TV|exists (py "movie"), DST_MOVIES];
      auto. }
  destruct (process_summary _ _ _ _ _ _ _ _ _ _ Hk)
    as (issued & events & Hc & _ & Hdry & _ & Hd).
  destruct Hd as [(-> & _ & _)|(dest_dir & [(-> & _)|[(rar & out & -> & _)|Hd]])].
  - unfold unparseable_result. split; [by map_lookup|]. split; [by map_lookup|].
    split; [right; by map_lookup|]. map_lookup. by intros [=].
  - unfold error_result, ok_details. split; [by map_lookup|]. split; [by map_lookup|].
    split; [right; by map_lookup|]. map_lookup. by intros [=].
  - unfold error_result, ok_details. split; [by map_lookup|]. split; [by map_lookup|].
    split; [right; by map_lookup|]. map_lookup. by intros [=].
  - destruct Hd as (rd & -> & _ & Hlast & Hlog).
    unfold ok_details. split; [by map_lookup|]. split; [by map_lookup|].
    split; [left; by map_lookup|]. intros _. split; [by map_lookup|].
    exists rd. split; [by map_lookup|]. split; [exact Hlog|]. split.
    + intros Hrun. rewrite Hc, last_app, (Hlast Hrun). reflexivity.
    + intros Hrun. by rewrite Hc, (Hdry Hrun), app_nil_r.
Qed.

Lemma ok_result_witness :
  exists d w' recycle_dest,
    process_series_folder tool_ok sample_today 4242 show_folder true show_with_mkv
    = Return (d, w')
    /\ d !! "status" = Some (py "ok")
    /\ d !! "recycled_to" = Some (Path.to_str recycle_dest)
    /\ last (calls w') = Some (SysMove show_folder recycle_dest).
Proof.
  destruct (process_series_folder tool_ok sample_today 4242 show_folder true
              show_with_mkv) as [[d w']|e] eqn:HE;
    [|exfalso; vm_compute in HE; discriminate HE].
  assert (match process_series_folder tool_ok sample_today 4242 show_folder true
                  show_with_mkv with
          | Return (d0, _) => d0 !! "status"
          | Raise _ => None
          end = Some (py "ok")) as Hok by (vm_compute; reflexivity).
  rewrite HE in Hok.
  destruct (ok_result_is_retired tool_ok sample_today 4242 show_folder true _ _ _
              (or_introl HE)) as (_ & _ & _ & Hr).
  destruct (Hr Hok) as (_ & rd & Hrec & _ & Hlast & _).
  exists d, w', rd. split; [reflexivity|]. split; [exact Hok|].
  split; [exact Hrec|]. by apply Hlast.
Defined.

(** The video files, lines 235-238 and 287-290. *)
Lemma videos_outcome
    (tool : list (list N) -> list (list (list N) * node) ->
            exc (Z * list N * list (list (list N) * node)))
    (today : list N) (pid : N) release folder dest_dir details run w d w' vids :
  content_strategy (files w) folder = VideoFiles vids ->
  (ensure_dir dest_dir run;;
   transfer_and_recycle tool today pid release folder dest_dir details run) w
  = Return (d, w') ->
  exists issued lines recycle_dest,
    calls w' = calls w ++ issued
    /\ log w' = log w ++ lines
    /\ List.filter is_move issued
       = (if run
          then map (fun v => SysMove v (dest_dir // Path.name v)) vids
               ++ [SysMove folder recycle_dest]
          else [])
    /\ forall v, In v vids -> In (move_line v (dest_dir // Path.name v)) lines.
Proof.
  intros Hs H.
  apply ensure_then_transfer_inv in H as (w1 & (_ & _ & Hc1 & Hl1 & _) & Hs1 & H).
  unfold transfer_cases in H. rewrite Hs1, Hs in H.
  destruct H as (w2 & Hm & Hr).
  apply moves_post_moves in Hm as (i2 & l2 & Hc2 & Hl2 & Hf2 & Hin).
  apply recycle_post_moves in Hr as (i3 & l3 & Hc3 & Hl3 & Hf3).
  eexists. eexists. eexists. split; [|split; [|split]].
  - rewrite Hc3, Hc2, Hc1, <- !app_assoc. reflexivity.
  - rewrite Hl3, Hl2, Hl1, <- !app_assoc. reflexivity.
  - rewrite !List.filter_app, filter_mkdir_opt, Hf2, Hf3. by destruct run.
  - intros f Hf. apply in_or_app. right. apply in_or_app. left. by apply Hin.
Qed.

(** X10: when the VideoFiles strategy is selected, the moves issued when
    performing are those of the video files, in the order of discovery,
    each into the destination directory under its own file name, followed
    by the retirement of the folder; in both modes the log names each of
    them.  The target of a file depends on its name alone: the tree below
    the folder is flattened, and two files with one name in different
    subfolders go to one path. *)
Theorem video_files_keep_their_names
    (tool : list (list N) -> list (list (list N) * node) ->
            exc (Z * list N * list (list (list N) * node)))
    (today : list N) (pid : N) (folder dest_dir : list (list N)) (run : bool)
    (w : world) (d : gmap string (list N)) (w' : world)
    (vids : list (list (list N))) :
  content_strategy (files w) folder = VideoFiles vids ->
  (exists parsed,
      parse_tv (Path.name folder) = Return (Some parsed)
      /\ dest_dir = tv_dest_dir parsed
      /\ process_series_folder tool today pid folder run w = Return (d, w'))
  \/ (exists parsed,
        parse_movie (Path.name folder) = Return (Some parsed)
        /\ dest_dir = movie_dest_dir parsed
        /\ process_movie_folder tool today pid folder run w = Return (d, w')) ->
  exists issued lines recycle_dest,
    calls w' = calls w ++ issued
    /\ log w' = log w ++ lines
    /\ List.filter is_move issued
       = (if run
          then map (fun v => SysMove v (dest_dir // Path.name v)) vids
               ++ [SysMove folder recycle_dest]
          else [])
    /\ (forall v, In v vids -> In (move_line v (dest_dir // Path.name v)) lines)
    /\ (forall v1 v2 dst1 dst2,
          In (SysMove v1 dst1) issued -> In (SysMove v2 dst2) issued ->
          In v1 vids -> In v2 vids ->
          Path.name v1 = Path.name v2 -> dst1 = dst2).
Proof.
  intros Hs H.
  assert (exists details,
             (ensure_dir dest_dir run;;
              transfer_and_recycle tool today pid (Path.name folder) folder
                dest_dir details run) w = Return (d, w'))
    as (details & Hrun).
  { destruct H as [(parsed & Hp & -> & H)|(parsed & Hp & -> & H)].
    - rewrite (process_series_folder_parsed _ _ _ _ _ _ _ Hp) in H. eauto.
    - rewrite (process_movie_folder_parsed _ _ _ _ _ _ _ Hp) in H. eauto. }
  destruct (videos_outcome _ _ _ _ _ _ _ _ _ _ _ _ Hs Hrun)
    as (issued & lines & rd & Hc & Hl & Hf & Hin).
  exists issued, lines, rd. repeat (split; [done|]).
  assert (forall v dst, In (SysMove v dst) issued -> In v vids ->
                        dst = dest_dir // Path.name v \/ v = folder) as Hdst.
  { intros v dst Hi _.
    assert (In (SysMove v dst) (List.filter is_move issued)) as Hi'.
    { apply filter_In. by split. }
    rewrite Hf in Hi'. destruct run; [|done].
    apply in_app_or in Hi' as [Hi'|[Hi'|[]]].
    - apply in_map_iff in Hi' as (v' & [= -> ->] & _). by left.
    - injection Hi' as -> _. by right. }
  assert (~ In folder vids) as Hnot.
  { intros Hv.
    pose proof (content_strategy_found (files w) folder) as Hfound.
    rewrite Hs in Hfound. rewrite Hfound in Hv.
    apply find_video_files_under in Hv. unfold Path.is_under in Hv.
    apply andb_prop in Hv as [Hv _]. apply Nat.ltb_lt in Hv. lia. }
  intros v1 v2 dst1 dst2 H1 H2 Hv1 Hv2 Hn.
  destruct (Hdst _ _ H1 Hv1) as [->| ->]; [|done].
  destruct (Hdst _ _ H2 Hv2) as [->| ->]; [|done].
  by rewrite Hn.
Qed.

Lemma video_files_witness :
  exists d w' recycle_dest,
    process_series_folder tool_ok sample_today 4242 show_folder true show_with_mkv
    = Return (d, w')
    /\ List.filter is_move (calls w')
       = [ SysMove (show_folder // py "show.name.s01e02.mkv")
             (show_dest_dir // py "show.name.s01e02.mkv");
           SysMove show_folder recycle_dest ].
Proof.
  assert (content_strategy (files show_with_mkv) show_folder
          = VideoFiles [show_folder // py "show.name.s01e02.mkv"])
    as HS by (vm_compute; reflexivity).
  assert (parse_tv (Path.name show_folder)
          = Return (Some (mkParsedTV (py "Show Name") (Some 2020%Z) 1 2))) as HP
    by (vm_compute; reflexivity).
  destruct (process_series_folder tool_ok sample_today 4242 show_folder true
              show_with_mkv) as [[d w']|e] eqn:HE;
    [|exfalso; vm_compute in HE; discriminate HE].
  destruct (video_files_keep_their_names tool_ok sample_today 4242 show_folder
              show_dest_dir true _ _ _ _ HS
              (or_introl (ex_intro _ _ (conj HP (conj eq_refl HE)))))
    as (issued & lines & rd & Hc & _ & Hf & _).
  exists d, w', rd. split; [reflexivity|].
  rewrite Hc. change (calls show_with_mkv) with (@nil syscall). cbn [app].
  exact Hf.
Defined.

(** ** The items of a source root *)

Lemma path_le_total : Total path_le.
Proof.
  intros p q. unfold path_le.
  destruct (trichotomyT lexico p q) as [[H| ->]|H].
  - left. intros H'. by apply (strict_anti_symm (R:=lexico) p q).
  - left. apply (irreflexivity lexico).
  - right. intros H'. by apply (strict_anti_symm (R:=lexico) p q).
Qed.

Lemma path_le_trans : Transitive path_le.
Proof.
  intros p q r Hpq Hqr Hrp. unfold path_le in *.
  destruct (trichotomyT lexico p q) as [[H| ->]|H]; [|done|done].
  destruct (trichotomyT lexico q r) as [[H'| ->]|H']; [|done|done].
  apply (strict_anti_symm (R:=lexico) p r); [by trans q|done].
Qed.

Lemma StronglySorted_list_filter {A} (R : relation A) (f : A -> bool) l :
  StronglySorted R l -> StronglySorted R (List.filter f l).
Proof.
  induction 1 as [|x l _ IH Hx]; [constructor|].
  cbn [List.filter]. destruct (f x); [|exact IH].
  constructor; [exact IH|].
  rewrite List.Forall_forall in Hx |- *. intros y Hy.
  apply filter_In in Hy as [Hy _]. by apply Hx.
Qed.

Lemma is_item_spec p :
  is_item p = true
  <-> (Path.name p ∉ SKIP_NAMES) /\ starts_with_dot (Path.name p) = false.
Proof.
  unfold is_item. rewrite andb_true_iff, !negb_true_iff, bool_decide_eq_false.
  reflexivity.
Qed.

Lemma iterdir_in fs root entries p :
  iterdir fs root = Return entries ->
  In p entries <-> In p (map fst fs) /\ p <> [] /\ Path.parent p = root.
Proof.
  unfold iterdir. destruct (Fs.lookup fs root) as [[|sz]|]; [|discriminate..].
  intros [= <-]. rewrite filter_In, bool_decide_eq_true. reflexivity.
Qed.

Lemma iter_items_in fs root items p :
  iter_items fs root = Return items ->
  In p items ->
  In p (map fst fs) /\ p <> [] /\ Path.parent p = root /\ is_item p = true.
Proof.
  unfold iter_items. destruct (negb (Fs.path_exists fs root)); [by intros [= <-]|].
  destruct (iterdir fs root) as [entries|e] eqn:E; [|discriminate].
  cbn. intros [= <-] Hin. apply filter_In in Hin as [Hin Hit].
  unfold sorted in Hin. apply list_elem_of_In in Hin.
  rewrite merge_sort_Permutation in Hin. apply list_elem_of_In in Hin.
  apply (iterdir_in _ _ _ _ E) in Hin as (? & ? & ?). done.
Qed.

(** X11: the items of a source root.  A root that is a regular file makes
    the enumeration raise; otherwise the items are, in ascending order of
    their paths, exactly the entries directly in the root whose name is
    neither [.DS_Store] nor [#recycle] and does not start with a period;
    there are none when the root is missing. *)
Theorem iter_items_lists_sorted_entries (fs : list (list (list N) * node))
    (root : list (list N)) :
  (Fs.is_file fs root = true -> iter_items fs root = Raise "NotADirectoryError")
  /\ (Fs.is_file fs root = false ->
      exists items,
        iter_items fs root = Return items
        /\ StronglySorted path_le items
        /\ forall p,
             In p items
             <-> Fs.path_exists fs root = true
                 /\ In p (map fst fs) /\ p <> [] /\ Path.parent p = root
                 /\ (Path.name p ∉ SKIP_NAMES)
                 /\ starts_with_dot (Path.name p) = false).
Proof.
  unfold iter_items, Fs.is_file, Fs.path_exists, iterdir.
  destruct (Fs.lookup fs root) as [[|sz]|] eqn:E; cbn [negb].
  - split; [discriminate|]. intros _. eexists. split; [reflexivity|].
    split.
    + apply StronglySorted_list_filter. unfold sorted.
      apply StronglySorted_merge_sort; [apply path_le_trans|apply path_le_total].
    + intros p. rewrite filter_In, is_item_spec. unfold sorted.
      assert (In p (merge_sort path_le
                      (List.filter
                         (fun p0 => bool_decide (p0 <> [] /\ Path.parent p0 = root))
                         (fst <$> fs)))
              <-> In p (map fst fs) /\ p <> [] /\ Path.parent p = root) as ->.
      { rewrite <- list_elem_of_In, merge_sort_Permutation, list_elem_of_In,
          filter_In, bool_decide_eq_true. reflexivity. }
      tauto.
  - split; [done|discriminate].
  - split; [discriminate|]. intros _. exists []. split; [reflexivity|].
    split; [constructor|]. intros p. split; [intros []|]. by intros [? _].
Qed.

(** ** The whole run *)

Lemma item_event_lookup (r : gmap string (list N)) (k : string) :
  item_event r !! k
  = match r !! k with
    | Some x => Some x
    | None => if bool_decide (k = "event") then Some (py "item") else None
    end.
Proof.
  unfold item_event. destruct (r !! k) as [x|] eqn:E.
  - by apply lookup_union_Some_l.
  - rewrite lookup_union_r by exact E.
    destruct (decide (k = "event")) as [->|Hk].
    + by rewrite lookup_singleton_eq.
    + rewrite lookup_singleton_ne by done. by rewrite bool_decide_eq_false_2.
Qed.

Lemma item_event_is_item r : r !! "event" = None -> is_item_event (item_event r) = true.
Proof.
  intros H. unfold is_item_event. rewrite item_event_lookup, H.
  by apply bool_decide_eq_true.
Qed.

Lemma item_event_status r :
  r !! "status" = Some (py "ok") \/ r !! "status" = Some (py "error") ->
  status_ok (item_event r) = status_ok r.
Proof.
  intros H. unfold status_ok. rewrite item_event_lookup.
  by destruct H as [-> | ->].
Qed.

Lemma audited_items_app l1 l2 :
  audited_items (l1 ++ l2) = audited_items l1 ++ audited_items l2.
Proof. apply List.filter_app. Qed.

(** What a processor returns and gives to [audit]. *)
Lemma process_result
    (tool : list (list N) -> list (list (list N) * node) ->
            exc (Z * list N * list (list (list N) * node)))
    (today : list N) (pid : N) kind lib folder run w d w' :
  (kind = py "tv" /\ lib = DST_TV
   /\ process_series_folder tool today pid folder run w = Return (d, w'))
  \/ (kind = py "movie" /\ lib = DST_MOVIES
      /\ process_movie_folder tool today pid folder run w = Return (d, w')) ->
  d !! "kind" = Some kind /\ d !! "path" = Some (Path.to_str folder)
  /\ d !! "event" = None
  /\ (d !! "status" = Some (py "ok") \/ d !! "status" = Some (py "error"))
  /\ exists events issued,
       audit_log w' = audit_log w ++ events /\ audited_items events = []
       /\ calls w' = calls w ++ issued
       /\ (today <> [] -> Forall (call_in_bounds lib folder) issued).
Proof.
  intros Hk.
  destruct (process_summary _ _ _ _ _ _ _ _ _ _ Hk)
    as (issued & events & Hc & Ha & _ & Hb & Hd).
  destruct Hd as [(-> & -> & _)|(dest_dir & [(-> & ->)|[(rar & out & -> & -> & _)|Hd]])].
  - unfold unparseable_result. do 3 (split; [by map_lookup|]).
    split; [right; by map_lookup|]. by exists [], issued.
  - unfold error_result, ok_details. do 3 (split; [by map_lookup|]).
    split; [right; by map_lookup|]. by exists [], issued.
  - unfold error_result, ok_details. do 3 (split; [by map_lookup|]).
    split; [right; by map_lookup|]. eexists. exists issued. by split; [exact Ha|].
  - destruct Hd as (rd & -> & -> & _).
    unfold ok_details. do 3 (split; [by map_lookup|]).
    split; [left; by map_lookup|]. by exists [], issued.
Qed.

(** An invariant of the loop over the items, kept by each item that is
    processed and audited. *)
Lemma process_items_fold
    (process : list (list N) -> bool -> M (gmap string (list N)))
    (Inv : world -> list (gmap string (list N)) -> Prop) run items :
  (forall item w r w1 results,
      In item items -> Fs.is_dir (files w) item = true ->
      process item run w = Return (r, w1) ->
      Inv w results ->
      Inv (mkWorld (files w1) (calls w1) (log w1) (audit_log w1 ++ [item_event r]))
          (results ++ [r])) ->
  forall results w results' w',
    process_items process items run results w = Return (results', w') ->
    Inv w results -> Inv w' results'.
Proof.
  induction items as [|item items IH]; intros Hstep results w results' w' H HI.
  - injection H as <- <-. exact HI.
  - unfold process_items in H. cbn [for_each] in H.
    apply bind_inv in H as (acc & w1 & Hb & H).
    rewrite gets_bind in Hb.
    assert (forall item0 w0 r w2 results0,
               In item0 items -> Fs.is_dir (files w0) item0 = true ->
               process item0 run w0 = Return (r, w2) ->
               Inv w0 results0 ->
               Inv (mkWorld (files w2) (calls w2) (log w2)
                      (audit_log w2 ++ [item_event r])) (results0 ++ [r]))
      as Hstep'.
    { intros item0 w0 r w2 results0 Hin. apply Hstep. by right. }
    destruct (Fs.is_dir (files w) item) eqn:Ed; cbn [negb] in Hb.
    + apply bind_inv in Hb as (r & w2 & Hp & Hb).
      apply bind_inv in Hb as ([] & w3 & Ha & Hb).
      injection Hb as <- <-. unfold audit in Ha. injection Ha as <-.
      apply (IH Hstep' _ _ _ _ H).
      apply (Hstep item w r w2 results); [by left|done..].
    + injection Hb as <- <-. by apply (IH Hstep' _ _ _ _ H).
Qed.

Section MainFacts.

Variable tool :
    list (list N) -> list (list (list N) * node) ->
    exc (Z * list N * list (list (list N) * node)).
Variable today : list N.
Variable pid : N.

(** One loop of [main]: the events audited meanwhile are the results
    appended, one item event each. *)
Lemma process_items_audit kind lib root process fs items run results w results' w' :
  (kind = py "tv" /\ lib = DST_TV
   /\ process = process_series_folder tool today pid)
  \/ (kind = py "movie" /\ lib = DST_MOVIES
      /\ process = process_movie_folder tool today pid) ->
  iter_items fs root = Return items ->
  process_items process items run results w = Return (results', w') ->
  exists rs events issued,
    results' = results ++ rs
    /\ audit_log w' = audit_log w ++ events
    /\ audited_items events = map item_event rs
    /\ Forall (result_of_item kind root) rs
    /\ calls w' = calls w ++ issued
    /\ (today <> [] -> Forall (call_of_item lib root) issued).
Proof.
  intros Hk Hitems H.
  apply (process_items_fold process
           (fun w1 res =>
              exists rs events issued,
                res = results ++ rs
                /\ audit_log w1 = audit_log w ++ events
                /\ audited_items events = map item_event rs
                /\ Forall (result_of_item kind root) rs
                /\ calls w1 = calls w ++ issued
                /\ (today <> [] -> Forall (call_of_item lib root) issued))
           run items)
    in H; [exact H| |].
  - intros item w0 r w1 res Hin Hdir Hp
      (rs & events & issued & -> & Ha & Hev & Hall & Hc & Hb).
    assert ((kind = py "tv" /\ lib = DST_TV
             /\ process_series_folder tool today pid item run w0 = Return (r, w1))
            \/ (kind = py "movie" /\ lib = DST_MOVIES
                /\ process_movie_folder tool today pid item run w0 = Return (r, w1)))
      as Hk'.
    { destruct Hk as [(? & ? & ->)|(? & ? & ->)]; auto. }
    apply process_result in Hk'
      as (Hkind & Hpath & Hevent & Hst & ev1 & i1 & Ha1 & Hev1 & Hc1 & Hb1).
    apply (iter_items_in _ _ _ _ Hitems) in Hin as (_ & Hne & Hpar & Hit).
    exists (rs ++ [r]), (events ++ ev1 ++ [item_event r]), (issued ++ i1).
    split; [by rewrite app_assoc|]. cbn [audit_log calls].
    split; [by rewrite Ha1, Ha, <- !app_assoc|].
    split.
    { rewrite !audited_items_app, Hev, Hev1, map_app. cbn [app map].
      unfold audited_items. cbn [List.filter].
      by rewrite (item_event_is_item _ Hevent). }
    split.
    { apply Forall_app. split; [exact Hall|]. constructor; [|constructor].
      by exists item. }
    split; [by rewrite Hc1, Hc, app_assoc|].
    intros Ht. apply Forall_app. split; [by apply Hb|].
    eapply List.Forall_impl; [|exact (Hb1 Ht)].
    intros c Hcb. by exists item.
  - exists [], [], []. by rewrite !app_nil_r.
Qed.

(** What [main] returns and audits. *)
Lemma main_summary run w code w' :
  main tool today pid run w = Return (code, w') ->
  (exists p,
      missing_root (files w) = Some p /\ code = 2%Z
      /\ w' = add_log [py "ERROR missing path: " ++ Path.to_str p] w)
  \/ (missing_root (files w) = None
      /\ exists series movies events,
           let results := series ++ movies in
           let ok := length (List.filter status_ok results) in
           let err := length (List.filter (fun r => negb (status_ok r)) results) in
           audit_log w'
           = audit_log w ++ [start_event run] ++ events ++ [done_event ok err]
           /\ audited_items events = map item_event results
           /\ Forall (result_of_item (py "tv") SRC_SERIES) series
           /\ Forall (result_of_item (py "movie") SRC_MOVIES) movies
           /\ last (log w') = Some (done_line ok err)
           /\ code = (if (err =? 0)%nat then 0%Z else 1%Z)
           /\ exists issued1 issued2,
                calls w' = calls w ++ issued1 ++ issued2
                /\ (today <> [] ->
                    Forall (call_of_item DST_TV SRC_SERIES) issued1
                    /\ Forall (call_of_item DST_MOVIES SRC_MOVIES) issued2)).
Proof.
  unfold main. rewrite gets_bind.
  destruct (missing_root (files w)) as [p|] eqn:Em.
  - intros H. left. exists p. unfold log_line in H. injection H as <- <-. done.
  - intros H. right. split; [reflexivity|].
    apply bind_inv in H as ([] & w1 & H1 & H). unfold log_line in H1.
    injection H1 as <-.
    apply bind_inv in H as ([] & w2 & H2 & H). unfold audit in H2.
    injection H2 as <-. cbn [files calls log audit_log] in H.
    apply bind_inv in H as (items1 & w3 & H3 & H).
    unfold reads, lift in H3. cbn [files] in H3.
    destruct (iter_items (files w) SRC_SERIES) as [it1|e] eqn:E1; [|discriminate].
    injection H3 as <- <-.
    apply bind_inv in H as (res1 & w4 & H4 & H).
    apply (process_items_audit (py "tv") DST_TV SRC_SERIES _ _ _ _ _ _ _ _
             (or_introl (conj eq_refl (conj eq_refl eq_refl))) E1) in H4
      as (rs1 & ev1 & i1 & -> & Ha1 & Hev1 & Hall1 & Hc1 & Hb1).
    apply bind_inv in H as (items2 & w5 & H5 & H).
    unfold reads, lift in H5.
    destruct (iter_items (files w4) SRC_MOVIES) as [it2|e] eqn:E2; [|discriminate].
    injection H5 as <- <-.
    apply bind_inv in H as (res2 & w6 & H6 & H).
    apply (process_items_audit (py "movie") DST_MOVIES SRC_MOVIES _ _ _ _ _ _ _ _
             (or_intror (conj eq_refl (conj eq_refl eq_refl))) E2) in H6
      as (rs2 & ev2 & i2 & -> & Ha2 & Hev2 & Hall2 & Hc2 & Hb2).
    apply bind_inv in H as ([] & w7 & H7 & H). unfold log_line in H7.
    injection H7 as <-.
    apply bind_inv in H as ([] & w8 & H8 & H). unfold audit in H8.
    injection H8 as <-. injection H as <- <-.
    cbn [files calls log audit_log app] in *.
    exists rs1, rs2, (ev1 ++ ev2). cbn zeta.
    split; [by rewrite Ha2, Ha1, <- !app_assoc|].
    split; [by rewrite audited_items_app, Hev1, Hev2, map_app|].
    split; [exact Hall1|]. split; [exact Hall2|].
    split; [by rewrite last_snoc|]. split; [reflexivity|].
    exists i1, i2. split; [by rewrite Hc2, Hc1, <- app_assoc|]. auto.
Qed.

End MainFacts.

Lemma count_partition {A} (f : A -> bool) l :
  (length (List.filter f l) + length (List.filter (fun x => negb (f x)) l))%nat
  = length l.
Proof.
  induction l as [|x l IH]; [reflexivity|].
  cbn [List.filter]. destruct (f x); cbn [negb length]; lia.
Qed.

Lemma none_failed {A} (f : A -> bool) l :
  length (List.filter (fun x => negb (f x)) l) = 0%nat
  <-> Forall (fun x => f x = true) l.
Proof.
  induction l as [|x l IH]; [by split|].
  cbn [List.filter]. rewrite Forall_cons. destruct (f x); cbn [negb length].
  - rewrite IH. tauto.
  - split; [lia|]. by intros [? _].
Qed.

Lemma start_event_not_item run : is_item_event (start_event run) = false.
Proof.
  unfold is_item_event, start_event. map_lookup. by apply bool_decide_eq_false.
Qed.

Lemma done_event_not_item ok err : is_item_event (done_event ok err) = false.
Proof.
  unfold is_item_event, done_event. map_lookup. by apply bool_decide_eq_false.
Qed.

Lemma missing_root_Some fs p :
  missing_root fs = Some p -> In p required_roots /\ Fs.path_exists fs p = false.
Proof.
  intros H. apply find_some in H as [H1 H2]. split; [exact H1|].
  by apply negb_true_iff in H2.
Qed.

Lemma missing_root_None fs :
  missing_root fs = None <->
  forall p, In p required_roots -> Fs.path_exists fs p = true.
Proof.
  split.
  - intros H p Hp. apply (find_none _ _ H) in Hp. by apply negb_false_iff in Hp.
  - intros H. destruct (missing_root fs) as [p|] eqn:E; [|reflexivity].
    apply missing_root_Some in E as [E1 E2]. by rewrite (H p E1) in E2.
Qed.

(** X12: the exit status of a run.  It is 2 exactly when one of the five
    roots is missing, and then no item was processed: nothing was audited
    and no call was issued; it is 0 exactly when the roots exist and every
    result audited has the status [ok], and 1 otherwise.  A run that got past the check audits the
    start event first and the done event last, and the done event and the
    last log line carry the number of results with status [ok] and the
    number of the others. *)
Theorem main_exit_status
    (tool : list (list N) -> list (list (list N) * node) ->
            exc (Z * list N * list (list (list N) * node)))
    (today : list N) (pid : N) (run : bool) (w : world) (code : Z) (w' : world) :
  main tool today pid run w = Return (code, w') ->
  exists events,
    audit_log w' = audit_log w ++ events
    /\ (code = 0 \/ code = 1 \/ code = 2)%Z
    /\ (code = 2%Z
        <-> exists p, In p required_roots /\ Fs.path_exists (files w) p = false)
    /\ (code = 2%Z -> events = [] /\ calls w' = calls w)
    /\ (code = 0%Z
        <-> (forall p, In p required_roots -> Fs.path_exists (files w) p = true)
            /\ Forall (fun e => status_ok e = true) (audited_items events))
    /\ (code <> 2%Z ->
        exists ok err,
          head events = Some (start_event run)
          /\ last events = Some (done_event ok err)
          /\ last (log w') = Some (done_line ok err)
          /\ ok = length (List.filter status_ok (audited_items events))
          /\ (ok + err)%nat = length (audited_items events)).
Proof.
  intros H. apply main_summary in H as [(p & Hm & -> & ->)|(Hm & H)].
  - exists []. rewrite app_nil_r. split; [reflexivity|]. split; [auto|].
    pose proof (missing_root_Some _ _ Hm) as [Hp1 Hp2].
    split; [split; [by exists p|done]|]. split; [done|].
    split; [|done]. split; [discriminate|].
    intros [Hall _]. by rewrite (Hall p Hp1) in Hp2.
  - destruct H as (series & movies & events & Ha & Hev & Hs & Hmv & Hlog & Hcode & _).
    cbn zeta in *.
    set (results := series ++ movies) in *.
    set (ok := length (List.filter status_ok results)) in *.
    set (err := length (List.filter (fun r => negb (status_ok r)) results)) in *.
    assert (Forall (fun r => r !! "status" = Some (py "ok")
                             \/ r !! "status" = Some (py "error")) results) as Hst.
    { apply Forall_app. split; (eapply List.Forall_impl; [|eassumption]);
        by intros r (p & _ & _ & _ & _ & _ & _ & ?). }
    assert (audited_items ([start_event run] ++ events ++ [done_event ok err])
            = map item_event results) as Hitems.
    { rewrite !audited_items_app, Hev. unfold audited_items. cbn [List.filter].
      by rewrite start_event_not_item, done_event_not_item, app_nil_r. }
    assert (List.filter status_ok (map item_event results)
            = map item_event (List.filter status_ok results)) as Hfilter.
    { clear -Hst. induction Hst as [|r rs Hr _ IH]; [reflexivity|].
      cbn [map List.filter]. rewrite (item_event_status _ Hr), IH.
      by destruct (status_ok r). }
    assert (Forall (fun e => status_ok e = true) (map item_event results)
            <-> err = 0%nat) as Hzero.
    { unfold err. rewrite none_failed. clear -Hst.
      induction Hst as [|r rs Hr _ IH]; [by split|].
      cbn [map]. rewrite !Forall_cons, IH, (item_event_status _ Hr). reflexivity. }
    assert (code <> 2%Z) as Hcode2.
    { rewrite Hcode. by destruct (err =? 0)%nat. }
    exists ([start_event run] ++ events ++ [done_event ok err]).
    split; [exact Ha|].
    split; [rewrite Hcode; destruct (err =? 0)%nat; auto|].
    split.
    { split; [done|]. intros (p & Hp & Hex).
      rewrite missing_root_None in Hm. by rewrite (Hm p Hp) in Hex. }
    split; [done|]. split.
    { rewrite Hitems, Hzero. split.
      - intros Hc. split; [by apply missing_root_None|].
        rewrite Hcode in Hc. destruct (err =? 0)%nat eqn:E; [|discriminate Hc].
        by apply Nat.eqb_eq in E.
      - intros [_ Hz]. rewrite Hcode. apply Nat.eqb_eq in Hz. by rewrite Hz. }
    intros _. exists ok, err. split; [reflexivity|].
    split; [by rewrite !app_assoc, last_snoc|]. split; [exact Hlog|].
    rewrite Hitems. split.
    + by rewrite Hfilter, length_map.
    + rewrite length_map. apply count_partition.
Qed.

Lemma main_exit_status_witness :
  exists code w',
    main tool_ok sample_today 4242 true busy_series = Return (code, w')
    /\ (code = 0 \/ code = 1 \/ code = 2)%Z.
Proof.
  destruct (main tool_ok sample_today 4242 true busy_series) as [[code w']|e] eqn:HE;
    [|exfalso; vm_compute in HE; discriminate HE].
  destruct (main_exit_status _ _ _ _ _ _ _ HE) as (events & _ & Hc & _).
  exists code, w'. split; [reflexivity | exact Hc].
Defined.

(** X13: what a run processes.  The results audited are, first, those of
    the series processor and then those of the movie processor; each is the
    result for an entry directly in the source root of its kind, and the
    name of that entry is neither [.DS_Store] nor [#recycle] and does not
    start with a period.  Nothing else is ever given to a processor. *)
Theorem main_processes_listed_folders
    (tool : list (list N) -> list (list (list N) * node) ->
            exc (Z * list N * list (list (list N) * node)))
    (today : list N) (pid : N) (run : bool) (w : world) (code : Z) (w' : world) :
  main tool today pid run w = Return (code, w') ->
  exists events series movies,
    audit_log w' = audit_log w ++ events
    /\ audited_items events = series ++ movies
    /\ Forall (fun e =>
                 exists p,
                   e !! "kind" = Some (py "tv")
                   /\ e !! "path" = Some (Path.to_str p)
                   /\ p <> [] /\ Path.parent p = SRC_SERIES
                   /\ (Path.name p ∉ SKIP_NAMES)
                   /\ starts_with_dot (Path.name p) = false) series
    /\ Forall (fun e =>
                 exists p,
                   e !! "kind" = Some (py "movie")
                   /\ e !! "path" = Some (Path.to_str p)
                   /\ p <> [] /\ Path.parent p = SRC_MOVIES
                   /\ (Path.name p ∉ SKIP_NAMES)
                   /\ starts_with_dot (Path.name p) = false) movies.
Proof.
  intros H. apply main_summary in H as [(p & Hm & -> & ->)|(Hm & H)].
  - exists [], [], []. by rewrite app_nil_r.
  - destruct H as (series & movies & events & Ha & Hev & Hs & Hmv & _).
    cbn zeta in *.
    assert (forall kind root rs,
               Forall (result_of_item kind root) rs ->
               Forall (fun e =>
                         exists p,
                           e !! "kind" = Some kind
                           /\ e !! "path" = Some (Path.to_str p)
                           /\ p <> [] /\ Path.parent p = root
                           /\ (Path.name p ∉ SKIP_NAMES)
                           /\ starts_with_dot (Path.name p) = false)
                      (map item_event rs)) as Hmap.
    { intros kind root rs Hall. apply Forall_map.
      eapply List.Forall_impl; [|exact Hall].
      intros r (p & Hk & Hp & Hne & Hpar & Hit & _ & _).
      apply is_item_spec in Hit as [Hskip Hdot].
      exists p. rewrite !item_event_lookup, Hk, Hp. done. }
    eexists. exists (map item_event series), (map item_event movies).
    split; [exact Ha|]. split.
    + rewrite !audited_items_app, Hev, map_app. unfold audited_items.
      cbn [List.filter].
      by rewrite start_event_not_item, done_event_not_item, app_nil_r.
    + split; [by apply Hmap|by apply Hmap].
Qed.

Lemma main_processes_witness :
  exists code w' series movies,
    main tool_ok sample_today 4242 true busy_series = Return (code, w')
    /\ audited_items (audit_log w') = series ++ movies
    /\ Forall (fun e => e !! "kind" = Some (py "tv")) series
    /\ Forall (fun e => e !! "kind" = Some (py "movie")) movies.
Proof.
  destruct (main tool_ok sample_today 4242 true busy_series) as [[code w']|e] eqn:HE;
    [|exfalso; vm_compute in HE; discriminate HE].
  destruct (main_processes_listed_folders _ _ _ _ _ _ _ HE)
    as (events & series & movies & Ha & Hev & Hs & Hm).
  exists code, w', series, movies. split; [reflexivity|].
  split; [by rewrite Ha|].
  split; (eapply List.Forall_impl; [|eassumption]); by intros e (p & ? & _).
Defined.

(** In a dry run a processor returns, and changes nothing but the log. *)
Lemma process_dry
    (tool : list (list N) -> list (list (list N) * node) ->
            exc (Z * list N * list (list (list N) * node)))
    (today : list N) (pid : N) kind process :
  (kind = py "tv" /\ process = process_series_folder tool today pid)
  \/ (kind = py "movie" /\ process = process_movie_folder tool today pid) ->
  forall folder w,
    exists d lines,
      process folder false w = Return (d, add_log lines w)
      /\ d !! "kind" = Some kind /\ d !! "path" = Some (Path.to_str folder)
      /\ d !! "event" = None.
Proof.
  intros Hk folder w. destruct Hk as [[-> ->]|[-> ->]].
  - destruct (process_series_folder_dry tool today pid folder w) as (d & lines & H & _).
    exists d, lines. split; [exact H|].
    destruct (process_result tool today pid (py "tv") DST_TV folder false w d _
                (or_introl (conj eq_refl (conj eq_refl H)))) as (? & ? & ? & _).
    done.
  - destruct (process_movie_folder_dry tool today pid folder w) as (d & lines & H & _).
    exists d, lines. split; [exact H|].
    destruct (process_result tool today pid (py "movie") DST_MOVIES folder false w d _
                (or_intror (conj eq_refl (conj eq_refl H)))) as (? & ? & ? & _).
    done.
Qed.

(** One loop of a dry run: every directory among the items gets its
    result, in order. *)
Lemma process_items_dry
    (process : list (list N) -> bool -> M (gmap string (list N)))
    (P : list (list N) -> gmap string (list N) -> Prop) items :
  (forall folder w,
      exists d lines,
        process folder false w = Return (d, add_log lines w) /\ P folder d) ->
  forall results w,
    exists rs lines,
      process_items process items false results w
      = Return (results ++ rs,
                mkWorld (files w) (calls w) (log w ++ lines)
                  (audit_log w ++ map item_event rs))
      /\ Forall2 P (List.filter (Fs.is_dir (files w)) items) rs.
Proof.
  intros Hp. induction items as [|item items IH]; intros results w.
  - exists [], []. cbn. rewrite !app_nil_r. by destruct w.
  - unfold process_items. cbn [for_each List.filter].
    destruct (Fs.is_dir (files w) item) eqn:Ed.
    + destruct (Hp item w) as (d & l1 & Hd & HP).
      set (w1 := mkWorld (files w) (calls w) (log w ++ l1)
                   (audit_log w ++ [item_event d])).
      destruct (IH (results ++ [d]) w1) as (rs & l2 & H & Hall).
      exists (d :: rs), (l1 ++ l2). split; [|by constructor].
      erewrite bind_Return.
      2:{ rewrite gets_bind, Ed. cbn [negb].
          erewrite bind_Return; [|exact Hd].
          unfold audit, add_log. cbn [files calls log audit_log mbind M_bind].
          reflexivity. }
      fold (process_items process items false (results ++ [d])).
      cbn [files calls log audit_log]. fold w1.
      rewrite H. subst w1. cbn [files calls log audit_log map].
      rewrite <- !app_assoc. reflexivity.
    + destruct (IH results w) as (rs & l2 & H & Hall).
      exists rs, l2. split; [|exact Hall].
      erewrite bind_Return; [|by rewrite gets_bind, Ed].
      exact H.
Qed.

(** X14: a dry run as a whole.  Whenever a dry run returns, for a log
    directory that exists, the files are what they were and no call was
    issued.  When the five roots exist, the audit log has gained the start
    event, one item event for every directory among the items of the
    series root, in ascending order, then one for every directory among
    the items of the movie root, and the done event with the numbers of
    results with status [ok] and of the others: every folder is previewed
    once, and nothing else is. *)
Theorem main_dry_run_previews_every_folder
    (tool : list (list N) -> list (list (list N) * node) ->
            exc (Z * list N * list (list (list N) * node)))
    (today : list N) (pid : N) (w : world) (code : Z) (w' : world) :
  Fs.is_dir (files w) LOG_DIR = true ->
  main tool today pid false w = Return (code, w') ->
  files w' = files w /\ calls w' = calls w
  /\ (missing_root (files w) = None ->
      exists series movies rs rm,
        iter_items (files w) SRC_SERIES = Return series
        /\ iter_items (files w) SRC_MOVIES = Return movies
        /\ audit_log w'
           = audit_log w ++ [start_event false] ++ map item_event (rs ++ rm)
               ++ [done_event
                     (length (List.filter status_ok (rs ++ rm)))
                     (length (List.filter (fun r => negb (status_ok r))
                                (rs ++ rm)))]
        /\ Forall2 (fun p r => r !! "kind" = Some (py "tv")
                               /\ r !! "path" = Some (Path.to_str p))
             (List.filter (Fs.is_dir (files w)) series) rs
        /\ Forall2 (fun p r => r !! "kind" = Some (py "movie")
                               /\ r !! "path" = Some (Path.to_str p))
             (List.filter (Fs.is_dir (files w)) movies) rm).
Proof.
  intros _ H. unfold main in H. rewrite gets_bind in H.
  destruct (missing_root (files w)) as [p|] eqn:Em.
  - unfold log_line in H. injection H as _ <-. by repeat split.
  - apply bind_inv in H as ([] & w1 & H1 & H). unfold log_line in H1.
    injection H1 as <-.
    apply bind_inv in H as ([] & w2 & H2 & H). unfold audit in H2.
    injection H2 as <-. cbn [files calls log audit_log] in H.
    apply bind_inv in H as (series & w3 & H3 & H).
    unfold reads, lift in H3. cbn [files] in H3.
    destruct (iter_items (files w) SRC_SERIES) as [it1|e] eqn:Es; [|discriminate].
    injection H3 as <- <-.
    apply bind_inv in H as (res1 & w4 & H4 & H).
    destruct (process_items_dry (process_series_folder tool today pid)
                (fun p r => r !! "kind" = Some (py "tv")
                            /\ r !! "path" = Some (Path.to_str p)) it1)
      with (results := @nil (gmap string (list N)))
           (w := mkWorld (files w) (calls w) (log w ++ [start_line false])
                   (audit_log w ++ [start_event false]))
      as (rs & l1 & E1 & Hall1).
    { intros folder w0.
      destruct (process_dry tool today pid (py "tv") _
                  (or_introl (conj eq_refl eq_refl)) folder w0)
        as (d & lines & ? & ? & ? & _).
      by exists d, lines. }
    cbn [files calls log audit_log] in E1.
    rewrite E1 in H4. injection H4 as <- <-.
    apply bind_inv in H as (movies & w5 & H5 & H).
    unfold reads, lift in H5. cbn [files] in H5.
    destruct (iter_items (files w) SRC_MOVIES) as [it2|e] eqn:Emv; [|discriminate].
    injection H5 as <- <-.
    apply bind_inv in H as (res2 & w6 & H6 & H).
    destruct (process_items_dry (process_movie_folder tool today pid)
                (fun p r => r !! "kind" = Some (py "movie")
                            /\ r !! "path" = Some (Path.to_str p)) it2)
      with (results := rs)
           (w := mkWorld (files w) (calls w) ((log w ++ [start_line false]) ++ l1)
                   ((audit_log w ++ [start_event false]) ++ map item_event rs))
      as (rm & l2 & E2 & Hall2).
    { intros folder w0.
      destruct (process_dry tool today pid (py "movie") _
                  (or_intror (conj eq_refl eq_refl)) folder w0)
        as (d & lines & ? & ? & ? & _).
      by exists d, lines. }
    cbn [files calls log audit_log] in E2, Hall2.
    rewrite E2 in H6. injection H6 as <- <-.
    apply bind_inv in H as ([] & w7 & H7 & H). unfold log_line in H7.
    injection H7 as <-.
    apply bind_inv in H as ([] & w8 & H8 & H). unfold audit in H8.
    injection H8 as <-. injection H as _ <-.
    cbn [files calls log audit_log add_log].
    split; [reflexivity|]. split; [reflexivity|].
    intros _. exists it1, it2, rs, rm.
    split; [reflexivity|]. split; [reflexivity|].
    split; [|split; [exact Hall1|exact Hall2]].
    rewrite map_app, <- !app_assoc. reflexivity.
Qed.

Lemma main_dry_run_witness :
  exists code w',
    main tool_ok sample_today 4242 false busy_series = Return (code, w')
    /\ files w' = files busy_series /\ calls w' = [].
Proof.
  destruct (main tool_ok sample_today 4242 false busy_series) as [[code w']|e] eqn:HE;
    [|exfalso; vm_compute in HE; discriminate HE].
  destruct (main_dry_run_previews_every_folder tool_ok sample_today 4242 busy_series
              code w' eq_refl HE) as (Hf & Hc & _).
  exists code, w'. split; [reflexivity|]. split; [exact Hf|exact Hc].
Defined.

Lemma is_under_parent folder root :
  folder <> [] -> Path.parent folder = root -> Path.is_under root folder = true.
Proof.
  intros Hne <-. unfold Path.parent, Path.is_under.
  destruct (exists_last Hne) as (l & a & ->).
  rewrite removelast_last, length_app, take_app_length. cbn [length].
  apply andb_true_intro. split; [apply Nat.ltb_lt; lia|by apply bool_decide_eq_true].
Qed.

Lemma is_under_trans a b c :
  Path.is_under a b = true -> Path.is_under b c = true -> Path.is_under a c = true.
Proof.
  unfold Path.is_under. intros Hab Hbc.
  apply andb_prop in Hab as [H1 H2]. apply andb_prop in Hbc as [H3 H4].
  apply Nat.ltb_lt in H1, H3. apply bool_decide_eq_true in H2, H4.
  apply andb_true_intro. split; [apply Nat.ltb_lt; lia|].
  apply bool_decide_eq_true.
  assert (take (length a) c = take (length a) (take (length b) c)) as E.
  { rewrite take_take. f_equal. lia. }
  by rewrite E, H4, H2.
Qed.

Lemma call_of_item_run lib root c :
  (lib = DST_TV /\ root = SRC_SERIES) \/ (lib = DST_MOVIES /\ root = SRC_MOVIES) ->
  call_of_item lib root c -> call_of_run c.
Proof.
  intros Hk (folder & Hne & Hpar & _ & Hc).
  pose proof (is_under_parent _ _ Hne Hpar) as Hunder.
  assert (forall p, Path.is_under folder p = true \/ p = folder -> in_sources p)
    as Hsrc.
  { intros p [Hp| ->].
    - pose proof (is_under_trans _ _ _ Hunder Hp).
      destruct Hk as [[_ ->]|[_ ->]]; [by left|by right].
    - destruct Hk as [[_ ->]|[_ ->]]; [by left|by right]. }
  assert (forall p, lib `prefix_of` p ->
                    DST_TV `prefix_of` p \/ DST_MOVIES `prefix_of` p) as Hlib.
  { intros p Hp. destruct Hk as [[-> _]|[-> _]]; auto. }
  destruct c as [p|src dst|cmd]; cbn in Hc |- *.
  - unfold in_targets. destruct Hc as [Hc|Hc]; [apply Hlib in Hc|]; tauto.
  - unfold in_targets. destruct Hc as [[Hs Hd]|[-> Hd]].
    + split; [apply Hsrc; by left|]. apply Hlib in Hd. tauto.
    + split; [apply Hsrc; by right|]. tauto.
  - destruct Hc as (rar & dest_dir & -> & Hr & Hd).
    exists rar, dest_dir. split; [reflexivity|].
    split; [apply Hsrc; by left|by apply Hlib].
Qed.

(** X15: a run stays within bounds.  Every call issued by a run (the
    writing of the log apart) makes a directory in one of the two
    libraries or in the recycle area, moves
    something that lies below one of the two source roots into them, or
    extracts an archive below a source root into a library.  Nothing
    outside the source roots is ever moved, whatever the roots hold and
    whatever the extraction tool does to the file system. *)
Theorem run_stays_in_bounds
    (tool : list (list N) -> list (list (list N) * node) ->
            exc (Z * list N * list (list (list N) * node)))
    (today : list N) (pid : N) (run : bool) (w : world) (code : Z) (w' : world) :
  today <> [] ->
  main tool today pid run w = Return (code, w') ->
  exists issued,
    calls w' = calls w ++ issued
    /\ Forall call_of_run issued.
Proof.
  intros Ht H. apply main_summary in H as [(p & Hm & -> & ->)|(Hm & H)].
  - exists []. by rewrite app_nil_r.
  - destruct H as (series & movies & events & _ & _ & _ & _ & _ & Hcode & H).
    destruct H as (i1 & i2 & Hc & Hb). destruct (Hb Ht) as [Hb1 Hb2].
    exists (i1 ++ i2). split; [exact Hc|].
    apply Forall_app. split; (eapply List.Forall_impl; [|eassumption]);
      intros c; apply call_of_item_run; auto.
Qed.

Lemma run_in_bounds_witness :
  exists code w',
    main tool_ok sample_today 4242 true busy_series = Return (code, w')
    /\ Forall call_of_run (calls w').
Proof.
  destruct (main tool_ok sample_today 4242 true busy_series) as [[code w']|e] eqn:HE;
    [|exfalso; vm_compute in HE; discriminate HE].
  destruct (run_stays_in_bounds tool_ok sample_today 4242 true _ _ _
              ltac:(discriminate) HE) as (issued & Hc & Hb).
  exists code, w'. split; [reflexivity|]. rewrite Hc. exact Hb.
Defined.

(** ** The names of the destination folders *)

Lemma digits_fuel_digits fuel :
  forall n acc,
    Forall (fun c => 48 <= c <= 57) acc ->
    Forall (fun c => 48 <= c <= 57) (digits_fuel fuel n acc).
Proof.
  induction fuel as [|fuel IH]; intros n acc Hacc; [exact Hacc|].
  cbn [digits_fuel].
  assert (Forall (fun c => 48 <= c <= 57) ((48 + n mod 10) :: acc)) as Hacc'.
  { constructor; [|exact Hacc]. pose proof (N.mod_upper_bound n 10 ltac:(lia)) as Hm.
    set (m := n mod 10) in *. clearbody m. lia. }
  destruct (n <? 10); [exact Hacc'|by apply IH].
Qed.

Lemma str_of_N_digits n : Forall (fun c => 48 <= c <= 57) (str_of_N n).
Proof. apply digits_fuel_digits. constructor. Qed.

Lemma format_02d_digits n : Forall (fun c => 48 <= c <= 57) (format_02d n).
Proof.
  unfold format_02d. pose proof (str_of_N_digits (Z.to_N n)) as H.
  destruct (_ <? _)%nat; [constructor; [lia|exact H]|exact H].
Qed.

Lemma join_words_in ws c :
  In c (join_words ws) -> c = 32 \/ In c (List.concat ws).
Proof.
  destruct ws as [|w ws]; [intros []|]. cbn [join_words List.concat].
  intros H. apply in_app_or in H as [H|H]; [right; apply in_or_app; by left|].
  assert (c = 32 \/ In c (List.concat ws)) as [->|H']; [|by left|].
  { clear w. induction ws as [|w ws IH]; [destruct H|].
    cbn [flat_map List.concat] in H |- *. destruct H as [<-|H]; [by left|].
    apply in_app_or in H as [H|H]; [right; apply in_or_app; by left|].
    destruct (IH H) as [->|H']; [by left|right; apply in_or_app; by right]. }
  right. apply in_or_app. by right.
Qed.

Lemma slug_to_name_in s c :
  In c (slug_to_name s) -> c = 32 \/ (In c s /\ c <> 46).
Proof.
  rewrite slug_to_name_words. intros H.
  apply join_words_in in H as [->|H]; [by left|]. right.
  destruct (words_of_spec s) as [_ Hc]. rewrite Hc in H.
  apply filter_In in H as [H1 H2]. split; [exact H1|].
  intros ->. discriminate H2.
Qed.

Lemma named_folder_safe (base : list N) (n : N) :
  ~ In 47 base ->
  safe_component (base ++ py " (" ++ str_of_N n ++ py ")").
Proof.
  intros Hb.
  assert (In 40 (base ++ py " (" ++ str_of_N n ++ py ")")) as H40.
  { apply in_or_app. right. right. by left. }
  split; [intros E; by rewrite E in H40|].
  split; [intros E; rewrite E in H40; by repeat destruct H40 as [H40|H40]|].
  split; [intros E; rewrite E in H40; by repeat destruct H40 as [H40|H40]|].
  intros H. apply in_app_or in H as [H|H]; [done|].
  apply in_app_or in H as [H|H]; [by repeat destruct H as [H|H]|].
  apply in_app_or in H as [H|H]; [|by repeat destruct H as [H|H]].
  pose proof (str_of_N_digits n) as Hd. rewrite List.Forall_forall in Hd.
  specialize (Hd _ H). lia.
Qed.

(** X16: the destination of a parsed release lies inside the library.
    For a release name without a slash, the destination directory is the
    library root followed by one or two names (one, for a series whose
    show comes out empty), each of which is a proper directory name: not
    empty, not [.] or [..] and without a slash.  No release name makes a
    processor write outside its library. *)
Theorem destinations_are_inside_library (release : list N) :
  ~ In 47 release ->
  (forall parsed,
      parse_tv release = Return (Some parsed) ->
      exists names,
        tv_dest_dir parsed = DST_TV ++ names
        /\ (1 <= length names <= 2)%nat
        /\ Forall safe_component names)
  /\ (forall parsed,
         parse_movie release = Return (Some parsed) ->
         exists name,
           movie_dest_dir parsed = DST_MOVIES ++ [name]
           /\ safe_component name).
Proof.
  intros Hrel.
  assert (forall sh t, release = sh ++ t -> ~ In 47 (slug_to_name sh)) as Hslug.
  { intros sh t -> H. apply slug_to_name_in in H as [H|[H _]]; [discriminate H|].
    apply Hrel. apply in_or_app. by left. }
  split.
  - intros parsed Hp. rewrite parse_tv_eq in Hp.
    destruct (split_lazy tv_suffix release) as [[sh [[[yy ss] ee] rest]]|] eqn:Hs;
      [|discriminate Hp].
    injection Hp as <-.
    apply split_lazy_inv in Hs as (t & Ht & _).
    specialize (Hslug _ _ Ht).
    unfold tv_dest_dir, tv_record. cbn [show tv_year season].
    set (season_folder := py "Season " ++ format_02d (int_value ss)).
    assert (safe_component season_folder) as Hseason.
    { unfold season_folder. split; [done|]. split; [done|]. split; [done|].
      intros H. apply in_app_or in H as [H|H]; [by repeat destruct H as [H|H]|].
      pose proof (format_02d_digits (int_value ss)) as Hd.
      rewrite List.Forall_forall in Hd. specialize (Hd _ H). lia. }
    assert (season_folder <> []) as Hne by apply Hseason.
    assert (forall p, p // season_folder = p ++ [season_folder]) as Hjoin.
    { intros p. unfold Path.join. by destruct season_folder. }
    destruct yy as [y|]; cbn [fmap option_fmap option_map].
    + set (sf := slug_to_name sh ++ py " (" ++ str_of_N (Z.to_N (int_value y)) ++ py ")").
      pose proof (named_folder_safe _ (Z.to_N (int_value y)) Hslug) as Hsf.
      fold sf in Hsf.
      exists [sf; season_folder]. rewrite Hjoin.
      assert (DST_TV // sf = DST_TV ++ [sf]) as ->.
      { unfold Path.join. destruct sf eqn:E; [by destruct Hsf|done]. }
      split; [by rewrite <- app_assoc|]. split; [cbn; lia|].
      constructor; [exact Hsf|]. constructor; [exact Hseason|constructor].
    + destruct (slug_to_name sh) as [|c0 sn] eqn:Esn.
      * exists [season_folder]. rewrite Hjoin. cbn [Path.join].
        split; [reflexivity|]. split; [cbn; lia|].
        constructor; [exact Hseason|constructor].
      * exists [c0 :: sn; season_folder]. rewrite Hjoin. cbn [Path.join].
        split; [by rewrite <- app_assoc|]. split; [cbn; lia|].
        constructor; [|constructor; [exact Hseason|constructor]].
        assert (~ In 46 (c0 :: sn)) as H46.
        { rewrite <- Esn. intros H. by apply slug_to_name_in in H as [H|[_ H]]. }
        split; [done|]. split; [intros E; apply H46; rewrite E; by left|].
        split; [intros E; apply H46; rewrite E; by left|]. exact Hslug.
  - intros parsed Hp. rewrite parse_movie_eq in Hp.
    destruct (split_lazy movie_suffix release) as [[sh [yy rest]]|] eqn:Hs;
      [|discriminate Hp].
    injection Hp as <-.
    apply split_lazy_inv in Hs as (t & Ht & _).
    specialize (Hslug _ _ Ht).
    unfold movie_dest_dir, movie_record. cbn [title movie_year].
    pose proof (named_folder_safe _ (Z.to_N (int_value yy)) Hslug) as Hsf.
    eexists. split; [|exact Hsf].
    unfold Path.join.
    destruct (slug_to_name sh ++ py " (" ++ str_of_N (Z.to_N (int_value yy)) ++ py ")")
      eqn:E; [by destruct Hsf|done].
Qed.

Lemma destinations_witness :
  exists names,
    tv_dest_dir (mkParsedTV (py "Show Name") (Some 2020%Z) 1 2) = DST_TV ++ names
    /\ Forall safe_component names.
Proof.
  destruct (destinations_are_inside_library
              (py "Show.Name.2020.S01E02.1080p.WEB.x264-GRP")) as [Htv _].
  { vm_compute. intuition discriminate. }
  destruct (Htv (mkParsedTV (py "Show Name") (Some 2020%Z) 1 2))
    as (names & H & _ & Hs); [vm_compute; reflexivity|].
  exists names. split; [exact H | exact Hs].
Defined.

(** ** A successful extraction *)




